(** * cyber-vajra: the risk aggregation engines, embedded and verified

    Two Python functions are embedded here, each with its caller:

    - [UrlChecker]: [EnhancedURLChecker.calculate_weighted_risk_score] and
      [check_url_risk] of [fraud-backend-2/services/enhanced_url_checker.py];
    - [ApkAnalysis]: [calculate_risk] and [analyze_apk] of [run_analysis.py].

    Python integers are [Z]; Python floats are IEEE 754 binary64 values, the
    kernel's primitive [float]; a feature dictionary read with
    [d.get(key, default)] is a record of optional fields, an absent key being
    [None]; the dictionary of dangerous permissions and the thresholds are
    [gmap]s keyed by strings; an exception is a value of [result]. *)

From Stdlib Require Import ZArith List String Ascii Bool Lia Floats Uint63.
From stdpp Require Import base option gmap strings pretty.
Import ListNotations.

Set Warnings "-inexact-float".
Local Open Scope string_scope.
Local Open Scope Z_scope.

(** ** Python primitives used by both engines *)

Module Py.

(** An exception is identified by its message, [str(e)]. *)
Definition exn := string.

Inductive result (A : Type) : Type :=
| Ok (a : A)
| Raise (e : exn).
Arguments Ok {A} a.
Arguments Raise {A} e.

Definition bind {A B} (c : result A) (k : A -> result B) : result B :=
  match c with
  | Ok a => k a
  | Raise e => Raise e
  end.

(** [d.get(key, default)] on a field that may be absent. *)
Definition get {A} (field : option A) (dflt : A) : A :=
  match field with
  | Some v => v
  | None => dflt
  end.

(** Truth value of [d.get(key)] for a boolean field: an absent key gives
    [None], which is falsy. *)
Definition truthy (field : option bool) : bool := get field false.

(** [key in d]. *)
Definition has_key {A} (field : option A) : bool :=
  match field with
  | Some _ => true
  | None => false
  end.

(** Truth value of a string: non-empty. *)
Definition nonempty (s : string) : bool := negb (String.eqb s "").

(** [float(n)] for an integer [n]: the primitive conversion below 2^63
    (9223372036854775808), and
    rounding to nearest-even of the integer above it. Beyond the binary64
    range the value is an infinity, where Python raises [OverflowError];
    no integer of the two engines gets there. *)
Definition Z2F (z : Z) : float :=
  let a := Z.abs z in
  let f := if a <? 9223372036854775808 then PrimFloat.of_uint63 (Uint63.of_Z a)
           else SF2Prim (binary_normalize prec emax a 0 false) in
  if z <? 0 then PrimFloat.opp f else f.

(** [int(x)] for a float [x]: truncation toward zero; [ValueError] on a
    NaN and [OverflowError] on an infinity. *)
Definition int_of_float (x : float) : result Z :=
  match Prim2SF x with
  | S754_zero _ => Ok 0
  | S754_finite neg m e =>
      let mag := if 0 <=? e then Z.shiftl (Zpos m) e
                 else Z.shiftr (Zpos m) (- e) in
      Ok (if neg then - mag else mag)
  | S754_infinity _ => Raise "cannot convert float infinity to integer"
  | S754_nan => Raise "cannot convert float NaN to integer"
  end.

(** [a / b] on two integers (true division). As in CPython's
    [long_true_divide]: a zero divisor raises, a zero dividend gives a
    signed zero, and otherwise, for operands that are exact as floats
    (below 2^53 in magnitude, which every count here is), the quotient is
    the IEEE division of the converted operands. *)
Definition truediv (a b : Z) : result float :=
  if b =? 0 then Raise "division by zero"
  else if a =? 0 then Ok (if b <? 0 then (-0)%float else 0%float)
  else Ok (PrimFloat.div (Z2F a) (Z2F b)).

(** [str.lower()], on ASCII letters; other bytes are left as they are. *)
Definition lower_ascii (c : ascii) : ascii :=
  let n := nat_of_ascii c in
  if ((65 <=? n) && (n <=? 90))%nat then ascii_of_nat (n + 32) else c.

Fixpoint lower (s : string) : string :=
  match s with
  | EmptyString => EmptyString
  | String c s' => String (lower_ascii c) (lower s')
  end.

(** [s.replace(old, new)] for a non-empty [old]: occurrences are replaced
    from left to right and do not overlap. [skip] counts the characters of
    the occurrence being replaced that are still to be dropped. *)
Fixpoint replace_from (old new : string) (skip : nat) (s : string) : string :=
  match s with
  | EmptyString => EmptyString
  | String c s' =>
      match skip with
      | S k => replace_from old new k s'
      | O =>
          if String.prefix old s
          then new ++ replace_from old new (String.length old - 1) s'
          else String c (replace_from old new 0 s')
      end
  end.

Definition replace (old new s : string) : string := replace_from old new 0 s.

(** [s.endswith(suffix)]. *)
Fixpoint endswith (s suffix : string) : bool :=
  String.eqb s suffix
  || match s with
     | EmptyString => false
     | String _ s' => endswith s' suffix
     end.

(** [sep.join(parts)]. *)
Fixpoint join (sep : string) (parts : list string) : string :=
  match parts with
  | [] => ""
  | [p] => p
  | p :: rest => p ++ sep ++ join sep rest
  end.

(** [s.split(sep)[-1]] for a one-character separator: the text after the
    last separator, the whole string when there is none. *)
Fixpoint last_field (sep : ascii) (s : string) (acc : string) : string :=
  match s with
  | EmptyString => acc
  | String c s' =>
      if Ascii.eqb c sep then last_field sep s' ""
      else last_field sep s' (acc ++ String c "")
  end.

(** [str(n)] of an integer inside an f-string. *)
Definition str_int (n : Z) : string := pretty n.

End Py.

Import Py.

(** [result] is an error monad: [x ← c; k] runs [k] on the value of [c] and
    propagates what [c] raises. *)
#[global] Instance result_ret : MRet result := fun _ a => Ok a.
#[global] Instance result_bind : MBind result := fun _ _ k c => Py.bind c k.

Ltac run_bind := cbn [mbind mret result_bind result_ret Py.bind].

(** ** The URL risk aggregation engine
       ([services/enhanced_url_checker.py]) *)

Module UrlChecker.

(** *** Feature dictionaries

    One record per dictionary the aggregation reads, one optional field per
    key it looks up. The analyzers put more keys in; the aggregation never
    reads them. *)

Record ReputationF := {
  is_on_blacklist : option bool;
  is_gsb_threat : option bool;
  virustotal_positives : option Z }.

Record DomainF := {
  domain_age : option Z;
  has_ssl : option bool;
  suspicious_tld : option bool;
  uses_ip : option bool }.

Record SecurityHeaders := {
  hsts : option bool;
  csp : option bool;
  x_frame_options : option bool }.

Record DnsRecords := {
  has_mx : option bool;
  has_spf : option bool }.

Record NetworkF := {
  is_reachable : option bool;
  has_security_headers : option SecurityHeaders;
  suspicious_redirects : option bool;
  dns_records : option DnsRecords }.

Record PatternFeatures := {
  suspicious_keywords_found : option (list string);
  brand_impersonation : option bool }.

Record ContentF := {
  content_risk_score : option float;
  pattern_features : option PatternFeatures }.

Record BrandAnalysis := {
  is_impersonation : option bool;
  confidence : option float;
  suspected_brand : option string }.

Record VisualF := {
  brand_analysis : option BrandAnalysis;
  visual_similarity_score : option float }.

(** The empty dictionaries [{}]. *)
Definition no_reputation := Build_ReputationF None None None.
Definition no_domain := Build_DomainF None None None None.
Definition no_headers := Build_SecurityHeaders None None None.
Definition no_dns := Build_DnsRecords None None.
Definition no_network := Build_NetworkF None None None None.
Definition no_patterns := Build_PatternFeatures None None.
Definition no_content := Build_ContentF None None.
Definition no_brand := Build_BrandAnalysis None None None.
Definition no_visual := Build_VisualF None None.

(** *** The running state of [calculate_weighted_risk_score]

    The three locals of the function. The source appends plain strings to
    [risk_components] and [positive_signals]; each entry is kept here with
    the amount that the branch appending it adds to [risk_score] (negative
    for a deduction), which the source does not store. *)

Definition entry : Type := string * Z.

Record scoring := {
  risk_score : Z;
  risk_components : list entry;
  positive_signals : list entry }.

Definition start : scoring := Build_scoring 0 [] [].

(** [risk_score += n] alone. *)
Definition bump (n : Z) (s : scoring) : scoring :=
  Build_scoring (risk_score s + n) (risk_components s) (positive_signals s).

(** [risk_score += n; risk_components.append(msg)]. *)
Definition risk (n : Z) (msg : string) (s : scoring) : scoring :=
  Build_scoring (risk_score s + n) (risk_components s ++ [(msg, n)])%list
                (positive_signals s).

(** [risk_score -= n; positive_signals.append(msg)]. *)
Definition positive (n : Z) (msg : string) (s : scoring) : scoring :=
  Build_scoring (risk_score s - n) (risk_components s)
                (positive_signals s ++ [(msg, - n)])%list.

(** [positive_signals.append(msg)] alone. *)
Definition signal (msg : string) (s : scoring) : scoring :=
  Build_scoring (risk_score s) (risk_components s)
                (positive_signals s ++ [(msg, 0)])%list.

Definition messages (l : list entry) : list string := map fst l.
Definition contributions (l : list entry) : Z := fold_right Z.add 0 (map snd l).

(** *** The rules, in the order of the source *)

(** 1. Reputation, after the blacklist test. *)
Definition reputation_rule (reputation_f : ReputationF) (s : scoring) : scoring :=
  let vt_positives := get (virustotal_positives reputation_f) 0 in
  if vt_positives >? 10 then
    risk 60 ("VirusTotal: " ++ str_int vt_positives ++ " detections") s
  else if vt_positives >? 5 then
    risk 40 ("VirusTotal: " ++ str_int vt_positives ++ " detections") s
  else if vt_positives >? 0 then
    risk 20 ("VirusTotal: " ++ str_int vt_positives ++ " detection(s)") s
  else signal "Clean reputation (0 detections)" s.

(** 2. Domain: age, SSL, TLD, IP-literal host. *)
Definition domain_age_rule (domain_f : DomainF) (s : scoring) : scoring :=
  let age := get (domain_age domain_f) (-1) in
  if age >? 365 * 5 then
    positive 15 ("Established domain (" ++ str_int (age / 365) ++ " years)") s
  else if age >? 365 * 2 then
    positive 10 ("Mature domain (" ++ str_int (age / 365) ++ " years)") s
  else if age >? 365 then positive 5 "Domain over 1 year old" s
  else if age >? 90 then bump 5 s
  else if age >? 30 then risk 15 "Relatively new domain" s
  else if age >? 0 then
    risk 30 ("Very new domain (" ++ str_int age ++ " days)") s
  else bump 10 s.

Definition ssl_rule (domain_f : DomainF) (s : scoring) : scoring :=
  if truthy (has_ssl domain_f) then signal "Valid SSL certificate" s
  else risk 25 "No SSL certificate" s.

Definition tld_rule (domain_f : DomainF) (s : scoring) : scoring :=
  if truthy (suspicious_tld domain_f) then risk 15 "Suspicious TLD" s else s.

Definition ip_rule (domain_f : DomainF) (s : scoring) : scoring :=
  if truthy (uses_ip domain_f) then risk 20 "Uses IP address" s else s.

(** 3. Network. [sum([...])] over three booleans counts the true ones. *)
Definition security_count (h : SecurityHeaders) : Z :=
  Z.b2z (get (hsts h) false) + Z.b2z (get (csp h) false)
  + Z.b2z (get (x_frame_options h) false).

Definition headers_rule (network_f : NetworkF) (s : scoring) : scoring :=
  let n := security_count (get (has_security_headers network_f) no_headers) in
  if n >=? 3 then positive 10 "Strong security headers" s
  else if n >=? 2 then positive 5 "Good security headers" s
  else if n =? 0 then risk 10 "No security headers" s
  else s.

Definition redirect_rule (network_f : NetworkF) (s : scoring) : scoring :=
  if truthy (suspicious_redirects network_f)
  then risk 15 "URL redirects detected" s else s.

Definition dns_rule (network_f : NetworkF) (s : scoring) : scoring :=
  let dns := get (dns_records network_f) no_dns in
  if truthy (has_mx dns) && truthy (has_spf dns)
  then positive 5 "Proper DNS configuration" s else s.

Definition network_rule (network_f : NetworkF) (s : scoring) : scoring :=
  if truthy (is_reachable network_f)
  then dns_rule network_f (redirect_rule network_f (headers_rule network_f s))
  else risk 20 "Site unreachable" s.

(** 4. Content: risk score, keywords, brand name in the URL. *)
Definition content_risk_rule (content_f : ContentF) (s : scoring) : scoring :=
  let content_risk := get (content_risk_score content_f) 0%float in
  if PrimFloat.ltb 0.7 content_risk then risk 20 "High-risk content patterns" s
  else if PrimFloat.ltb 0.4 content_risk
  then risk 10 "Suspicious content patterns" s
  else s.

Definition patterns_of (content_f : ContentF) : PatternFeatures :=
  get (pattern_features content_f) no_patterns.

Definition keywords_rule (content_f : ContentF) (s : scoring) : scoring :=
  let suspicious_keywords :=
    get (suspicious_keywords_found (patterns_of content_f)) [] in
  if Z.of_nat (length suspicious_keywords) >? 3 then
    risk 15 ("Multiple suspicious keywords: "
             ++ join ", " (firstn 3 suspicious_keywords)) s
  else if Z.of_nat (length suspicious_keywords) >? 0 then
    risk 5 ("Suspicious keyword(s): " ++ join ", " suspicious_keywords) s
  else s.

Definition url_brand_rule (content_f : ContentF) (s : scoring) : scoring :=
  if truthy (brand_impersonation (patterns_of content_f))
  then risk 25 "Possible brand impersonation in URL" s else s.

(** 5. Visual: brand impersonation and similarity to phishing templates.
    [None] inside an f-string prints as the text None. *)
Definition visual_brand_rule (visual_f : VisualF) (s : scoring) : scoring :=
  let visual_brand := get (brand_analysis visual_f) no_brand in
  let brand := get (suspected_brand visual_brand) "None" in
  if truthy (is_impersonation visual_brand) then
    if PrimFloat.ltb 0.7 (get (confidence visual_brand) 0%float)
    then risk 30 ("High confidence " ++ brand ++ " impersonation") s
    else risk 15 ("Possible " ++ brand ++ " impersonation") s
  else s.

Definition similarity_rule (visual_f : VisualF) (s : scoring) : scoring :=
  let visual_similarity := get (visual_similarity_score visual_f) 0%float in
  if PrimFloat.ltb 0.8 visual_similarity
  then risk 25 "High similarity to known phishing sites" s
  else if PrimFloat.ltb 0.6 visual_similarity
  then risk 10 "Some similarity to phishing patterns" s
  else s.

(** The rules that follow the reputation rule, in order. *)
Definition later_rules (domain_f : DomainF) (content_f : ContentF)
    (visual_f : VisualF) (network_f : NetworkF) (s : scoring) : scoring :=
  let s := domain_age_rule domain_f s in
  let s := ssl_rule domain_f s in
  let s := tld_rule domain_f s in
  let s := ip_rule domain_f s in
  let s := network_rule network_f s in
  let s := content_risk_rule content_f s in
  let s := keywords_rule content_f s in
  let s := url_brand_rule content_f s in
  let s := visual_brand_rule visual_f s in
  similarity_rule visual_f s.

(** Where the rules leave the function: at the early [return] of the
    blacklist test, or at the blend with everything accumulated. *)
Inductive rules_outcome :=
| Returned (s : scoring) (reason : string)
| Accumulated (s : scoring).

Definition blacklisted (reputation_f : ReputationF) : bool :=
  truthy (is_on_blacklist reputation_f) || truthy (is_gsb_threat reputation_f).

Definition run_rules (domain_f : DomainF) (content_f : ContentF)
    (reputation_f : ReputationF) (visual_f : VisualF) (network_f : NetworkF)
    : rules_outcome :=
  if blacklisted reputation_f then
    Returned (Build_scoring 90 [("Blacklisted/Google Safe Browsing threat", 90)] [])
             "Blacklisted or known threat detected"
  else
    Accumulated (later_rules domain_f content_f visual_f network_f
                   (reputation_rule reputation_f start)).

(** 6. The blend with the classifier. [ml_risk = int(ml_prediction * 100)]. *)
Definition ml_risk_of (ml_prediction : float) : result Z :=
  int_of_float (PrimFloat.mul ml_prediction 100).

Definition ml_weight_of (s : scoring) (ml_risk : Z) : float :=
  if (Z.of_nat (length (positive_signals s)) >=? 3) && (ml_risk >? 60)
  then 0.15%float
  else if (Z.of_nat (length (risk_components s)) >=? 3) && (ml_risk <? 40)
  then 0.15%float
  else 0.25%float.

(** [int((1 - ml_weight) * risk_score + ml_weight * ml_risk)]. *)
Definition blend_with (ml_weight : float) (score ml_risk : Z) : result Z :=
  int_of_float
    (PrimFloat.add
       (PrimFloat.mul (PrimFloat.sub 1 ml_weight) (Z2F score))
       (PrimFloat.mul ml_weight (Z2F ml_risk))).

Definition blend (s : scoring) (ml_prediction : option float) : result Z :=
  match ml_prediction with
  | None => Ok (risk_score s)
  | Some p =>
      ml_risk ← ml_risk_of p;
      blend_with (ml_weight_of s ml_risk) (risk_score s) ml_risk
  end.

(** [max(0, min(100, risk_score))]. *)
Definition clamp (score : Z) : Z := Z.max 0 (Z.min 100 score).

(** The summary sentence; a non-empty list is truthy. *)
Definition summary (score : Z) (s : scoring) : string :=
  let positives := messages (positive_signals s) in
  let risks := messages (risk_components s) in
  if score <? 25 then
    match positives with
    | [] => "No significant risk indicators detected"
    | _ => "Low risk - " ++ join "; " (firstn 2 positives)
    end
  else if score <? 60 then
    match risks with
    | [] => "Some suspicious patterns detected"
    | _ => "Medium risk - " ++ join "; " (firstn 2 risks)
    end
  else
    match risks with
    | [] => "Multiple risk indicators present"
    | _ => "High risk - " ++ join "; " (firstn 3 risks)
    end.

(** [calculate_weighted_risk_score]: the pair [(risk_score, reason)], or
    the exception of [int()] on a classifier output that is not finite. *)
Definition calculate_weighted_risk_score (url : string) (domain_f : DomainF)
    (content_f : ContentF) (reputation_f : ReputationF) (visual_f : VisualF)
    (network_f : NetworkF) (ml_prediction : option float)
    : result (Z * string) :=
  match run_rules domain_f content_f reputation_f visual_f network_f with
  | Returned s reason => Ok (risk_score s, reason)
  | Accumulated s =>
      blended ← blend s ml_prediction;
      let score := clamp blended in
      Ok (score, summary score s)
  end.

(** *** [check_url_risk] and its collaborators *)

Definition TRUSTED_DOMAINS : list string :=
  [ "google.com"; "microsoft.com"; "apple.com"; "amazon.com"; "github.com";
    "wikipedia.org"; "stackoverflow.com"; "youtube.com"; "facebook.com";
    "twitter.com"; "linkedin.com"; "paypal.com"; "ebay.com"; "netflix.com";
    "instagram.com" ].

Definition RISK_THRESHOLDS : gmap string Z :=
  {[ "legitimate" := 25; "suspicious" := 60; "risky" := 100 ]}.

(** [d[key]]: [KeyError] on an absent key. *)
Definition subscript (d : gmap string Z) (key : string) : result Z :=
  match d !! key with
  | Some v => Ok v
  | None => Raise key
  end.

(** The status derivation of [check_url_risk]. *)
Definition derive_status (final_risk_score : Z) : result string :=
  legitimate ← subscript RISK_THRESHOLDS "legitimate";
  if final_risk_score <? legitimate then Ok "legitimate"
  else
    suspicious ← subscript RISK_THRESHOLDS "suspicious";
    if final_risk_score <? suspicious then Ok "suspicious"
    else Ok "risky".

(** The report, with the keys the assessment decides. The [details] and
    [ml_insights] blocks, the tip, the timings and the console output are
    left out. A key that a report shape does not have is [None]. *)
Record Report := {
  r_url : string;
  r_overall_status : string;
  r_risk_score : Z;
  r_reason : string;
  r_trusted_domain : option bool;
  r_ml_model_used : option bool;
  r_error : option string }.

Definition trusted_report (url : string) : Report :=
  {| r_url := url; r_overall_status := "legitimate"; r_risk_score := 0;
     r_reason := "Domain is verified and trusted.";
     r_trusted_domain := Some true; r_ml_model_used := Some false;
     r_error := None |}.

Definition comprehensive_report (url status : string) (final_risk_score : Z)
    (reason : string) (ml_used : bool) : Report :=
  {| r_url := url; r_overall_status := status;
     r_risk_score := final_risk_score; r_reason := reason;
     r_trusted_domain := None; r_ml_model_used := Some ml_used;
     r_error := None |}.

Definition error_report (url : string) (e : exn) : Report :=
  {| r_url := url; r_overall_status := "error"; r_risk_score := -1;
     r_reason := "Analysis failed: " ++ e;
     r_trusted_domain := None; r_ml_model_used := None;
     r_error := Some e |}.

(** The calls [check_url_risk] makes, recorded in order. *)
Inductive call :=
| DomainAnalyzer | ContentAnalyzer | ReputationAnalyzer | NetworkAnalyzer
| VisualAnalyzer | Classifier | Scoring.

(** A computation inside the [try] block: the calls made so far and the
    value or the exception they led to. *)
Definition traced (A : Type) : Type := list call * result A.

#[global] Instance traced_ret : MRet traced := fun _ a => ([], Ok a).
#[global] Instance traced_bind : MBind traced := fun _ _ k c =>
  match c with
  | (t, Ok a) => let '(t', r) := k a in ((t ++ t')%list, r)
  | (t, Raise e) => (t, Raise e)
  end.

Definition invoke {A} (c : call) (r : result A) : traced A := ([c], r).

Section Checker.

(** [urlparse(url).netloc], which raises on a malformed URL. *)
Variable urlparse_netloc : string -> result string.

(** The five analyzers. Each may raise. *)
Variable domain_get_features : string -> result DomainF.
Variable content_get_features : string -> result ContentF.
Variable reputation_get_features : string -> result ReputationF.
Variable network_get_network_features : string -> result NetworkF.
Variable visual_get_features : string -> result VisualF.

(** The ensemble model: [None] unless [models_loaded], [model] and
    [model_features] are all truthy; otherwise feature extraction and
    [predict_proba] as one function of the URL, giving the probability
    of the malicious class or raising. *)
Variable ml_model : option (string -> result float).

Definition is_trusted_domain (url : string) : bool :=
  match urlparse_netloc url with
  | Ok netloc =>
      let domain := replace "www." "" (lower netloc) in
      existsb (fun trusted =>
                 String.eqb domain trusted
                 || endswith domain ("." ++ trusted))
              TRUSTED_DOMAINS
  | Raise _ => false
  end.

(** The inner [try] around the classifier: its exception is logged and
    dropped. Returns [(ml_prediction, ml_used)]. *)
Definition classify (url : string) : traced (option float * bool) :=
  match ml_model with
  | Some predict =>
      match predict url with
      | Ok p => ([Classifier], Ok (Some p, true))
      | Raise _ => ([Classifier], Ok (None, false))
      end
  | None => ([], Ok (None, false))
  end.

Definition analyze (url : string) : traced Report :=
  domain_f ← invoke DomainAnalyzer (domain_get_features url);
  content_f ← invoke ContentAnalyzer (content_get_features url);
  reputation_f ← invoke ReputationAnalyzer (reputation_get_features url);
  network_f ← invoke NetworkAnalyzer (network_get_network_features url);
  visual_f ← invoke VisualAnalyzer (visual_get_features url);
  ml ← classify url;
  scored ← invoke Scoring
             (calculate_weighted_risk_score url domain_f content_f
                reputation_f visual_f network_f (fst ml));
  status ← ([], derive_status (fst scored));
  mret (comprehensive_report url status (fst scored) (snd scored) (snd ml)).

(** [check_url_risk]: the report, with the calls that were made. *)
Definition check_url_risk (url : string) : list call * Report :=
  if is_trusted_domain url then ([], trusted_report url)
  else
    match analyze url with
    | (t, Ok report) => (t, report)
    | (t, Raise e) => (t, error_report url e)
    end.

End Checker.

(** An instance of [urlparse_netloc] for running examples on URLs of the
    plain form [scheme://authority/rest]: the text between the first
    double slash and the next [/], [?] or [#]. *)
Fixpoint authority (s : string) : string :=
  match s with
  | EmptyString => EmptyString
  | String c s' =>
      if (Ascii.eqb c "/" || Ascii.eqb c "?" || Ascii.eqb c "#")%char
      then EmptyString else String c (authority s')
  end.

Fixpoint plain_netloc (s : string) : string :=
  match s with
  | EmptyString => EmptyString
  | String c s' =>
      match c, s' with
      | "/"%char, String "/"%char rest => authority rest
      | _, _ => plain_netloc s'
      end
  end.

End UrlChecker.

(** ** The APK risk scoring engine ([run_analysis.py]) *)

Module ApkAnalysis.

(** Permission -> (weight, explanation, risk type). *)
Definition DANGEROUS_PERMISSIONS : gmap string (Z * string * string) :=
  list_to_map
    [ ("android.permission.READ_SMS",
       (15, "Can read all SMS messages, including private conversations and two-factor authentication codes.", "Spyware Risk"));
      ("android.permission.SEND_SMS",
       (20, "Can send SMS messages from your phone without your knowledge, potentially signing you up for costly premium services.", "Toll Fraud Risk"));
      ("android.permission.READ_CONTACTS",
       (10, "Can access and steal your entire contact list.", "Spyware Risk"));
      ("android.permission.ACCESS_FINE_LOCATION",
       (10, "Can track your precise physical location.", "Spyware Risk"));
      ("android.permission.RECORD_AUDIO",
       (15, "Can record audio using the microphone at any time.", "Spyware Risk"));
      ("android.permission.CAMERA",
       (10, "Can access your camera to take pictures or record video without your knowledge.", "Spyware Risk"));
      ("android.permission.INSTALL_PACKAGES",
       (20, "Can install other applications on your device, which could be malware.", "Malware Risk"));
      ("android.permission.REQUEST_INSTALL_PACKAGES",
       (20, "Can request to install other apps, potentially tricking users into installing malware.", "Trojan Risk"));
      ("android.permission.BIND_DEVICE_ADMIN",
       (25, "Can gain administrative privileges, making the app very difficult to uninstall.", "Malware Risk"));
      ("android.permission.SYSTEM_ALERT_WINDOW",
       (15, "Can draw over other apps, which can be used to create fake login screens and steal passwords.", "Phishing Risk"));
      ("android.permission.QUERY_ALL_PACKAGES",
       (10, "Can see all other apps installed on your device, a potential privacy risk.", "Privacy Risk"));
      ("android.permission.REQUEST_DELETE_PACKAGES",
       (15, "Can request to uninstall other apps, potentially removing security software.", "Persistence Risk"));
      ("android.permission.RECEIVE_BOOT_COMPLETED",
       (5, "Allows the app to start itself as soon as the device finishes booting up.", "Stealth Risk")) ].

(** *** The dictionaries of [analysis_results] *)

Record Metadata := {
  m_error : option string;
  permissions : option (list string);
  file_sha256 : option string }.

Record VtReport := {
  vt_error : option string;
  vt_status : option string;
  positives : option Z;
  total : option Z;
  scan_date : option string }.

Record Warning := {
  w_type : string;
  w_message : string }.

Record AnalysisResults := {
  metadata : option Metadata;
  virustotal : option VtReport;
  clone_analysis : option (list Warning) }.

Definition no_metadata := Build_Metadata None None None.
Definition no_vt := Build_VtReport None None None None None.

Record Reason := {
  level : string;
  risk_type : string;
  message : string }.

(** Truth value of the report dictionary: it has at least one key. *)
Definition vt_truthy (r : VtReport) : bool :=
  has_key (vt_error r) || has_key (vt_status r) || has_key (positives r)
  || has_key (total r) || has_key (scan_date r).

(** *** [calculate_risk] *)

Definition is_dangerous (p : string) : bool :=
  has_key (DANGEROUS_PERMISSIONS !! p).

(** The loop over [dangerous_found]: the weights summed and one reason per
    permission. Every element passed the filter, so the subscript
    [DANGEROUS_PERMISSIONS[perm]] finds its key. *)
Fixpoint permission_loop (dangerous_found : list string)
    (permission_risk : Z) (reasons : list Reason) : Z * list Reason :=
  match dangerous_found with
  | [] => (permission_risk, reasons)
  | perm :: rest =>
      match DANGEROUS_PERMISSIONS !! perm with
      | Some (weight, msg, risk_type) =>
          permission_loop rest (permission_risk + weight)
            (reasons ++ [ {| level := "High Risk Permission";
                             risk_type := risk_type;
                             message := "Requests '" ++ last_field "." perm ""
                                        ++ "': " ++ msg |} ])%list
      | None => permission_loop rest permission_risk reasons
      end
  end.

(** The VirusTotal block: [vt_risk] stays the integer 0 it starts as
    ([None] here) unless the report is usable and [total > 0]. *)
Definition vt_block (vt_report : VtReport) (reasons : list Reason)
    : result (option float * list Reason) :=
  if vt_truthy vt_report && negb (nonempty (get (vt_error vt_report) "")) then
    let positives := get (positives vt_report) 0 in
    let total := get (total vt_report) 1 in
    vt_risk ← (if total >? 0
               then q ← truediv positives total;
                    Ok (Some (PrimFloat.mul q 100))
               else Ok None);
    Ok (vt_risk,
        if positives >? 0
        then (reasons ++ [ {| level := "CRITICAL"; risk_type := "Malware";
                              message := "Flagged by " ++ str_int positives
                                         ++ "/" ++ str_int total
                                         ++ " engines on VirusTotal." |} ])%list
        else reasons)
  else Ok (None, reasons).

Fixpoint heuristic_loop (warnings : list Warning) (heuristic_risk : Z)
    (reasons : list Reason) : Z * list Reason :=
  match warnings with
  | [] => (heuristic_risk, reasons)
  | warning :: rest =>
      heuristic_loop rest
        (heuristic_risk
         + (if String.eqb (w_type warning) "signature_mismatch" then 65 else 45))
        (reasons ++ [ {| level := "CRITICAL";
                         risk_type := "Clone / Impersonation";
                         message := w_message warning |} ])%list
  end.

(** [min(100, int(permission_risk + vt_risk + heuristic_risk))]; the sum
    is an integer sum while [vt_risk] is the integer 0. *)
Definition total_risk (permission_risk : Z) (vt_risk : option float)
    (heuristic_risk : Z) : result Z :=
  match vt_risk with
  | None => Ok (Z.min 100 (permission_risk + 0 + heuristic_risk))
  | Some v =>
      n ← int_of_float
            (PrimFloat.add (PrimFloat.add (Z2F permission_risk) v)
                           (Z2F heuristic_risk));
      Ok (Z.min 100 n)
  end.

Definition confidence_level_of (confidence_score : Z) : string :=
  if confidence_score >=? 81 then "✅ Excellent Confidence"
  else if confidence_score >=? 51 then "⚠️ Fair Confidence"
  else if confidence_score >=? 21 then "🚩 Poor Confidence"
  else if confidence_score >? 10 then "❌ No Confidence - DO NOT INSTALL"
  else "☠️ CRITICAL RISK - MALWARE LIKELY".

(** The three partial risks, as the function has them before the final
    score. *)
Definition partial_risks (analysis_results : AnalysisResults)
    : result (Z * option float * Z * list Reason) :=
  let apk_permissions :=
    get (permissions (get (metadata analysis_results) no_metadata)) [] in
  let dangerous_found := List.filter is_dangerous apk_permissions in
  let '(permission_risk, reasons) := permission_loop dangerous_found 0 [] in
  let vt_report := get (virustotal analysis_results) no_vt in
  vt ← vt_block vt_report reasons;
  let '(heuristic_risk, reasons) :=
    heuristic_loop (get (clone_analysis analysis_results) []) 0 (snd vt) in
  Ok (permission_risk, fst vt, heuristic_risk, reasons).

(** [calculate_risk]:
    [(confidence_score, confidence_level, total_risk_score, reasons)]. *)
Definition calculate_risk (analysis_results : AnalysisResults)
    : result (Z * string * Z * list Reason) :=
  risks ← partial_risks analysis_results;
  let '(permission_risk, vt_risk, heuristic_risk, reasons) := risks in
  total_risk_score ← total_risk permission_risk vt_risk heuristic_risk;
  let confidence_score := 100 - total_risk_score in
  let confidence_level := confidence_level_of confidence_score in
  let reasons :=
    match reasons with
    | [] => [ {| level := "Info"; risk_type := "None Detected";
                 message := "This app appears to be safe based on our analysis." |} ]
    | _ => reasons
    end in
  Ok (confidence_score, confidence_level, total_risk_score, reasons).

(** *** [analyze_apk] *)

Record AiClassification := {
  ai_type : string;
  confidence_percent : Z }.

(** What [analyze_apk] returns: a dictionary with the single key [error],
    or the final report. The pass-through detail blocks other than
    [risk_score] and [ai_analysis] are left out. *)
Inductive ApkReport :=
| ErrorDict (msg : string)
| FinalReport (confidence_score : Z) (confidence_level : string)
    (reasons : list Reason) (risk_score : Z) (ai_analysis : AiClassification).

Section Pipeline.

(** The parsed archive, opaque to the scoring. *)
Variable Apk : Type.

(** The collaborators. [extract_metadata] catches what goes wrong inside
    it and reports it under the key [error]; so does [scan_strings],
    whose result is only passed through and is left out here. *)
Variable path_exists : string -> bool.
Variable open_apk : string -> result Apk.
Variable extract_metadata : string -> Apk -> Metadata.
Variable get_virustotal_report : option string -> result VtReport.
Variable compare_with_known_apps : Metadata -> result (list Warning).

(** The module globals [MODEL] and [FEATURES]: [MODEL] is [None] when no
    classifier file was found; otherwise it maps the 0/1 feature vector
    to [predict_proba(...)[0][0]], the probability of the benign class,
    or raises. *)
Variable MODEL : option (list Z -> result float).
Variable FEATURES : list string.

Definition feature_vector (apk_permissions : list string) : list Z :=
  map (fun feature =>
         if existsb (String.eqb feature) apk_permissions then 1 else 0)
      FEATURES.

(** The block under [if MODEL and FEATURES]. *)
Definition ai_analysis_of (metadata : Metadata) : result AiClassification :=
  match MODEL, FEATURES with
  | Some predict_proba, _ :: _ =>
      let apk_permissions := get (permissions metadata) [] in
      p ← predict_proba (feature_vector apk_permissions);
      let benign_prob := PrimFloat.mul p 100 in
      percent ← int_of_float benign_prob;
      Ok {| ai_type := if PrimFloat.ltb 50 benign_prob
                       then "Likely Benign" else "Potentially Unsafe";
            confidence_percent := percent |}
  | _, _ => Ok {| ai_type := "Not Available"; confidence_percent := 0 |}
  end.

Definition analyze_apk (file_path : string) : result ApkReport :=
  if negb (path_exists file_path)
  then Ok (ErrorDict ("File not found at: " ++ file_path))
  else
    match open_apk file_path with
    | Raise e => Ok (ErrorDict ("Could not process APK file: " ++ e))
    | Ok apk_object =>
        let metadata := extract_metadata file_path apk_object in
        match m_error metadata with
        | Some e => Ok (ErrorDict e)
        | None =>
            vt ← get_virustotal_report (file_sha256 metadata);
            clones ← compare_with_known_apps metadata;
            scored ← calculate_risk
                       {| ApkAnalysis.metadata := Some metadata;
                          virustotal := Some vt;
                          clone_analysis := Some clones |};
            let '(confidence_score, confidence_level, risk_score, reasons) :=
              scored in
            ai_classification ← ai_analysis_of metadata;
            Ok (FinalReport confidence_score confidence_level reasons
                            risk_score ai_classification)
        end
    end.

End Pipeline.

End ApkAnalysis.

(** * The collaborators of the two engines

    The modules below embed the code around the two engines: the helpers
    of the checker that build its insights, the HTTP endpoints that call
    it, the network, reputation, domain and content analyzers whose
    dictionaries it aggregates, the collaborators of [analyze_apk] with
    the entry point of the script, and the rule engine of the separate
    project [apk_analyzer_project]. What a function obtains from a library
    or from the outside (the parsed URL, an HTTP answer, a WHOIS or DNS
    lookup, a similarity ratio) is a variable of its section. *)

(** ** More Python text primitives *)

Module PyText.

(** [s.startswith(prefix)]. *)
Definition startswith (s prefix : string) : bool := String.prefix prefix s.

(** [sub in s] on strings. *)
Fixpoint contains (s sub : string) : bool :=
  String.prefix sub s
  || match s with
     | EmptyString => false
     | String _ s' => contains s' sub
     end.

(** [c.isspace()] on ASCII: tab to carriage return, the four separators
    0x1c-0x1f, and the space. *)
Definition isspace (c : ascii) : bool :=
  let n := nat_of_ascii c in
  (((9 <=? n) && (n <=? 13)) || ((28 <=? n) && (n <=? 32)))%nat.

Fixpoint lstrip (s : string) : string :=
  match s with
  | EmptyString => EmptyString
  | String c s' => if isspace c then lstrip s' else s
  end.

Fixpoint rstrip (s : string) : string :=
  match s with
  | EmptyString => EmptyString
  | String c s' =>
      let r := rstrip s' in
      if isspace c && negb (nonempty r) then EmptyString else String c r
  end.

(** [s.strip()], on ASCII text. *)
Definition strip (s : string) : string := rstrip (lstrip s).

(** [s.count(c)] for a character, and [len(s)]. *)
Fixpoint count_char (c : ascii) (s : string) : Z :=
  match s with
  | EmptyString => 0
  | String d s' => (if Ascii.eqb d c then 1 else 0) + count_char c s'
  end.

Definition len (s : string) : Z := Z.of_nat (String.length s).

(** [\d] of a regular expression, on ASCII text. *)
Definition isdigit (c : ascii) : bool :=
  let n := nat_of_ascii c in ((48 <=? n) && (n <=? 57))%nat.

(** The number of digits a string starts with. *)
Fixpoint leading_digits (s : string) : nat :=
  match s with
  | EmptyString => O
  | String c s' => if isdigit c then S (leading_digits s') else O
  end.

(** [re.search] of [\d{n}] or [\d{n,}]: somewhere, [n] digits in a row. *)
Fixpoint search_digits (n : nat) (s : string) : bool :=
  (n <=? leading_digits s)%nat
  || match s with
     | EmptyString => false
     | String _ s' => search_digits n s'
     end.

(** [min(a, b)] and [max(a, b)] of Python on floats: the first argument
    unless the second is strictly smaller (larger). *)
Definition py_min (a b : float) : float := if PrimFloat.ltb b a then b else a.
Definition py_max (a b : float) : float := if PrimFloat.ltb a b then b else a.

End PyText.

(** ** The other scoring helpers of [services/enhanced_url_checker.py] *)

Module UrlInsights.

Import UrlChecker.

(** [calculate_rule_based_score]: the unweighted score. The [url] argument
    is not read. *)
Definition calculate_rule_based_score (url : string) (domain_f : DomainF)
    (content_f : ContentF) (reputation_f : ReputationF) (visual_f : VisualF)
    : Z :=
  let risk_score := 0 in
  let risk_score :=
    if get (domain_age domain_f) (-1) <? 30 then risk_score + 20
    else if get (domain_age domain_f) (-1) <? 90 then risk_score + 10
    else risk_score in
  let risk_score :=
    if negb (get (has_ssl domain_f) true) then risk_score + 15
    else risk_score in
  let risk_score :=
    if PrimFloat.ltb 0.7 (get (content_risk_score content_f) 0%float)
    then risk_score + 20
    else if PrimFloat.ltb 0.4 (get (content_risk_score content_f) 0%float)
    then risk_score + 10
    else risk_score in
  let risk_score :=
    if get (is_on_blacklist reputation_f) false then risk_score + 35
    else risk_score in
  let risk_score :=
    if get (virustotal_positives reputation_f) 0 >? 5 then risk_score + 30
    else if get (virustotal_positives reputation_f) 0 >? 0 then risk_score + 15
    else risk_score in
  let risk_score :=
    if PrimFloat.ltb 0.7 (get (visual_similarity_score visual_f) 0%float)
    then risk_score + 20
    else if PrimFloat.ltb 0.4 (get (visual_similarity_score visual_f) 0%float)
    then risk_score + 10
    else risk_score in
  let risk_score :=
    if get (is_impersonation (get (brand_analysis visual_f) no_brand)) false
    then risk_score + 15
    else risk_score in
  Z.min 100 risk_score.

(** The dictionary [features_used] that [generate_ml_insights] reads. *)
Record FeaturesUsed := {
  fu_domain_age : option Z;
  fu_has_ssl : option bool;
  fu_has_ip_address : option bool;
  fu_suspicious_keywords_count : option Z }.

Record Insights := {
  mi_model_type : string;
  mi_confidence_level : string;
  mi_feature_count : Z;
  mi_top_risk_indicators : list string;
  mi_ml_recommendation : string }.

(** The four tests, each appending one indicator. *)
Definition risk_indicators_of (features_used : FeaturesUsed) : list string :=
  let risk_indicators := [] in
  let risk_indicators :=
    if get (fu_domain_age features_used) 365 <? 30
    then (risk_indicators ++ ["Very new domain (high risk)"])%list
    else risk_indicators in
  let risk_indicators :=
    if negb (get (fu_has_ssl features_used) true)
    then (risk_indicators ++ ["No SSL certificate"])%list
    else risk_indicators in
  let risk_indicators :=
    if truthy (fu_has_ip_address features_used)
    then (risk_indicators ++ ["Uses IP address instead of domain"])%list
    else risk_indicators in
  if get (fu_suspicious_keywords_count features_used) 0 >? 2
  then (risk_indicators ++ ["Multiple suspicious keywords"])%list
  else risk_indicators.

(** [generate_ml_insights], with the two attributes of the checker it
    reads: [models_loaded] and [model_features] ([None] or an empty list
    being falsy). *)
Definition generate_ml_insights (models_loaded : bool)
    (model_features : option (list string)) (risk_score : Z)
    (features_used : FeaturesUsed) : Insights :=
  {| mi_model_type :=
       if models_loaded then "Ensemble Random Forest" else "Rule-based Fallback";
     mi_confidence_level := if models_loaded then "high" else "medium";
     mi_feature_count :=
       match model_features with
       | Some (f :: fs) => Z.of_nat (length (f :: fs))
       | _ => 0
       end;
     mi_top_risk_indicators := firstn 3 (risk_indicators_of features_used);
     mi_ml_recommendation :=
       if risk_score <? 25
       then "Low risk - likely safe to proceed with normal caution"
       else if risk_score <? 60
       then "Medium risk - verify the site's legitimacy before sharing sensitive data"
       else "High risk - strongly recommend avoiding this site" |}.

(** The dictionary that [check_url_risk] passes as [features_used]. *)
Definition features_used_of (domain_f : DomainF) (content_f : ContentF)
    : FeaturesUsed :=
  {| fu_domain_age := Some (get (domain_age domain_f) (-1));
     fu_has_ssl := Some (get (has_ssl domain_f) false);
     fu_has_ip_address := Some (get (uses_ip domain_f) false);
     fu_suspicious_keywords_count :=
       Some (Z.of_nat (length (get (suspicious_keywords_found
                                      (patterns_of content_f)) []))) |}.

End UrlInsights.

(** ** The HTTP endpoints that call the checker ([routes/url_routes.py]) *)

Module UrlRoutes.

Import PyText UrlChecker.

(** A JSON value as the endpoints tell them apart: a string, or a value
    of another type, known by the name of its Python type. *)
Inductive jvalue :=
| JString (s : string)
| JOther (type_name : string).

(** The body of the request to [/analyze_url], a JSON object: its [url]
    key, when present. *)
Record UrlBody := { body_url : option jvalue }.

(** The body of the request to [/bulk_analyze]: its [urls] key, when
    present, holding a list or something else. *)
Inductive jurls :=
| UrlList (urls : list jvalue)
| NotAList.

Record BulkBody := { body_urls : option jurls }.

(** What an endpoint answers: a JSON payload and a status code. *)
Inductive payload :=
| ErrorJson (error : string) (details : option string)
| ReportJson (report : Report)
| BulkJson (success : bool) (analyzed_count : Z) (results : list Report).

Definition response : Type := payload * Z.

(** ["Add protocol if missing"]. *)
Definition add_protocol (url : string) : string :=
  if startswith url "http://" || startswith url "https://" then url
  else "https://" ++ url.

Section Endpoints.

(** The module-level [checker]: [None] when its construction failed;
    otherwise its [check_url_risk], which may raise. *)
Variable checker : option (string -> result Report).

(** [analyze_url_endpoint]; [request_json] is [request.get_json()], [None]
    inside standing for a body that is falsy. *)
Definition analyze_url_endpoint (request_json : result (option UrlBody))
    : response :=
  let attempt : result response :=
    match checker with
    | None =>
        Ok (ErrorJson "System not initialized"
              (Some "The fraud detection system is not properly initialized."),
            503)
    | Some check_url_risk =>
        data ← request_json;
        match data with
        | None => Ok (ErrorJson "URL is required" None, 400)
        | Some body =>
            match body_url body with
            | None => Ok (ErrorJson "URL is required" None, 400)
            | Some (JOther type_name) =>
                Raise ("'" ++ type_name
                       ++ "' object has no attribute 'strip'")
            | Some (JString u) =>
                let url := strip u in
                if negb (nonempty url)
                then Ok (ErrorJson "URL cannot be empty" None, 400)
                else
                  let url := add_protocol url in
                  final_report ← check_url_risk url;
                  Ok (ReportJson final_report, 200)
            end
        end
    end in
  match attempt with
  | Ok answer => answer
  | Raise e => (ErrorJson "An internal server error occurred" (Some e), 500)
  end.

(** The loop of [bulk_analyze_endpoint] over [urls[:50]]: entries that are
    not non-empty strings are passed over; an exception of the checker
    becomes an error entry. *)
Fixpoint bulk_loop (check_url_risk : string -> result Report)
    (urls : list jvalue) (results : list Report) : list Report :=
  match urls with
  | [] => results
  | JString u :: rest =>
      if nonempty u then
        let url := add_protocol (strip u) in
        match check_url_risk url with
        | Ok result => bulk_loop check_url_risk rest (results ++ [result])%list
        | Raise e =>
            bulk_loop check_url_risk rest (results ++ [error_report url e])%list
        end
      else bulk_loop check_url_risk rest results
  | JOther _ :: rest => bulk_loop check_url_risk rest results
  end.

Definition bulk_analyze_endpoint (request_json : result (option BulkBody))
    : response :=
  let attempt : result response :=
    match checker with
    | None =>
        Ok (ErrorJson "System not initialized"
              (Some "The fraud detection system is not properly initialized."),
            503)
    | Some check_url_risk =>
        data ← request_json;
        match data with
        | None => Ok (ErrorJson "URLs list is required" None, 400)
        | Some body =>
            match body_urls body with
            | None => Ok (ErrorJson "URLs list is required" None, 400)
            | Some NotAList => Ok (ErrorJson "URLs must be a list" None, 400)
            | Some (UrlList urls) =>
                if Z.of_nat (length urls) >? 50
                then Ok (ErrorJson "Maximum 50 URLs allowed per request" None,
                         400)
                else
                  let results := bulk_loop check_url_risk (firstn 50 urls) [] in
                  Ok (BulkJson true (Z.of_nat (length results)) results, 200)
            end
        end
    end in
  match attempt with
  | Ok answer => answer
  | Raise e => (ErrorJson "An internal server error occurred" (Some e), 500)
  end.

End Endpoints.

End UrlRoutes.

(** ** The network analyzer ([analyzers/network_analyzer.py]) *)

Module network_analyzer.

Import PyText UrlChecker.

(** The dictionary [features]: its nine keys, all set from the start. *)
Record Features := {
  nf_is_reachable : bool;
  nf_final_url : string;
  nf_has_csp_header : bool;
  nf_has_hsts_header : bool;
  nf_has_xfo_header : bool;
  nf_outgoing_link_ratio : float;
  nf_dns_has_mx_record : bool;
  nf_dns_has_spf_record : bool;
  nf_network_error : option string }.

(** What [requests.get] followed by [raise_for_status] hands over: the
    final URL, the test of a header name (case-insensitive, as the headers
    of the library are), and the body. *)
Record Response := {
  resp_url : string;
  resp_has_header : string -> bool;
  resp_content : string }.

Section Analyzer.

Variable requests_get : string -> result Response.

(** Whether an exception is a [requests.RequestException], the only kind
    the function catches. *)
Variable is_request_exception : exn -> bool.

(** [BeautifulSoup(content, 'html.parser').find_all('a', href=True)], as
    the list of the [href] values. *)
Variable soup_hrefs : string -> result (list string).

Variable urlparse_netloc : string -> result string.

(** [dns.resolver.resolve(domain, 'MX')] as the number of its answers, and
    [dns.resolver.resolve(domain, 'TXT')] as the texts [str(r)]. *)
Variable resolve_mx : string -> result nat.
Variable resolve_txt : string -> result (list string).

(** The loop over the links: those that start with [http] or [//] are
    counted, as internal when the page's domain occurs in theirs. *)
Fixpoint count_links (domain : string) (hrefs : list string)
    (internal_links external_links : Z) : result (Z * Z) :=
  match hrefs with
  | [] => Ok (internal_links, external_links)
  | href :: rest =>
      if startswith href "http" || startswith href "//" then
        link_domain ← urlparse_netloc href;
        if contains link_domain domain
        then count_links domain rest (internal_links + 1) external_links
        else count_links domain rest internal_links (external_links + 1)
      else count_links domain rest internal_links external_links
  end.

Definition with_mx (b : bool) (f : Features) : Features :=
  {| nf_is_reachable := nf_is_reachable f; nf_final_url := nf_final_url f;
     nf_has_csp_header := nf_has_csp_header f;
     nf_has_hsts_header := nf_has_hsts_header f;
     nf_has_xfo_header := nf_has_xfo_header f;
     nf_outgoing_link_ratio := nf_outgoing_link_ratio f;
     nf_dns_has_mx_record := b;
     nf_dns_has_spf_record := nf_dns_has_spf_record f;
     nf_network_error := nf_network_error f |}.

Definition with_spf (b : bool) (f : Features) : Features :=
  {| nf_is_reachable := nf_is_reachable f; nf_final_url := nf_final_url f;
     nf_has_csp_header := nf_has_csp_header f;
     nf_has_hsts_header := nf_has_hsts_header f;
     nf_has_xfo_header := nf_has_xfo_header f;
     nf_outgoing_link_ratio := nf_outgoing_link_ratio f;
     nf_dns_has_mx_record := nf_dns_has_mx_record f;
     nf_dns_has_spf_record := b;
     nf_network_error := nf_network_error f |}.

Definition with_ratio (r : float) (f : Features) : Features :=
  {| nf_is_reachable := nf_is_reachable f; nf_final_url := nf_final_url f;
     nf_has_csp_header := nf_has_csp_header f;
     nf_has_hsts_header := nf_has_hsts_header f;
     nf_has_xfo_header := nf_has_xfo_header f;
     nf_outgoing_link_ratio := r;
     nf_dns_has_mx_record := nf_dns_has_mx_record f;
     nf_dns_has_spf_record := nf_dns_has_spf_record f;
     nf_network_error := nf_network_error f |}.

Definition with_error (msg : string) (f : Features) : Features :=
  {| nf_is_reachable := nf_is_reachable f; nf_final_url := nf_final_url f;
     nf_has_csp_header := nf_has_csp_header f;
     nf_has_hsts_header := nf_has_hsts_header f;
     nf_has_xfo_header := nf_has_xfo_header f;
     nf_outgoing_link_ratio := nf_outgoing_link_ratio f;
     nf_dns_has_mx_record := nf_dns_has_mx_record f;
     nf_dns_has_spf_record := nf_dns_has_spf_record f;
     nf_network_error := Some msg |}.

(** The inner [try] around the DNS lookups: whatever is raised there is
    dropped, with the flags set so far kept. *)
Definition dns_lookups (features : Features) : Features :=
  match urlparse_netloc (nf_final_url features) with
  | Raise _ => features
  | Ok domain_to_check =>
      match resolve_mx domain_to_check with
      | Raise _ => features
      | Ok mx_records =>
          let features := with_mx (0 <? mx_records)%nat features in
          match resolve_txt domain_to_check with
          | Raise _ => features
          | Ok txt_records =>
              with_spf (existsb (fun r => contains r "v=spf1") txt_records)
                       features
          end
      end
  end.

(** The [except requests.RequestException] clause: the error is noted in
    the features as they stand; any other exception leaves the function. *)
Definition on_exception (features : Features) (e : exn) : result Features :=
  if is_request_exception e
  then Ok (with_error ("Request failed: " ++ e) features)
  else Raise e.

Definition get_network_features (url : string) : result Features :=
  let features :=
    {| nf_is_reachable := false; nf_final_url := url;
       nf_has_csp_header := false; nf_has_hsts_header := false;
       nf_has_xfo_header := false; nf_outgoing_link_ratio := (-1)%float;
       nf_dns_has_mx_record := false; nf_dns_has_spf_record := false;
       nf_network_error := None |} in
  match requests_get url with
  | Raise e => on_exception features e
  | Ok response =>
      let features :=
        {| nf_is_reachable := true; nf_final_url := resp_url response;
           nf_has_csp_header := resp_has_header response "content-security-policy";
           nf_has_hsts_header :=
             resp_has_header response "strict-transport-security";
           nf_has_xfo_header := resp_has_header response "x-frame-options";
           nf_outgoing_link_ratio := (-1)%float;
           nf_dns_has_mx_record := false; nf_dns_has_spf_record := false;
           nf_network_error := None |} in
      match soup_hrefs (resp_content response) with
      | Raise e => on_exception features e
      | Ok hrefs =>
          match urlparse_netloc (nf_final_url features) with
          | Raise e => on_exception features e
          | Ok domain =>
              match count_links domain hrefs 0 0 with
              | Raise e => on_exception features e
              | Ok (internal_links, external_links) =>
                  let total_links := internal_links + external_links in
                  if total_links >? 0 then
                    match truediv external_links total_links with
                    | Raise e => on_exception features e
                    | Ok ratio => Ok (dns_lookups (with_ratio ratio features))
                    end
                  else Ok (dns_lookups features)
              end
          end
      end
  end.

End Analyzer.

(** The dictionary as the aggregation reads it: of the keys it looks up,
    [is_reachable] is the only one among the nine. *)
Definition as_network_f (features : Features) : NetworkF :=
  {| is_reachable := Some (nf_is_reachable features);
     has_security_headers := None;
     suspicious_redirects := None;
     dns_records := None |}.

End network_analyzer.

(** ** The reputation analyzer ([analyzers/reputation_analyzer.py]) *)

Module reputation_analyzer.

Import PyText UrlChecker.

(** The two set literals. Only membership and [any]-style iteration are
    used on them, so the list of the elements stands for the set. They
    are the sets as the module defines them: [add_to_blacklist] and
    [add_to_whitelist], which nothing in the repository calls, would
    change them. *)
Definition KNOWN_MALICIOUS_DOMAINS : list string :=
  [ "malicious-site.tk"; "phishing-example.ml"; "fake-paypal.ga";
    "suspicious-domain.cf"; "suspicious-paypal-login.tk";
    "paypal-verify-account.tk"; "amazon-security.ml"; "amazon-verify.ml" ].

Definition KNOWN_SAFE_DOMAINS : list string :=
  [ "google.com"; "youtube.com"; "facebook.com"; "twitter.com";
    "instagram.com"; "wikipedia.org"; "github.com"; "stackoverflow.com";
    "microsoft.com"; "apple.com"; "amazon.com"; "netflix.com";
    "linkedin.com"; "reddit.com"; "paypal.com"; "ebay.com"; "adobe.com";
    "dropbox.com"; "spotify.com"; "starbucks.com"; "mcdonalds.com";
    "coca-cola.com"; "nike.com"; "adidas.com" ].

(** [x in S] for a set of strings. *)
Definition member (x : string) (S : list string) : bool :=
  existsb (String.eqb x) S.

(** [check_domain_whitelist]. Nothing in its [try] raises on a string. *)
Definition check_domain_whitelist (domain : string) : bool :=
  let clean_domain := replace "www." "" (lower domain) in
  if member clean_domain KNOWN_SAFE_DOMAINS then true
  else existsb (fun safe_domain => endswith clean_domain ("." ++ safe_domain))
               KNOWN_SAFE_DOMAINS.

(** [check_domain_blacklist]. *)
Definition check_domain_blacklist (domain : string) : bool :=
  let clean_domain := replace "www." "" (lower domain) in
  member clean_domain KNOWN_MALICIOUS_DOMAINS.

(** *** Google Safe Browsing *)

(** The entry of the looked-up URL in the answer of [lookup_urls]. *)
Record GsbEntry := {
  gsb_malicious : bool;
  gsb_entry_threat_type : option string }.

(** The dictionary [query_google_safe_browsing] returns. [threat_type] and
    [error] are always present; [None] is Python's [None]. *)
Record GsbResult := {
  is_known_threat : bool;
  threat_type : option string;
  gsb_error : option string }.

(** *** VirusTotal *)

(** The exceptions [query_virustotal] tells apart, by their class. *)
Inductive vt_failure :=
| HTTPError (status_code : Z)
| Timeout
| RequestException (message : string)
| OtherException (message : string).

Inductive outcome (A : Type) : Type :=
| Done (a : A)
| Failed (e : vt_failure).
Arguments Done {A} a.
Arguments Failed {A} e.

(** [last_analysis_stats] and [last_analysis_date] of the answer, each key
    possibly absent. *)
Record VtStats := {
  stat_malicious : option Z;
  stat_suspicious : option Z;
  stat_clean : option Z;
  stat_undetected : option Z;
  last_analysis_date : option Z }.

Record VtResponse := {
  status_code : Z;
  json : outcome VtStats }.

(** The dictionary [query_virustotal] returns. [virustotal_positives],
    [api_available] and [scan_status] are in every shape of it. *)
Record VtResult := {
  qv_error : option string;
  qv_virustotal_positives : Z;
  qv_virustotal_total : option Z;
  qv_api_available : bool;
  qv_scan_status : string;
  qv_message : option string;
  qv_rate_limited : option bool;
  qv_timeout : option bool;
  qv_malicious : option Z;
  qv_suspicious : option Z;
  qv_clean : option Z;
  qv_undetected : option Z;
  qv_scan_date : option (option Z);
  qv_reputation_score : option float }.

(** The shape of every answer without a scan. *)
Definition vt_no_scan (error : option string) (api_available : bool)
    (scan_status : string) : VtResult :=
  {| qv_error := error; qv_virustotal_positives := 0;
     qv_virustotal_total := None; qv_api_available := api_available;
     qv_scan_status := scan_status; qv_message := None;
     qv_rate_limited := None; qv_timeout := None; qv_malicious := None;
     qv_suspicious := None; qv_clean := None; qv_undetected := None;
     qv_scan_date := None; qv_reputation_score := None |}.

(** The dictionary [result] of [get_features]. The first nine keys are
    those of its literal shapes ([None]: the shape has no such key); the
    dictionary of [query_virustotal] merged in by [update] is kept whole
    in [rf_virustotal], its three keys that [result] already has being
    copied over them. *)
Record Features := {
  rf_error : option string;
  rf_domain : option string;
  rf_is_on_blacklist : option bool;
  rf_is_on_whitelist : option bool;
  rf_is_gsb_threat : option bool;
  rf_gsb_threat_type : option (option string);
  rf_virustotal_positives : option Z;
  rf_reputation_score : option float;
  rf_scan_status : string;
  rf_virustotal : option VtResult;
  rf_analysis_timestamp : option float }.

Section Analyzer.

(** The environment variables, [None] when unset. *)
Variable GOOGLE_SAFE_BROWSING_API_KEY : option string.
Variable API_KEY : option string.

(** [SafeBrowsing(api_key).lookup_urls([url])], read at [url]: the entry,
    if the answer has one. *)
Variable lookup_urls : string -> result (option GsbEntry).

(** The request to VirusTotal: the encoding of the URL and
    [requests.get]. *)
Variable vt_request : string -> outcome VtResponse.

Variable urlparse_netloc : string -> result string.

(** [time.time()]. *)
Variable now : float.

(** A key of the environment is used when set and not empty. *)
Definition configured (key : option string) : bool :=
  match key with
  | Some k => nonempty k
  | None => false
  end.

Definition query_google_safe_browsing (url : string) : GsbResult :=
  if negb (configured GOOGLE_SAFE_BROWSING_API_KEY) then
    {| is_known_threat := false; threat_type := Some "api_key_missing";
       gsb_error := None |}
  else
    match lookup_urls url with
    | Raise e =>
        {| is_known_threat := false; threat_type := None;
           gsb_error := Some e |}
    | Ok (Some threat_info) =>
        if gsb_malicious threat_info then
          {| is_known_threat := true;
             threat_type :=
               Some (get (gsb_entry_threat_type threat_info) "Unknown");
             gsb_error := None |}
        else
          {| is_known_threat := false; threat_type := None;
             gsb_error := None |}
    | Ok None =>
        {| is_known_threat := false; threat_type := None; gsb_error := None |}
    end.

(** The four [except] clauses of [query_virustotal], in their order. *)
Definition vt_on_exception (e : vt_failure) : VtResult :=
  match e with
  | HTTPError code =>
      vt_no_scan (Some ("VirusTotal API HTTP error: " ++ str_int code)) true
                 "http_error"
  | Timeout =>
      {| qv_error := Some "VirusTotal API timeout";
         qv_virustotal_positives := 0; qv_virustotal_total := None;
         qv_api_available := true; qv_scan_status := "timeout";
         qv_message := None; qv_rate_limited := None;
         qv_timeout := Some true; qv_malicious := None;
         qv_suspicious := None; qv_clean := None; qv_undetected := None;
         qv_scan_date := None; qv_reputation_score := None |}
  | RequestException msg =>
      vt_no_scan (Some ("VirusTotal API request failed: " ++ msg)) false
                 "request_failed"
  | OtherException msg =>
      vt_no_scan (Some ("Unexpected error during VirusTotal check: " ++ msg))
                 false "unexpected_error"
  end.

(** The scan read from the statistics of a good answer. The division is
    inside the [try] of [query_virustotal]. *)
Definition vt_found (stats : VtStats) : result VtResult :=
  let malicious := get (stat_malicious stats) 0 in
  let suspicious := get (stat_suspicious stats) 0 in
  let clean := get (stat_clean stats) 0 in
  let undetected := get (stat_undetected stats) 0 in
  let total_engines := malicious + suspicious + clean + undetected in
  let positives := malicious + suspicious in
  reputation_score ←
    (if total_engines >? 0 then
       ratio ← truediv positives (Z.max total_engines 1);
       Ok (py_min (PrimFloat.mul ratio 2) 1)
     else Ok 0%float);
  Ok {| qv_error := None; qv_virustotal_positives := positives;
        qv_virustotal_total := Some total_engines; qv_api_available := true;
        qv_scan_status := "found"; qv_message := None;
        qv_rate_limited := None; qv_timeout := None;
        qv_malicious := Some malicious; qv_suspicious := Some suspicious;
        qv_clean := Some clean; qv_undetected := Some undetected;
        qv_scan_date := Some (last_analysis_date stats);
        qv_reputation_score := Some reputation_score |}.

(** [query_virustotal]. [raise_for_status] raises [HTTPError] on a status
    from 400 to 599. *)
Definition query_virustotal (url : string) : VtResult :=
  if negb (configured API_KEY) then
    vt_no_scan (Some "VirusTotal API key not configured") false
               "api_key_missing"
  else
    match vt_request url with
    | Failed e => vt_on_exception e
    | Done response =>
        if status_code response =? 404 then
          {| qv_error := None; qv_virustotal_positives := 0;
             qv_virustotal_total := Some 0; qv_api_available := true;
             qv_scan_status := "not_found";
             qv_message := Some "URL not found in VirusTotal database";
             qv_rate_limited := None; qv_timeout := None;
             qv_malicious := None; qv_suspicious := None; qv_clean := None;
             qv_undetected := None; qv_scan_date := None;
             qv_reputation_score := None |}
        else if status_code response =? 429 then
          {| qv_error := Some "VirusTotal API rate limit exceeded";
             qv_virustotal_positives := 0; qv_virustotal_total := None;
             qv_api_available := true; qv_scan_status := "rate_limited";
             qv_message := None; qv_rate_limited := Some true;
             qv_timeout := None; qv_malicious := None;
             qv_suspicious := None; qv_clean := None; qv_undetected := None;
             qv_scan_date := None; qv_reputation_score := None |}
        else if (400 <=? status_code response)
                && (status_code response <? 600) then
          vt_on_exception (HTTPError (status_code response))
        else
          match json response with
          | Failed e => vt_on_exception e
          | Done stats =>
              match vt_found stats with
              | Ok scan => scan
              | Raise e => vt_on_exception (OtherException e)
              end
          end
    end.

(** The literal [result] of [get_features] before the checks. *)
Definition analyzing (domain : string) : Features :=
  {| rf_error := None; rf_domain := Some domain;
     rf_is_on_blacklist := Some false; rf_is_on_whitelist := Some false;
     rf_is_gsb_threat := Some false; rf_gsb_threat_type := Some None;
     rf_virustotal_positives := Some 0;
     rf_reputation_score := Some 0%float; rf_scan_status := "analyzing";
     rf_virustotal := None; rf_analysis_timestamp := None |}.

(** The steps after the Safe Browsing check: the VirusTotal answer merged
    in, the blacklist flag and score set from it, the status closed. *)
Definition with_virustotal (result : Features) (vt_result : VtResult)
    : Py.result Features :=
  let positives := qv_virustotal_positives vt_result in
  let score_after_update :=
    get (qv_reputation_score vt_result)
        (get (rf_reputation_score result) 0%float) in
  reputation_score ←
    (if positives >? 0 then
       let total := get (qv_virustotal_total vt_result) 1 in
       if total >? 0 then
         ratio ← truediv positives total;
         Ok (py_min (PrimFloat.mul ratio 2) 1)
       else Ok (py_min (PrimFloat.mul (Z2F positives) 0.1) 1)
     else Ok score_after_update);
  let scan_status :=
    if PrimFloat.eqb reputation_score 0
       && String.eqb (qv_scan_status vt_result) "analyzing"
    then "clean" else qv_scan_status vt_result in
  Ok {| rf_error := rf_error result; rf_domain := rf_domain result;
        rf_is_on_blacklist :=
          if positives >? 0 then Some true else rf_is_on_blacklist result;
        rf_is_on_whitelist := rf_is_on_whitelist result;
        rf_is_gsb_threat := rf_is_gsb_threat result;
        rf_gsb_threat_type := rf_gsb_threat_type result;
        rf_virustotal_positives := Some positives;
        rf_reputation_score := Some reputation_score;
        rf_scan_status := scan_status;
        rf_virustotal := Some vt_result;
        rf_analysis_timestamp := Some now |}.

(** The body of the [try] of [get_features]. *)
Definition analysis (url : string) : result Features :=
  netloc ← urlparse_netloc url;
  let domain := lower netloc in
  if negb (nonempty domain) then
    Ok {| rf_error := Some "Could not extract domain from URL";
          rf_domain := None; rf_is_on_blacklist := None;
          rf_is_on_whitelist := None; rf_is_gsb_threat := None;
          rf_gsb_threat_type := None; rf_virustotal_positives := None;
          rf_reputation_score := None; rf_scan_status := "no_domain";
          rf_virustotal := None; rf_analysis_timestamp := None |}
  else
    let result := analyzing domain in
    if check_domain_whitelist domain then
      Ok {| rf_error := None; rf_domain := Some domain;
            rf_is_on_blacklist := Some false;
            rf_is_on_whitelist := Some true;
            rf_is_gsb_threat := Some false;
            rf_gsb_threat_type := Some None;
            rf_virustotal_positives := Some 0;
            rf_reputation_score := Some 0%float;
            rf_scan_status := "whitelisted"; rf_virustotal := None;
            rf_analysis_timestamp := None |}
    else if check_domain_blacklist domain then
      Ok {| rf_error := None; rf_domain := Some domain;
            rf_is_on_blacklist := Some true;
            rf_is_on_whitelist := Some false;
            rf_is_gsb_threat := Some false;
            rf_gsb_threat_type := Some None;
            rf_virustotal_positives := Some 0;
            rf_reputation_score := Some 1%float;
            rf_scan_status := "blacklisted"; rf_virustotal := None;
            rf_analysis_timestamp := None |}
    else
      let gsb_result := query_google_safe_browsing url in
      if is_known_threat gsb_result then
        Ok {| rf_error := None; rf_domain := Some domain;
              rf_is_on_blacklist := Some true;
              rf_is_on_whitelist := Some false;
              rf_is_gsb_threat := Some true;
              rf_gsb_threat_type := Some (threat_type gsb_result);
              rf_virustotal_positives := Some 0;
              rf_reputation_score := Some 1%float;
              rf_scan_status := "gsb_blacklisted";
              rf_virustotal := None; rf_analysis_timestamp := None |}
      else with_virustotal result (query_virustotal url).

(** [get_features]. The handler parses the URL once more for the fallback
    dictionary, outside any [try]. *)
Definition get_features (url : string) : result Features :=
  if negb (nonempty url) then
    Ok {| rf_error := Some "Invalid URL provided"; rf_domain := Some "";
          rf_is_on_blacklist := Some false; rf_is_on_whitelist := None;
          rf_is_gsb_threat := Some false; rf_gsb_threat_type := None;
          rf_virustotal_positives := Some 0; rf_reputation_score := None;
          rf_scan_status := "invalid_url"; rf_virustotal := None;
          rf_analysis_timestamp := None |}
  else
    match analysis url with
    | Ok result => Ok result
    | Raise e =>
        netloc ← urlparse_netloc url;
        Ok {| rf_error := Some ("Reputation analysis failed: " ++ e);
              rf_domain := Some netloc; rf_is_on_blacklist := Some false;
              rf_is_on_whitelist := None; rf_is_gsb_threat := None;
              rf_gsb_threat_type := None; rf_virustotal_positives := Some 0;
              rf_reputation_score := Some 0%float;
              rf_scan_status := "analysis_failed"; rf_virustotal := None;
              rf_analysis_timestamp := None |}
    end.

End Analyzer.

(** The keys of the analyzer's dictionary that the aggregation reads. *)
Definition as_reputation_f (features : Features) : ReputationF :=
  {| is_on_blacklist := rf_is_on_blacklist features;
     is_gsb_threat := rf_is_gsb_threat features;
     virustotal_positives := rf_virustotal_positives features |}.

End reputation_analyzer.

(** ** The domain analyzer ([analyzers/domain_analyzer.py]) *)

Module domain_analyzer.

Import PyText UrlChecker.

(** *** The patterns of [estimate_domain_age], on ASCII text *)

(** [\d+$] matched from the start of [s]: digits up to the end of the
    string, or up to a newline that ends it. *)
Fixpoint digits_to_end (s : string) : bool :=
  match s with
  | EmptyString => false
  | String c s' =>
      isdigit c
      && (digits_to_end s' || String.eqb s' ""
          || String.eqb s' (String (ascii_of_nat 10) ""))
  end.

(** [re.search] of [-\d+$]. *)
Fixpoint search_dash_digits (s : string) : bool :=
  match s with
  | EmptyString => false
  | String c s' =>
      (Ascii.eqb c "-" && digits_to_end s') || search_dash_digits s'
  end.

Definition old_domains : list string :=
  [ "google"; "yahoo"; "microsoft"; "apple"; "amazon"; "facebook"; "twitter";
    "wikipedia"; "github"; "stackoverflow" ].

(** [estimate_domain_age]. Nothing in its [try] raises on a string. *)
Definition estimate_domain_age (domain : string) : Z :=
  if search_digits 4 domain || search_dash_digits domain
     || search_digits 2 domain
  then 30
  else if existsb (fun old_domain => contains (lower domain) old_domain)
            old_domains
  then 5000
  else 365.

Definition suspicious_tlds : list string :=
  [ "tk"; "ml"; "ga"; "cf"; "pw"; "top"; "click"; "download"; "space" ].

Definition brand_keywords : list string :=
  [ "paypal"; "amazon"; "microsoft"; "google"; "apple"; "facebook";
    "netflix"; "spotify"; "instagram"; "twitter"; "linkedin" ].

Definition shorteners : list string :=
  [ "bit.ly"; "tinyurl"; "t.co"; "goo.gl"; "ow.ly"; "short.link" ].

(** The structure features. [domain_entropy] is the integer 0 where the
    source has it, kept as the float of the same value. *)
Record Structure := {
  st_domain_length : Z;
  st_subdomain_count : Z;
  st_has_numbers : bool;
  st_has_hyphens : bool;
  st_hyphen_count : Z;
  st_suspicious_tld : bool;
  st_brand_impersonation : bool;
  st_is_shortener : bool;
  st_domain_entropy : float;
  st_analysis_error : option string }.

(** The number [domain_risk] is an integer in the scored shapes and the
    float 0.5 in the two error shapes. *)
Inductive number :=
| Int (z : Z)
| Float (x : float).

(** The dictionary [get_features] returns. The first four keys are in
    every shape; the structure keys are those [analyze_domain_structure]
    merges in. *)
Record Features := {
  df_has_ssl : bool;
  df_domain_length : Z;
  df_domain_age : Z;
  df_domain_risk : number;
  df_structure : option Structure;
  df_domain_risk_score : option float;
  df_model_error : option string;
  df_model_status : option string;
  df_error : option string;
  df_analysis_method : option string }.

(** [all_features]: the basic features and the structure merged. *)
Record AllFeatures := {
  af_has_ssl : bool;
  af_domain_age : Z;
  af_structure : Structure }.

(** [calculate_domain_risk_score], on [all_features], where every key it
    reads is present. *)
Definition calculate_domain_risk_score (features : AllFeatures) : float :=
  let st := af_structure features in
  let risk_score := 0%float in
  let domain_age := af_domain_age features in
  let risk_score :=
    if domain_age =? -1 then PrimFloat.add risk_score 0.1
    else if domain_age <? 30 then PrimFloat.add risk_score 0.4
    else if domain_age <? 90 then PrimFloat.add risk_score 0.2
    else if domain_age >? 365 * 2 then PrimFloat.sub risk_score 0.1
    else risk_score in
  let risk_score :=
    if negb (af_has_ssl features) then PrimFloat.add risk_score 0.3
    else risk_score in
  let risk_score :=
    if st_suspicious_tld st then PrimFloat.add risk_score 0.3
    else risk_score in
  let risk_score :=
    if st_brand_impersonation st then PrimFloat.add risk_score 0.4
    else risk_score in
  let risk_score :=
    if st_is_shortener st then PrimFloat.add risk_score 0.2
    else risk_score in
  let risk_score :=
    if st_domain_length st >? 50 then PrimFloat.add risk_score 0.2
    else if st_domain_length st <? 5 then PrimFloat.add risk_score 0.1
    else risk_score in
  let risk_score :=
    if st_hyphen_count st >? 2 then PrimFloat.add risk_score 0.2
    else if st_hyphen_count st >? 0 then PrimFloat.add risk_score 0.1
    else risk_score in
  let risk_score :=
    if PrimFloat.ltb 3.5 (st_domain_entropy st)
    then PrimFloat.add risk_score 0.15
    else risk_score in
  let risk_score :=
    if st_subdomain_count st >? 2 then PrimFloat.add risk_score 0.1
    else risk_score in
  py_min (py_max risk_score 0) 1.

Section Analyzer.

(** The [try] body of [get_domain_age] up to the age: the WHOIS lookup and
    the days since the creation date, [None] when the answer has no
    creation date. Any exception is a [Raise]. *)
Variable whois_age : string -> result (option Z).

(** [tldextract.extract(domain)]: subdomain, domain and suffix. *)
Variable tld_extract : string -> result (string * string * string).

(** The entropy sum of [analyze_domain_structure], for a non-empty name. *)
Variable shannon_entropy : string -> float.

(** The model loaded at import, if any: its prediction, as [int], for a
    frame of age, SSL flag and length. *)
Variable model : option (Z -> Z -> Z -> result Z).

Variable urlparse_netloc : string -> result string.

Definition get_domain_age (domain : string) : Z :=
  match whois_age domain with
  | Ok (Some age) => Z.max age 0
  | Ok None => -1
  | Raise _ => estimate_domain_age domain
  end.

Definition analyze_domain_structure (domain : string) : Structure :=
  match tld_extract domain with
  | Ok (subdomain, domain_name, suffix) =>
      {| st_domain_length := len domain;
         st_subdomain_count :=
           if nonempty subdomain then count_char "." subdomain + 1 else 0;
         st_has_numbers := search_digits 1 domain_name;
         st_has_hyphens := contains domain_name "-";
         st_hyphen_count := count_char "-" domain_name;
         st_suspicious_tld :=
           existsb (String.eqb (lower suffix)) suspicious_tlds;
         st_brand_impersonation :=
           existsb (fun brand => contains (lower domain_name) brand)
                   brand_keywords;
         st_is_shortener := existsb (String.eqb (lower domain)) shorteners;
         st_domain_entropy :=
           if nonempty domain_name then shannon_entropy domain_name
           else 0%float;
         st_analysis_error := None |}
  | Raise e =>
      {| st_domain_length := len domain; st_subdomain_count := 0;
         st_has_numbers := false; st_has_hyphens := false;
         st_hyphen_count := 0; st_suspicious_tld := false;
         st_brand_impersonation := false; st_is_shortener := false;
         st_domain_entropy := 0%float; st_analysis_error := Some e |}
  end.

(** The rule-based branch, shared by the two places that take it. *)
Definition rule_based (all_features : AllFeatures)
    (model_error model_status : option string) : Features :=
  let domain_risk_score := calculate_domain_risk_score all_features in
  {| df_has_ssl := af_has_ssl all_features;
     df_domain_length := st_domain_length (af_structure all_features);
     df_domain_age := af_domain_age all_features;
     df_domain_risk :=
       Int (if PrimFloat.ltb 0.5 domain_risk_score then 1 else 0);
     df_structure := Some (af_structure all_features);
     df_domain_risk_score := Some domain_risk_score;
     df_model_error := model_error; df_model_status := model_status;
     df_error := None; df_analysis_method := None |}.

(** The body of the [try] of [get_features]. *)
Definition analysis (url : string) : result Features :=
  netloc ← urlparse_netloc url;
  let domain := lower netloc in
  if negb (nonempty domain) then
    Ok {| df_has_ssl := false; df_domain_length := 0; df_domain_age := -1;
          df_domain_risk := Float 0.5; df_structure := None;
          df_domain_risk_score := None; df_model_error := None;
          df_model_status := None;
          df_error := Some "Invalid URL - no domain found";
          df_analysis_method := None |}
  else
    let all_features :=
      {| af_has_ssl := startswith url "https://";
         af_domain_age := get_domain_age domain;
         af_structure := analyze_domain_structure domain |} in
    match model with
    | Some predict =>
        match predict (af_domain_age all_features)
                      (Z.b2z (af_has_ssl all_features))
                      (st_domain_length (af_structure all_features)) with
        | Ok prediction =>
            Ok {| df_has_ssl := af_has_ssl all_features;
                  df_domain_length :=
                    st_domain_length (af_structure all_features);
                  df_domain_age := af_domain_age all_features;
                  df_domain_risk := Int prediction;
                  df_structure := Some (af_structure all_features);
                  df_domain_risk_score := None; df_model_error := None;
                  df_model_status := None; df_error := None;
                  df_analysis_method := None |}
        | Raise e => Ok (rule_based all_features (Some e) None)
        end
    | None => Ok (rule_based all_features None (Some "not_available"))
    end.

(** [get_features]. The handler of its [try] parses the URL once more,
    outside any [try], unless the URL is empty. *)
Definition get_features (url : string) : result Features :=
  match analysis url with
  | Ok features => Ok features
  | Raise e =>
      domain_length ←
        (if nonempty url then netloc ← urlparse_netloc url; Ok (len netloc)
         else Ok 0);
      Ok {| df_has_ssl :=
              if nonempty url then startswith url "https://" else false;
            df_domain_length := domain_length; df_domain_age := -1;
            df_domain_risk := Float 0.5; df_structure := None;
            df_domain_risk_score := None; df_model_error := None;
            df_model_status := None;
            df_error := Some ("Domain analysis failed: " ++ e);
            df_analysis_method := Some "error_fallback" |}
  end.

End Analyzer.

(** The keys of the analyzer's dictionary that the aggregation reads.
    No shape has the key [uses_ip]. *)
Definition as_domain_f (features : Features) : DomainF :=
  {| domain_age := Some (df_domain_age features);
     has_ssl := Some (df_has_ssl features);
     suspicious_tld := option_map st_suspicious_tld (df_structure features);
     uses_ip := None |}.

End domain_analyzer.

(** ** The content analyzer ([analyzers/content_analyzer.py]) *)

Module content_analyzer.

Import PyText UrlChecker.

(** [s.split(sep)] for a one-character separator. *)
Fixpoint split_on (sep : ascii) (s : string) (field : string) : list string :=
  match s with
  | EmptyString => [field]
  | String c s' =>
      if Ascii.eqb c sep then field :: split_on sep s' ""
      else split_on sep s' (field ++ String c "")
  end.

Definition split (sep : ascii) (s : string) : list string := split_on sep s "".

(** [string.ascii_letters + string.digits + '.-_/?&=:']. *)
Definition plain_chars : string :=
  "abcdefghijklmnopqrstuvwxyzABCDEFGHIJKLMNOPQRSTUVWXYZ0123456789.-_/?&=:".

Fixpoint has_char (c : ascii) (s : string) : bool :=
  match s with
  | EmptyString => false
  | String d s' => Ascii.eqb d c || has_char c s'
  end.

(** [set(url) - set(plain_chars)], as the list of its elements. *)
Fixpoint special_chars (url : string) (seen : string) : string :=
  match url with
  | EmptyString => seen
  | String c url' =>
      if has_char c plain_chars || has_char c seen then special_chars url' seen
      else special_chars url' (seen ++ String c "")
  end.

Definition phishing_keywords : list string :=
  [ "verify"; "confirm"; "update"; "suspend"; "secure"; "alert"; "warning";
    "expire"; "lock"; "urgent"; "immediate"; "action"; "account"; "billing";
    "payment"; "signin"; "login"; "auth" ].

Definition suspicious_params : list string :=
  [ "redirect"; "url"; "link"; "goto"; "target"; "continue" ].

Definition shortener_domains : list string :=
  [ "bit.ly"; "tinyurl.com"; "t.co"; "goo.gl"; "ow.ly"; "short.link";
    "tiny.cc"; "is.gd"; "buff.ly" ].

Definition suspicious_tlds : list string :=
  [ "tk"; "ml"; "ga"; "cf"; "pw"; "top"; "click" ].

Definition brands : list string :=
  [ "paypal"; "amazon"; "microsoft"; "google"; "apple"; "facebook";
    "netflix"; "spotify"; "instagram"; "twitter"; "linkedin"; "ebay" ].

(** The dictionary of [analyze_url_patterns]. *)
Record Patterns := {
  url_length : Z;
  long_url : bool;
  pf_phishing_keywords : Z;
  pf_suspicious_keywords_found : list string;
  has_phishing_keywords : bool;
  domain_length : Z;
  has_subdomain : bool;
  domain_has_numbers : bool;
  domain_has_hyphens : bool;
  path_length : Z;
  path_depth : Z;
  has_query_params : bool;
  query_param_count : Z;
  pf_suspicious_params : bool;
  is_shortener : bool;
  pf_suspicious_tld : bool;
  pf_uses_ip : bool;
  special_char_count : Z;
  has_special_chars : bool;
  pf_brand_impersonation : bool;
  analysis_error : option string }.

(** The loop over the brands: the first brand that the domain contains
    without being its real domain ends it. *)
Fixpoint brand_loop (domain : string) (brands : list string) : bool :=
  match brands with
  | [] => false
  | brand :: rest =>
      if contains domain brand then
        let real_domains := [ brand ++ ".com"; "www." ++ brand ++ ".com" ] in
        if negb (existsb (String.eqb domain) real_domains) then true
        else brand_loop domain rest
      else brand_loop domain rest
  end.

(** [calculate_content_risk_score], on the dictionary of
    [analyze_url_patterns], where every key it reads is present. *)
Definition calculate_content_risk_score (features : Patterns) : float :=
  let risk_score := 0%float in
  let risk_score :=
    if long_url features then PrimFloat.add risk_score 0.15 else risk_score in
  let keyword_count := pf_phishing_keywords features in
  let risk_score :=
    if keyword_count >? 0
    then PrimFloat.add risk_score
           (py_min (PrimFloat.mul (Z2F keyword_count) 0.1) 0.3)
    else risk_score in
  let risk_score :=
    if domain_has_hyphens features then PrimFloat.add risk_score 0.1
    else risk_score in
  let risk_score :=
    if pf_suspicious_tld features then PrimFloat.add risk_score 0.25
    else risk_score in
  let risk_score :=
    if pf_uses_ip features then PrimFloat.add risk_score 0.3
    else risk_score in
  let risk_score :=
    if is_shortener features then PrimFloat.add risk_score 0.2
    else risk_score in
  let risk_score :=
    if pf_brand_impersonation features then PrimFloat.add risk_score 0.4
    else risk_score in
  let risk_score :=
    if pf_suspicious_params features then PrimFloat.add risk_score 0.2
    else risk_score in
  let risk_score :=
    if query_param_count features >? 5 then PrimFloat.add risk_score 0.1
    else risk_score in
  let risk_score :=
    if path_depth features >? 4 then PrimFloat.add risk_score 0.1
    else risk_score in
  let risk_score :=
    if has_special_chars features then PrimFloat.add risk_score 0.1
    else risk_score in
  py_min (py_max risk_score 0) 1.

(** The dictionary [get_features] returns. *)
Record Features := {
  cf_error : option string;
  content_risk_prediction : Z;
  cf_content_risk_score : float;
  cf_pattern_features : option Patterns;
  model_used : option bool;
  model_error : option string;
  model_status : option string;
  analysis_method : option string }.

(** [urlparse(url)]: the three components the analyzer reads. *)
Record Parsed := {
  netloc : string;
  path : string;
  query : string }.

Section Analyzer.

Variable urlparse : string -> result Parsed.

(** [len(parse_qs(query))]. *)
Variable parse_qs_count : string -> result Z.

(** [re.search(ip_pattern, domain)], as a truth value. *)
Variable search_ip : string -> bool.

(** The model and the vectorizer loaded at import, if both are there:
    [int(prediction[0])] and the probability of the phishing class for
    a URL, or an exception. *)
Variable model : option (string -> result (Z * float)).

(** [round(x, 3)]. *)
Variable round3 : float -> float.

(** The body of the [try] of [analyze_url_patterns]. *)
Definition patterns_of_url (url : string) : result Patterns :=
  parsed ← urlparse url;
  let domain := lower (netloc parsed) in
  let path := lower (path parsed) in
  let query := lower (query parsed) in
  let full_url_lower := lower url in
  let found_keywords :=
    List.filter (fun keyword => contains full_url_lower keyword)
                phishing_keywords in
  let keyword_count := Z.of_nat (length found_keywords) in
  params ←
    (if nonempty query then
       count ← parse_qs_count query;
       Ok (count,
           existsb (fun param => contains query param) suspicious_params)
     else Ok (0, false));
  let tld := if contains domain "." then last_field "." domain "" else "" in
  let special := special_chars url "" in
  Ok {| url_length := len url;
        long_url := len url >? 100;
        pf_phishing_keywords := keyword_count;
        pf_suspicious_keywords_found := found_keywords;
        has_phishing_keywords := keyword_count >? 0;
        domain_length := len domain;
        has_subdomain := Z.of_nat (length (split "." domain)) >? 2;
        domain_has_numbers := search_digits 1 domain;
        domain_has_hyphens := contains domain "-";
        path_length := len path;
        path_depth :=
          Z.of_nat (length (List.filter nonempty (split "/" path)));
        has_query_params := nonempty query;
        query_param_count := fst params;
        pf_suspicious_params := snd params;
        is_shortener := existsb (String.eqb domain) shortener_domains;
        pf_suspicious_tld := existsb (String.eqb tld) suspicious_tlds;
        pf_uses_ip := search_ip domain;
        special_char_count := len special;
        has_special_chars := len special >? 5;
        pf_brand_impersonation := brand_loop domain brands;
        analysis_error := None |}.

Definition analyze_url_patterns (url : string) : Patterns :=
  match patterns_of_url url with
  | Ok features => features
  | Raise e =>
      {| url_length := if nonempty url then len url else 0;
         long_url := false; pf_phishing_keywords := 0;
         pf_suspicious_keywords_found := []; has_phishing_keywords := false;
         domain_length := 0; has_subdomain := false;
         domain_has_numbers := false; domain_has_hyphens := false;
         path_length := 0; path_depth := 0; has_query_params := false;
         query_param_count := 0; pf_suspicious_params := false;
         is_shortener := false; pf_suspicious_tld := false;
         pf_uses_ip := false; special_char_count := 0;
         has_special_chars := false; pf_brand_impersonation := false;
         analysis_error := Some e |}
  end.

(** The rule-based result, shared by the two places that build it. *)
Definition rule_based (pattern_features : Patterns)
    (model_error model_status : option string) : Features :=
  let risk_score := calculate_content_risk_score pattern_features in
  {| cf_error := None;
     content_risk_prediction := if PrimFloat.ltb 0.5 risk_score then 1 else 0;
     cf_content_risk_score := round3 risk_score;
     cf_pattern_features := Some pattern_features;
     model_used := Some false; model_error := model_error;
     model_status := model_status; analysis_method := None |}.

(** [get_features]. Nothing in its outer [try] raises: the pattern
    analysis has a handler of its own, and so has the model. *)
Definition get_features (url : string) : Features :=
  if negb (nonempty url) then
    {| cf_error := Some "Invalid URL provided"; content_risk_prediction := 0;
       cf_content_risk_score := 0.5; cf_pattern_features := None;
       model_used := None; model_error := None; model_status := None;
       analysis_method := None |}
  else
    let pattern_features := analyze_url_patterns url in
    match model with
    | Some predict =>
        match predict url with
        | Ok (prediction, phishing_prob) =>
            {| cf_error := None; content_risk_prediction := prediction;
               cf_content_risk_score := round3 phishing_prob;
               cf_pattern_features := Some pattern_features;
               model_used := Some true; model_error := None;
               model_status := None; analysis_method := None |}
        | Raise e => rule_based pattern_features (Some e) None
        end
    | None => rule_based pattern_features None (Some "not_available")
    end.

End Analyzer.

(** The keys of the analyzer's dictionary that the aggregation reads. *)
Definition as_content_f (features : Features) : ContentF :=
  {| content_risk_score := Some (cf_content_risk_score features);
     pattern_features :=
       option_map
         (fun p =>
            {| suspicious_keywords_found :=
                 Some (pf_suspicious_keywords_found p);
               brand_impersonation := Some (pf_brand_impersonation p) |})
         (cf_pattern_features features) |}.

End content_analyzer.

(** ** The collaborators of [analyze_apk] ([run_analysis.py]) *)

Module ApkCollaborators.

Import PyText ApkAnalysis.

(** What a call inside a [try ... except requests.RequestException] can
    do: return, raise a [RequestException], or raise something else. *)
Inductive attempt (A : Type) : Type :=
| Got (a : A)
| RequestException (message : string)
| OtherException (e : exn).
Arguments Got {A} a.
Arguments RequestException {A} message.
Arguments OtherException {A} e.

(** *** [scan_strings] *)

Definition SUSPICIOUS_KEYWORDS : list string :=
  [ "password"; "credit card"; "account"; "login"; "verify"; "update";
    "security"; "bank"; "ssn"; "social security" ].

(** A DEX object: its [get_strings], if it has the attribute. *)
Record Dex := {
  get_strings : option (result (list string)) }.

(** The first loop: the strings of every DEX object that has
    [get_strings], in order. *)
Fixpoint collect_strings (dexes : list Dex) (all_strings : list string)
    : result (list string) :=
  match dexes with
  | [] => Ok all_strings
  | dex :: rest =>
      match get_strings dex with
      | Some strings =>
          more ← strings;
          collect_strings rest (all_strings ++ more)%list
      | None => collect_strings rest all_strings
      end
  end.

(** The loop over the keywords for one string:
    [keywords_found[keyword] = keywords_found.get(keyword, 0) + 1]. *)
Definition count_keywords (text : string) (keywords : list string)
    (keywords_found : gmap string Z) : gmap string Z :=
  fold_left
    (fun found keyword =>
       if contains (lower text) keyword
       then <[keyword := default 0 (found !! keyword) + 1]> found
       else found)
    keywords keywords_found.

(** What [scan_strings] returns: the dictionary with the key [error], or
    the one with the found URLs, as a set, and the keyword counts. *)
Inductive StringAnalysis :=
| ScanError (error : string)
| Scan (urls_found : gset string) (suspicious_keywords : gmap string Z).

Section Scanner.

(** [apk_object.get_dex()]. *)
Variable get_dex : result (list Dex).

(** [re.findall(URL_REGEX, string)], as the first group of each match. *)
Variable findall_urls : string -> list string.

Definition scan_strings : StringAnalysis :=
  match dexes ← get_dex; collect_strings dexes [] with
  | Raise e => ScanError ("Error during string scan: " ++ e)
  | Ok all_strings =>
      Scan (list_to_set (flat_map findall_urls all_strings))
           (fold_left
              (fun found text => count_keywords text SUSPICIOUS_KEYWORDS found)
              all_strings ∅)
  end.

End Scanner.

(** *** [get_virustotal_report] *)

(** The attributes of the answer: [last_analysis_stats], empty when the
    answer has none, and [last_analysis_date]. *)
Record VtAttributes := {
  last_analysis_stats : gmap string Z;
  last_analysis_date : option Z }.

Record VtResponse := {
  status_code : Z;
  json : attempt VtAttributes }.

(** [sum(stats.values())]. *)
Definition sum_values (stats : gmap string Z) : Z :=
  map_fold (fun _ v acc => v + acc) 0 stats.

(** [f"{file_hash}"]: [None] prints as the text None. *)
Definition str_hash (file_hash : option string) : string :=
  get file_hash "None".

Section VirusTotal.

(** The environment variable, [None] when unset. *)
Variable VIRUSTOTAL_API_KEY : option string.

Variable requests_get : string -> attempt VtResponse.

(** [datetime.fromtimestamp(t).strftime(...)]. *)
Variable strftime : Z -> result string.

Definition error_report (error : string) : VtReport :=
  {| vt_error := Some error; vt_status := None; positives := None;
     total := None; scan_date := None |}.

Definition get_virustotal_report (file_hash : option string)
    : result VtReport :=
  match VIRUSTOTAL_API_KEY with
  | None => Ok (error_report "VirusTotal API key not found.")
  | Some api_key =>
      if negb (nonempty api_key)
      then Ok (error_report "VirusTotal API key not found.")
      else
        match requests_get ("https://www.virustotal.com/api/v3/files/"
                            ++ str_hash file_hash) with
        | RequestException e =>
            Ok (error_report ("Could not connect to VirusTotal: " ++ e))
        | OtherException e => Raise e
        | Got response =>
            if status_code response =? 200 then
              match json response with
              | RequestException e =>
                  Ok (error_report ("Could not connect to VirusTotal: " ++ e))
              | OtherException e => Raise e
              | Got attributes =>
                  let stats := last_analysis_stats attributes in
                  human_readable_date ←
                    match last_analysis_date attributes with
                    | Some scan_timestamp =>
                        if scan_timestamp =? 0 then Ok "N/A"
                        else strftime scan_timestamp
                    | None => Ok "N/A"
                    end;
                  Ok {| vt_error := None; vt_status := None;
                        positives :=
                          Some (default 0 (stats !! "malicious")
                                + default 0 (stats !! "suspicious"));
                        total := Some (sum_values stats);
                        scan_date := Some human_readable_date |}
              end
            else if status_code response =? 404 then
              Ok {| vt_error := None;
                    vt_status := Some "File not found in VirusTotal database.";
                    positives := None; total := None; scan_date := None |}
            else
              Ok (error_report ("VirusTotal API error: "
                                ++ str_int (status_code response)))
        end
  end.

End VirusTotal.

(** *** [compare_with_known_apps] *)

(** The keys of [metadata] the comparison reads. *)
Record AppIdentity := {
  package_name : option string;
  signature_sha256 : option string;
  app_name : option string }.

(** An entry of the known-apps file, each key possibly missing. *)
Record KnownApp := {
  ka_package_name : option string;
  ka_signature_sha256 : option string;
  ka_app_name : option string }.

(** [app[key]]: [KeyError] on a missing key. *)
Definition subscript (field : option string) (key : string) : result string :=
  match field with
  | Some v => Ok v
  | None => Raise ("'" ++ key ++ "'")
  end.

(** What opening and decoding the known-apps file can do. *)
Inductive database :=
| Loaded (known_apps : list KnownApp)
| FileNotFound
| LoadFailed (e : exn).

(** [x == s] and [x != s] for [x] read with [.get] and a string [s]. *)
Definition eq_str (x : option string) (s : string) : bool :=
  match x with
  | Some v => String.eqb v s
  | None => false
  end.

Section Comparison.

(** [SequenceMatcher(None, a, b).ratio()]. *)
Variable ratio : string -> string -> float.

(** The two tests of the loop for one known app. *)
Definition compare_with (apk_pkg apk_sig : option string) (apk_name : string)
    (app : KnownApp) (warnings : list Warning) : result (list Warning) :=
  app_pkg ← subscript (ka_package_name app) "package_name";
  warnings ←
    (if eq_str apk_pkg app_pkg then
       app_sig ← subscript (ka_signature_sha256 app) "signature_sha256";
       if negb (eq_str apk_sig app_sig) && negb (eq_str apk_sig "N/A") then
         name ← subscript (ka_app_name app) "app_name";
         Ok (warnings ++
             [ {| w_type := "signature_mismatch";
                  w_message :=
                    "Signature does not match official signature for '"
                    ++ name
                    ++ "'. This is a strong indicator of a fraudulent clone." |} ])%list
       else Ok warnings
     else Ok warnings);
  name ← subscript (ka_app_name app) "app_name";
  if PrimFloat.ltb 0.85 (ratio apk_name (lower name)) then
    app_pkg ← subscript (ka_package_name app) "package_name";
    if negb (eq_str apk_pkg app_pkg) then
      Ok (warnings ++
          [ {| w_type := "impersonation_attempt";
               w_message := "App name is very similar to '" ++ name
                            ++ "', but has a different package name." |} ])%list
    else Ok warnings
  else Ok warnings.

Fixpoint compare_loop (apk_pkg apk_sig : option string) (apk_name : string)
    (known_apps : list KnownApp) (warnings : list Warning)
    : result (list Warning) :=
  match known_apps with
  | [] => Ok warnings
  | app :: rest =>
      warnings ← compare_with apk_pkg apk_sig apk_name app warnings;
      compare_loop apk_pkg apk_sig apk_name rest warnings
  end.

Definition compare_with_known_apps (metadata : AppIdentity) (db : database)
    : result (list Warning) :=
  match db with
  | FileNotFound =>
      Ok [ {| w_type := "config_error";
              w_message := "Known apps database not found." |} ]
  | LoadFailed e => Raise e
  | Loaded known_apps =>
      compare_loop (package_name metadata) (signature_sha256 metadata)
                   (lower (get (app_name metadata) "")) known_apps []
  end.

End Comparison.

(** *** The script's entry point *)

(** What the [__main__] block prints: the report of [analyze_apk], or the
    fixed report of its [except] clause. *)
Inductive printed :=
| PrintedReport (report : ApkReport)
| PrintedError (confidence_score : Z) (confidence_level : string)
    (reasons : list Reason).

Definition main (analyzed : result ApkReport) : printed :=
  match analyzed with
  | Ok report => PrintedReport report
  | Raise e =>
      PrintedError 0 "☠️ CRITICAL RISK - MALWARE LIKELY"
        [ {| level := "CRITICAL"; risk_type := "Analysis Error";
             message := "A critical error occurred: " ++ e |} ]
  end.

End ApkCollaborators.

(** ** The rule engine of [apk_analyzer_project]
       ([apk_analyzer_project/risk_scoring/engine.py]) *)

Module risk_engine.

(** The dictionary of the permission analysis, each key possibly absent. *)
Record PermissionAnalysis := {
  pa_error : option string;
  dangerous_permissions_found : option (list string);
  count : option Z }.

(** The dictionary of the string analysis. *)
Record StringAnalysis := {
  sa_error : option string;
  suspicious_keywords : option (gmap string Z);
  urls_found : option (list string) }.

Record AnalysisResults := {
  permission_analysis : option PermissionAnalysis;
  string_analysis : option StringAnalysis }.

Definition no_permission_analysis := Build_PermissionAnalysis None None None.
Definition no_string_analysis := Build_StringAnalysis None None None.

(** Truth value of [d.get('error')] for a message. *)
Definition has_error (error : option string) : bool :=
  match error with
  | Some msg => nonempty msg
  | None => false
  end.

(** [sum(d.values())]. *)
Definition sum_values (d : gmap string Z) : Z :=
  map_fold (fun _ v acc => v + acc) 0 d.

(** [reasons.append(msg)]. *)
Definition with_reason (reasons : list string) (msg : string) : list string :=
  (reasons ++ [msg])%list.

(** [calculate_risk_score]: [(final_score, reasons)]. *)
Definition calculate_risk_score (analysis_results : AnalysisResults)
    : Z * list string :=
  let score := 0 in
  let reasons : list string := [] in
  let perm_analysis :=
    get (permission_analysis analysis_results) no_permission_analysis in
  let '(score, reasons) :=
    if negb (has_error (pa_error perm_analysis)) then
      let dangerous_count := get (count perm_analysis) 0 in
      if dangerous_count >? 3 then
        (score + 30,
         with_reason reasons
           ("High Risk: App requests " ++ str_int dangerous_count
            ++ " dangerous permissions (e.g., Read SMS, Access Location)."))
      else if dangerous_count >? 0 then
        (score + 15,
         with_reason reasons
           ("Medium Risk: App requests " ++ str_int dangerous_count
            ++ " dangerous permissions."))
      else (score, reasons)
    else (score, reasons) in
  let string_analysis :=
    get (string_analysis analysis_results) no_string_analysis in
  let '(score, reasons) :=
    if negb (has_error (sa_error string_analysis)) then
      let keyword_count :=
        sum_values (get (suspicious_keywords string_analysis) ∅) in
      if keyword_count >? 10 then
        (score + 25,
         with_reason reasons
           ("Warning: Found " ++ str_int keyword_count
            ++ " instances of suspicious keywords (e.g., 'password', 'bank', 'login')."))
      else if keyword_count >? 0 then
        (score + 10,
         with_reason reasons
           ("Info: Found " ++ str_int keyword_count
            ++ " instances of suspicious keywords."))
      else (score, reasons)
    else (score, reasons) in
  let '(score, reasons) :=
    if negb (has_error (sa_error string_analysis)) then
      let url_count :=
        Z.of_nat (length (get (urls_found string_analysis) [])) in
      if url_count >? 50 then
        (score + 15,
         with_reason reasons
           ("Info: A large number of URLs (" ++ str_int url_count
            ++ ") were found embedded in the app."))
      else (score, reasons)
    else (score, reasons) in
  let final_score := Z.min score 100 in
  let reasons :=
    match reasons with
    | [] => [ "This app appears to be safe based on our static analysis." ]
    | _ => reasons
    end in
  (final_score, reasons).

End risk_engine.

Import UrlChecker.

(** * Properties of the URL engine *)

Module UrlFacts.

(** ** Each rule adds to the state it is given *)

(** [combine s t]: the state [s] followed by what a rule run from [start]
    produced. *)
Definition combine (s t : scoring) : scoring :=
  Build_scoring (risk_score s + risk_score t)
                (risk_components s ++ risk_components t)
                (positive_signals s ++ positive_signals t).

Definition additive (rule : scoring -> scoring) : Prop :=
  forall s, rule s = combine s (rule start).

Lemma combine_start_r s : combine s start = s.
Proof.
  destruct s; unfold combine; simpl.
  rewrite !app_nil_r, Z.add_0_r. reflexivity.
Qed.

Lemma combine_assoc s t u : combine (combine s t) u = combine s (combine t u).
Proof.
  unfold combine; simpl.
  f_equal; [lia | symmetry; apply app_assoc | symmetry; apply app_assoc].
Qed.

Lemma additive_id : additive (fun s => s).
Proof. intros s. symmetry. apply combine_start_r. Qed.

Lemma additive_bump n : additive (bump n).
Proof.
  intros s. unfold bump, combine; simpl. rewrite !app_nil_r. reflexivity.
Qed.

Lemma additive_risk n msg : additive (risk n msg).
Proof.
  intros s. unfold risk, combine; simpl. rewrite !app_nil_r. reflexivity.
Qed.

Lemma additive_positive n msg : additive (positive n msg).
Proof.
  intros s. unfold positive, combine; simpl. rewrite !app_nil_r.
  f_equal; lia.
Qed.

Lemma additive_signal msg : additive (signal msg).
Proof.
  intros s. unfold signal, combine; simpl. rewrite !app_nil_r, Z.add_0_r.
  reflexivity.
Qed.

Lemma additive_compose f g : additive f -> additive g -> additive (fun s => g (f s)).
Proof.
  intros Hf Hg s. rewrite Hg, Hf, (Hg (f start)), combine_assoc. reflexivity.
Qed.

Lemma additive_if (b : bool) f g : additive f -> additive g ->
  additive (fun s => if b then f s else g s).
Proof. destruct b; auto. Qed.

Create HintDb additive.
#[local] Hint Resolve additive_id additive_bump additive_risk
  additive_positive additive_signal : additive.

(** A rule that only branches on its features: one combinator per branch. *)
Ltac additive_rule :=
  cbv zeta;
  repeat match goal with
         | |- context [if ?b then _ else _] => destruct b
         end;
  auto with additive.

Lemma additive_reputation r : additive (reputation_rule r).
Proof. unfold reputation_rule. additive_rule. Qed.

Lemma additive_domain_age d : additive (domain_age_rule d).
Proof. unfold domain_age_rule. additive_rule. Qed.

Lemma additive_ssl d : additive (ssl_rule d).
Proof. unfold ssl_rule. additive_rule. Qed.

Lemma additive_tld d : additive (tld_rule d).
Proof. unfold tld_rule. additive_rule. Qed.

Lemma additive_ip d : additive (ip_rule d).
Proof. unfold ip_rule. additive_rule. Qed.

Lemma additive_headers n : additive (headers_rule n).
Proof. unfold headers_rule. additive_rule. Qed.

Lemma additive_redirect n : additive (redirect_rule n).
Proof. unfold redirect_rule. additive_rule. Qed.

Lemma additive_dns n : additive (dns_rule n).
Proof. unfold dns_rule. additive_rule. Qed.

Lemma additive_content_risk c : additive (content_risk_rule c).
Proof. unfold content_risk_rule. additive_rule. Qed.

Lemma additive_keywords c : additive (keywords_rule c).
Proof. unfold keywords_rule. additive_rule. Qed.

Lemma additive_url_brand c : additive (url_brand_rule c).
Proof. unfold url_brand_rule. additive_rule. Qed.

Lemma additive_visual_brand v : additive (visual_brand_rule v).
Proof. unfold visual_brand_rule. additive_rule. Qed.

Lemma additive_similarity v : additive (similarity_rule v).
Proof. unfold similarity_rule. additive_rule. Qed.

Lemma additive_network n : additive (network_rule n).
Proof.
  unfold network_rule. apply additive_if; [|apply additive_risk].
  apply (additive_compose (fun s => redirect_rule n (headers_rule n s))
                          (dns_rule n)); [|apply additive_dns].
  apply (additive_compose (headers_rule n) (redirect_rule n));
    [apply additive_headers | apply additive_redirect].
Qed.

Lemma additive_later_rules d c v n : additive (later_rules d c v n).
Proof.
  unfold later_rules.
  repeat (apply (additive_compose _ (similarity_rule v));
          [|apply additive_similarity]).
  apply (additive_compose _ (visual_brand_rule v)); [|apply additive_visual_brand].
  apply (additive_compose _ (url_brand_rule c)); [|apply additive_url_brand].
  apply (additive_compose _ (keywords_rule c)); [|apply additive_keywords].
  apply (additive_compose _ (content_risk_rule c)); [|apply additive_content_risk].
  apply (additive_compose _ (network_rule n)); [|apply additive_network].
  apply (additive_compose _ (ip_rule d)); [|apply additive_ip].
  apply (additive_compose _ (tld_rule d)); [|apply additive_tld].
  apply (additive_compose (domain_age_rule d) (ssl_rule d));
    [apply additive_domain_age | apply additive_ssl].
Qed.

(** ** What a run of the rules can add up to

    The summary of a state: its score and the lengths of its two lists.
    Each rule, run from [start], ends in one of a few summaries; the
    summaries of a whole run are the sums of one choice per rule. *)

Definition summary3 : Type := Z * Z * Z.

Definition summarize (s : scoring) : summary3 :=
  (risk_score s, Z.of_nat (length (risk_components s)),
   Z.of_nat (length (positive_signals s))).

Definition plus3 (a b : summary3) : summary3 :=
  let '(x, y, z) := a in let '(x', y', z') := b in (x + x', y + y', z + z').

Definition sums (la lb : list summary3) : list summary3 :=
  flat_map (fun a => map (plus3 a) lb) la.

Lemma in_sums a b la lb : In a la -> In b lb -> In (plus3 a b) (sums la lb).
Proof.
  intros Ha Hb. unfold sums. apply in_flat_map. exists a. split; [assumption|].
  apply in_map. assumption.
Qed.

Lemma summarize_combine s t :
  summarize (combine s t) = plus3 (summarize s) (summarize t).
Proof.
  unfold summarize, combine, plus3; simpl.
  rewrite !length_app, !Nat2Z.inj_add. reflexivity.
Qed.

Definition reputation_outcomes : list summary3 :=
  [(60, 1, 0); (40, 1, 0); (20, 1, 0); (0, 0, 1)].
Definition domain_age_outcomes : list summary3 :=
  [(-15, 0, 1); (-10, 0, 1); (-5, 0, 1); (5, 0, 0); (15, 1, 0); (30, 1, 0);
   (10, 0, 0)].
Definition ssl_outcomes : list summary3 := [(0, 0, 1); (25, 1, 0)].
Definition tld_outcomes : list summary3 := [(15, 1, 0); (0, 0, 0)].
Definition ip_outcomes : list summary3 := [(20, 1, 0); (0, 0, 0)].
Definition headers_outcomes : list summary3 :=
  [(-10, 0, 1); (-5, 0, 1); (10, 1, 0); (0, 0, 0)].
Definition redirect_outcomes : list summary3 := [(15, 1, 0); (0, 0, 0)].
Definition dns_outcomes : list summary3 := [(-5, 0, 1); (0, 0, 0)].
Definition network_outcomes : list summary3 :=
  (20, 1, 0) :: sums (sums headers_outcomes redirect_outcomes) dns_outcomes.
Definition content_risk_outcomes : list summary3 :=
  [(20, 1, 0); (10, 1, 0); (0, 0, 0)].
Definition keywords_outcomes : list summary3 :=
  [(15, 1, 0); (5, 1, 0); (0, 0, 0)].
Definition url_brand_outcomes : list summary3 := [(25, 1, 0); (0, 0, 0)].
Definition visual_brand_outcomes : list summary3 :=
  [(30, 1, 0); (15, 1, 0); (0, 0, 0)].
Definition similarity_outcomes : list summary3 :=
  [(25, 1, 0); (10, 1, 0); (0, 0, 0)].

Ltac outcome_rule :=
  repeat match goal with
         | |- context [if ?b then _ else _] => destruct b
         end;
  vm_compute; tauto.

Lemma reputation_outcome r :
  In (summarize (reputation_rule r start)) reputation_outcomes.
Proof. unfold reputation_rule. outcome_rule. Qed.

Lemma domain_age_outcome d :
  In (summarize (domain_age_rule d start)) domain_age_outcomes.
Proof. unfold domain_age_rule. outcome_rule. Qed.

Lemma ssl_outcome d : In (summarize (ssl_rule d start)) ssl_outcomes.
Proof. unfold ssl_rule. outcome_rule. Qed.

Lemma tld_outcome d : In (summarize (tld_rule d start)) tld_outcomes.
Proof. unfold tld_rule. outcome_rule. Qed.

Lemma ip_outcome d : In (summarize (ip_rule d start)) ip_outcomes.
Proof. unfold ip_rule. outcome_rule. Qed.

Lemma headers_outcome n : In (summarize (headers_rule n start)) headers_outcomes.
Proof. unfold headers_rule. outcome_rule. Qed.

Lemma redirect_outcome n :
  In (summarize (redirect_rule n start)) redirect_outcomes.
Proof. unfold redirect_rule. outcome_rule. Qed.

Lemma dns_outcome n : In (summarize (dns_rule n start)) dns_outcomes.
Proof. unfold dns_rule. outcome_rule. Qed.

Lemma content_risk_outcome c :
  In (summarize (content_risk_rule c start)) content_risk_outcomes.
Proof. unfold content_risk_rule. outcome_rule. Qed.

Lemma keywords_outcome c :
  In (summarize (keywords_rule c start)) keywords_outcomes.
Proof. unfold keywords_rule. outcome_rule. Qed.

Lemma url_brand_outcome c :
  In (summarize (url_brand_rule c start)) url_brand_outcomes.
Proof. unfold url_brand_rule. outcome_rule. Qed.

Lemma visual_brand_outcome v :
  In (summarize (visual_brand_rule v start)) visual_brand_outcomes.
Proof. unfold visual_brand_rule. outcome_rule. Qed.

Lemma similarity_outcome v :
  In (summarize (similarity_rule v start)) similarity_outcomes.
Proof. unfold similarity_rule. outcome_rule. Qed.

Lemma network_outcome n : In (summarize (network_rule n start)) network_outcomes.
Proof.
  unfold network_rule, network_outcomes.
  destruct (truthy (is_reachable n)); [right | left; reflexivity].
  rewrite (additive_dns n), (additive_redirect n), !summarize_combine.
  auto using in_sums, headers_outcome, redirect_outcome, dns_outcome.
Qed.

(** The outcomes of the rules that follow the reputation rule, in
    evaluation order. *)
Definition later_outcomes : list (list summary3) :=
  [ domain_age_outcomes; ssl_outcomes; tld_outcomes; ip_outcomes;
    network_outcomes; content_risk_outcomes; keywords_outcomes;
    url_brand_outcomes; visual_brand_outcomes; similarity_outcomes ].

Definition rule_outcomes : list (list summary3) :=
  reputation_outcomes :: later_outcomes.

(** [every_choice P rules acc]: [P] holds of [acc] plus one outcome of each
    rule, whichever outcomes are picked. *)
Fixpoint every_choice (P : summary3 -> bool) (rules : list (list summary3))
    (acc : summary3) : bool :=
  match rules with
  | [] => P acc
  | outcomes :: rest =>
      forallb (fun a => every_choice P rest (plus3 acc a)) outcomes
  end.

Lemma every_choice_sound P rules : forall picks acc,
  every_choice P rules acc = true ->
  Forall2 (fun outcomes a => In a outcomes) rules picks ->
  P (fold_left plus3 picks acc) = true.
Proof.
  induction rules as [|outcomes rest IH]; intros picks acc Hall Hpicks.
  - inversion Hpicks; subst. exact Hall.
  - inversion Hpicks as [|? a ? picks' Ha Hrest]; subst. simpl in *.
    apply IH; [|assumption].
    exact (proj1 (forallb_forall _ outcomes) Hall a Ha).
Qed.

Lemma plus3_zero_l a : plus3 (0, 0, 0) a = a.
Proof. destruct a as [[x y] z]. reflexivity. Qed.

Lemma plus3_zero_r a : plus3 a (0, 0, 0) = a.
Proof. destruct a as [[x y] z]. simpl. rewrite !Z.add_0_r. reflexivity. Qed.

Lemma plus3_assoc a b c : plus3 (plus3 a b) c = plus3 a (plus3 b c).
Proof.
  destruct a as [[? ?] ?], b as [[? ?] ?], c as [[? ?] ?]; simpl.
  f_equal; [f_equal|]; lia.
Qed.

Lemma fold_plus3 picks : forall a b,
  fold_left plus3 picks (plus3 a b) = plus3 a (fold_left plus3 picks b).
Proof.
  induction picks as [|p picks IH]; intros a b; simpl; [reflexivity|].
  rewrite plus3_assoc. apply IH.
Qed.

Definition later_picks (d : DomainF) (c : ContentF) (v : VisualF)
    (n : NetworkF) : list summary3 :=
  [ summarize (domain_age_rule d start); summarize (ssl_rule d start);
    summarize (tld_rule d start); summarize (ip_rule d start);
    summarize (network_rule n start); summarize (content_risk_rule c start);
    summarize (keywords_rule c start); summarize (url_brand_rule c start);
    summarize (visual_brand_rule v start);
    summarize (similarity_rule v start) ].

Lemma later_picks_allowed d c v n :
  Forall2 (fun outcomes a => In a outcomes) later_outcomes (later_picks d c v n).
Proof.
  unfold later_outcomes, later_picks.
  repeat match goal with
         | |- Forall2 _ (_ :: _) (_ :: _) => apply List.Forall2_cons
         | |- Forall2 _ [] [] => apply List.Forall2_nil
         end;
    auto using domain_age_outcome, ssl_outcome, tld_outcome, ip_outcome,
      network_outcome, content_risk_outcome, keywords_outcome,
      url_brand_outcome, visual_brand_outcome, similarity_outcome.
Qed.

Lemma later_rules_summary d c v n :
  summarize (later_rules d c v n start)
  = fold_left plus3 (later_picks d c v n) (0, 0, 0).
Proof.
  unfold later_rules, later_picks.
  rewrite (additive_similarity v), (additive_visual_brand v),
    (additive_url_brand c), (additive_keywords c),
    (additive_content_risk c), (additive_network n), (additive_ip d),
    (additive_tld d), (additive_ssl d), !summarize_combine.
  cbn [fold_left]. rewrite plus3_zero_l. reflexivity.
Qed.

(** A property decided on every choice of outcomes holds of the rules
    after the reputation rule, and of every whole run. *)
Lemma on_later_rules (P : summary3 -> bool) :
  every_choice P later_outcomes (0, 0, 0) = true ->
  forall d c v n, P (summarize (later_rules d c v n start)) = true.
Proof.
  intros HP d c v n. rewrite later_rules_summary.
  eapply every_choice_sound; [exact HP | apply later_picks_allowed].
Qed.

Lemma accumulated_split d c r v n s :
  run_rules d c r v n = Accumulated s ->
  s = combine (reputation_rule r start) (later_rules d c v n start).
Proof.
  unfold run_rules. destruct (blacklisted r); [discriminate|].
  intros H. injection H as <-. apply additive_later_rules.
Qed.

Lemma on_every_run (P : summary3 -> bool) :
  every_choice P rule_outcomes (0, 0, 0) = true ->
  forall d c r v n s, run_rules d c r v n = Accumulated s ->
                      P (summarize s) = true.
Proof.
  intros HP d c r v n s H.
  rewrite (accumulated_split _ _ _ _ _ _ H), summarize_combine,
    later_rules_summary.
  set (R := summarize (reputation_rule r start)).
  assert (E : plus3 R (fold_left plus3 (later_picks d c v n) (0, 0, 0))
              = fold_left plus3 (R :: later_picks d c v n) (0, 0, 0)).
  { cbn [fold_left]. rewrite plus3_zero_l, <- fold_plus3, plus3_zero_r. reflexivity. }
  rewrite E. eapply every_choice_sound; [exact HP|].
  apply List.Forall2_cons; [apply reputation_outcome | apply later_picks_allowed].
Qed.

(** ** The final score as a function of the summary *)

(** A classifier output is usable when its percentage [int(p * 100)] is
    defined and lies between 0 and 100, as that of a probability does. *)
Definition percentage (p : float) (m : Z) : Prop :=
  ml_risk_of p = Ok m /\ 0 <= m <= 100.

Definition classifier_input (ml_prediction : option float) : Prop :=
  match ml_prediction with
  | None => True
  | Some p => exists m, percentage p m
  end.

(** The blended and clamped score, when [int()] is defined. *)
Definition score_after (w : float) (r m : Z) : option Z :=
  match blend_with w r m with
  | Ok x => Some (clamp x)
  | Raise _ => None
  end.

Definition weight3 (np nr m : Z) : float :=
  if (np >=? 3) && (m >? 60) then 0.15%float
  else if (nr >=? 3) && (m <? 40) then 0.15%float
  else 0.25%float.

Lemma ml_weight_of_summary s m :
  ml_weight_of s m
  = weight3 (Z.of_nat (length (positive_signals s)))
            (Z.of_nat (length (risk_components s))) m.
Proof. reflexivity. Qed.

Lemma weight3_cases np nr m :
  weight3 np nr m = 0.15%float \/ weight3 np nr m = 0.25%float.
Proof.
  unfold weight3.
  destruct ((np >=? 3) && (m >? 60)); [left; reflexivity|].
  destruct ((nr >=? 3) && (m <? 40)); [left | right]; reflexivity.
Qed.

(** ** Deciding a property on a grid of scores and percentages *)

Fixpoint zrange (lo : Z) (n : nat) : list Z :=
  match n with
  | O => []
  | S k => lo :: zrange (lo + 1) k
  end.

Lemma in_zrange n : forall lo x, lo <= x < lo + Z.of_nat n -> In x (zrange lo n).
Proof.
  induction n as [|n IH]; intros lo x Hx; [lia|].
  simpl. destruct (Z.eq_dec lo x) as [->|Hne]; [left; reflexivity|].
  right. apply IH. lia.
Qed.

Definition percents : list Z := zrange 0 101.

Definition on_grid (P : Z -> Z -> bool) (lo : Z) (n : nat) : bool :=
  forallb (fun r => forallb (P r) percents) (zrange lo n).

Lemma on_grid_sound P lo n :
  on_grid P lo n = true ->
  forall r m, lo <= r < lo + Z.of_nat n -> 0 <= m <= 100 -> P r m = true.
Proof.
  intros H r m Hr Hm. unfold on_grid in H.
  assert (Hrow : forallb (P r) percents = true).
  { exact (proj1 (forallb_forall _ _) H r (in_zrange _ _ _ Hr)). }
  apply (proj1 (forallb_forall _ _) Hrow m).
  apply in_zrange. simpl. lia.
Qed.

Definition defined (o : option Z) : bool :=
  match o with Some _ => true | None => false end.

Definition le_opt (a b : option Z) : bool :=
  match a, b with
  | Some x, Some y => x <=? y
  | _, _ => false
  end.

(** Every rule-based score between -30 and 350 blends with every
    percentage, under both weights. *)
Lemma blend_defined_on_grid :
  on_grid (fun r m => defined (score_after 0.15 r m)
                      && defined (score_after 0.25 r m)) (-30) 381 = true.
Proof. vm_compute. reflexivity. Qed.

Lemma blend_defined w r m :
  w = 0.15%float \/ w = 0.25%float -> -30 <= r <= 350 -> 0 <= m <= 100 ->
  exists x, blend_with w r m = Ok x.
Proof.
  intros Hw Hr Hm.
  assert (H := on_grid_sound _ _ _ blend_defined_on_grid r m
                 ltac:(simpl; lia) Hm).
  apply andb_prop in H. destruct H as [H15 H25].
  unfold score_after in H15, H25.
  destruct Hw as [-> | ->].
  - destruct (blend_with 0.15 r m); [eauto | discriminate].
  - destruct (blend_with 0.25 r m); [eauto | discriminate].
Qed.

(** The range of the rule-based score, and its granularity. *)
Lemma run_range_checked :
  every_choice (fun '(r, nr, np) =>
                  (-30 <=? r) && (r <=? 290) && (r mod 5 =? 0)
                  && (nr <=? 12) && (np <=? 5))
               rule_outcomes (0, 0, 0) = true.
Proof. vm_compute. reflexivity. Qed.

Lemma run_range d c r v n s :
  run_rules d c r v n = Accumulated s ->
  -30 <= risk_score s <= 290 /\ risk_score s mod 5 = 0.
Proof.
  intros H. assert (P := on_every_run _ run_range_checked _ _ _ _ _ _ H).
  unfold summarize in P. cbv beta iota in P.
  repeat (apply andb_prop in P; destruct P as [P ?]).
  lia.
Qed.

Lemma clamp_range x : 0 <= clamp x <= 100.
Proof. unfold clamp. lia. Qed.

Lemma clamp_mono x y : x <= y -> clamp x <= clamp y.
Proof. unfold clamp. lia. Qed.

Lemma threshold_legitimate : subscript RISK_THRESHOLDS "legitimate" = Ok 25.
Proof. vm_compute. reflexivity. Qed.

Lemma threshold_suspicious : subscript RISK_THRESHOLDS "suspicious" = Ok 60.
Proof. vm_compute. reflexivity. Qed.

Lemma derive_status_spec score :
  derive_status score
  = Ok (if score <? 25 then "legitimate"
        else if score <? 60 then "suspicious" else "risky").
Proof.
  unfold derive_status. rewrite threshold_legitimate. cbn [mbind result_bind Py.bind].
  destruct (score <? 25); [reflexivity|].
  rewrite threshold_suspicious. cbn [mbind result_bind Py.bind].
  destruct (score <? 60); reflexivity.
Qed.

(** ** Bounds and status *)

Lemma blend_returns d c r v n s ml :
  run_rules d c r v n = Accumulated s -> classifier_input ml ->
  exists x, blend s ml = Ok x.
Proof.
  intros Hrun Hml. destruct ml as [p|]; simpl.
  - destruct Hml as (m & Hp & Hm). unfold percentage in *.
    rewrite Hp. run_bind.
    apply blend_defined; [|pose proof (run_range _ _ _ _ _ _ Hrun); lia | exact Hm].
    rewrite ml_weight_of_summary. apply weight3_cases.
  - eauto.
Qed.

(** C1. For all feature dictionaries and every usable classifier output
    (or none), the aggregation returns a score between 0 and 100, and the
    status derived from it is legitimate below 25, suspicious from 25 to
    59, risky from 60 on. *)
Theorem score_bounded_and_status_by_thresholds
    (url : string) (d : DomainF) (c : ContentF) (r : ReputationF)
    (v : VisualF) (n : NetworkF) (ml : option float) :
  classifier_input ml ->
  exists score reason,
    calculate_weighted_risk_score url d c r v n ml = Ok (score, reason)
    /\ 0 <= score <= 100
    /\ derive_status score
       = Ok (if score <? 25 then "legitimate"
             else if score <? 60 then "suspicious" else "risky").
Proof.
  intros Hml. unfold calculate_weighted_risk_score.
  destruct (run_rules d c r v n) as [s reason|s] eqn:Hrun.
  - unfold run_rules in Hrun. destruct (blacklisted r); [|discriminate].
    injection Hrun as <- <-. simpl.
    eexists _, _. split; [reflexivity|]. split; [lia|].
    apply derive_status_spec.
  - destruct (blend_returns _ _ _ _ _ _ _ Hrun Hml) as [x ->]. run_bind.
    eexists _, _. split; [reflexivity|]. split; [apply clamp_range|].
    apply derive_status_spec.
Qed.

Lemma score_bounded_and_status_by_thresholds_witness :
  exists score reason,
    calculate_weighted_risk_score "http://new-shop.example/login"
      (Build_DomainF (Some 12) (Some false) (Some true) None)
      no_content
      (Build_ReputationF (Some false) (Some false) (Some 7))
      no_visual no_network (Some 0.9%float)
    = Ok (score, reason)
    /\ 0 <= score <= 100
    /\ derive_status score
       = Ok (if score <? 25 then "legitimate"
             else if score <? 60 then "suspicious" else "risky").
Proof.
  apply score_bounded_and_status_by_thresholds.
  exists 90. split; [vm_compute; reflexivity | lia].
Defined.

(** ** The blacklist short-circuit *)

(** C2. When the reputation record has [is_on_blacklist] or
    [is_gsb_threat] set, the rules return at once with score 90 and the
    single blacklist reason; whatever the other dictionaries and the
    classifier say, the function returns 90, and the status of 90 is
    risky. *)
Theorem blacklist_short_circuit
    (url : string) (d : DomainF) (c : ContentF) (r : ReputationF)
    (v : VisualF) (n : NetworkF) (ml : option float) :
  is_on_blacklist r = Some true \/ is_gsb_threat r = Some true ->
  run_rules d c r v n
  = Returned (Build_scoring 90 [("Blacklisted/Google Safe Browsing threat", 90)] [])
             "Blacklisted or known threat detected"
  /\ calculate_weighted_risk_score url d c r v n ml
     = Ok (90, "Blacklisted or known threat detected")
  /\ derive_status 90 = Ok "risky".
Proof.
  intros H.
  assert (Hb : blacklisted r = true).
  { unfold blacklisted, truthy. destruct H as [-> | ->]; simpl;
      [reflexivity | apply orb_true_r]. }
  unfold calculate_weighted_risk_score, run_rules. rewrite Hb.
  split; [reflexivity|]. split; [reflexivity|].
  exact (derive_status_spec 90).
Qed.

Lemma blacklist_short_circuit_witness :
  run_rules (Build_DomainF (Some 4000) (Some true) None None) no_content
    (Build_ReputationF (Some true) None (Some 0)) no_visual
    (Build_NetworkF (Some true) None None None)
  = Returned (Build_scoring 90 [("Blacklisted/Google Safe Browsing threat", 90)] [])
             "Blacklisted or known threat detected"
  /\ calculate_weighted_risk_score "https://old.example"
       (Build_DomainF (Some 4000) (Some true) None None) no_content
       (Build_ReputationF (Some true) None (Some 0)) no_visual
       (Build_NetworkF (Some true) None None None) (Some 0%float)
     = Ok (90, "Blacklisted or known threat detected")
  /\ derive_status 90 = Ok "risky".
Proof.
  apply blacklist_short_circuit. left. reflexivity.
Defined.

(** ** The baseline when every provider failed *)

(** What the aggregation reads from the records of failed providers: no
    blacklist hit and no detections; unknown age and none of the domain
    flags; an unreachable site; no content or visual signal. *)
Definition failed_reputation (r : ReputationF) : Prop :=
  blacklisted r = false /\ get (virustotal_positives r) 0 <= 0.

Definition failed_domain (d : DomainF) : Prop :=
  get (domain_age d) (-1) <= 0 /\ truthy (has_ssl d) = false
  /\ truthy (suspicious_tld d) = false /\ truthy (uses_ip d) = false.

Definition failed_network (n : NetworkF) : Prop :=
  truthy (is_reachable n) = false.

Definition failed_content (c : ContentF) : Prop :=
  PrimFloat.ltb 0.7 (get (content_risk_score c) 0%float) = false
  /\ PrimFloat.ltb 0.4 (get (content_risk_score c) 0%float) = false
  /\ get (suspicious_keywords_found (patterns_of c)) [] = []
  /\ truthy (brand_impersonation (patterns_of c)) = false.

Definition failed_visual (v : VisualF) : Prop :=
  truthy (is_impersonation (get (brand_analysis v) no_brand)) = false
  /\ PrimFloat.ltb 0.8 (get (visual_similarity_score v) 0%float) = false
  /\ PrimFloat.ltb 0.6 (get (visual_similarity_score v) 0%float) = false.

Definition baseline : scoring :=
  {| risk_score := 55;
     risk_components := [("No SSL certificate", 25); ("Site unreachable", 20)];
     positive_signals := [("Clean reputation (0 detections)", 0)] |}.

Lemma gtb_false a b : a <= b -> (a >? b) = false.
Proof. intros H. rewrite Z.gtb_ltb. apply Z.ltb_ge. exact H. Qed.

Lemma failed_run d c r v n :
  failed_domain d -> failed_content c -> failed_reputation r ->
  failed_visual v -> failed_network n ->
  run_rules d c r v n = Accumulated baseline.
Proof.
  intros (Hage & Hssl & Htld & Hip) (Hc7 & Hc4 & Hkw & Hbrand) (Hbl & Hvt)
         (Himp & Hs8 & Hs6) Hnet.
  unfold failed_network in Hnet.
  assert (E1 : reputation_rule r start
               = signal "Clean reputation (0 detections)" start).
  { unfold reputation_rule. rewrite !gtb_false by lia. reflexivity. }
  assert (E2 : forall s, domain_age_rule d s = bump 10 s).
  { intros s. unfold domain_age_rule. rewrite !gtb_false by lia. reflexivity. }
  assert (E3 : forall s, ssl_rule d s = risk 25 "No SSL certificate" s).
  { intros s. unfold ssl_rule. rewrite Hssl. reflexivity. }
  assert (E4 : forall s, tld_rule d s = s).
  { intros s. unfold tld_rule. rewrite Htld. reflexivity. }
  assert (E5 : forall s, ip_rule d s = s).
  { intros s. unfold ip_rule. rewrite Hip. reflexivity. }
  assert (E6 : forall s, network_rule n s = risk 20 "Site unreachable" s).
  { intros s. unfold network_rule. rewrite Hnet. reflexivity. }
  assert (E7 : forall s, content_risk_rule c s = s).
  { intros s. unfold content_risk_rule. rewrite Hc7, Hc4. reflexivity. }
  assert (E8 : forall s, keywords_rule c s = s).
  { intros s. unfold keywords_rule. rewrite Hkw. reflexivity. }
  assert (E9 : forall s, url_brand_rule c s = s).
  { intros s. unfold url_brand_rule. rewrite Hbrand. reflexivity. }
  assert (E10 : forall s, visual_brand_rule v s = s).
  { intros s. unfold visual_brand_rule. rewrite Himp. reflexivity. }
  assert (E11 : forall s, similarity_rule v s = s).
  { intros s. unfold similarity_rule. rewrite Hs8, Hs6. reflexivity. }
  unfold run_rules, later_rules.
  rewrite Hbl, E1, E2, E3, E4, E5, E6, E7, E8, E9, E10, E11.
  reflexivity.
Qed.

Lemma baseline_blend_checked :
  on_grid (fun r m => match score_after 0.25 r m with
                      | Some x => 41 <=? x
                      | None => false
                      end) 55 1 = true.
Proof. vm_compute. reflexivity. Qed.

(** C9. When every provider failed, the score without a classifier is the
    fixed baseline 55 = 10 (unknown age) + 25 (no SSL) + 20 (unreachable);
    with a classifier output blended in it is still at least 41, never 0. *)
Theorem unknown_is_not_safe_baseline
    (url : string) (d : DomainF) (c : ContentF) (r : ReputationF)
    (v : VisualF) (n : NetworkF) :
  failed_domain d -> failed_content c -> failed_reputation r ->
  failed_visual v -> failed_network n ->
  calculate_weighted_risk_score url d c r v n None
  = Ok (10 + 25 + 20, "Medium risk - No SSL certificate; Site unreachable")
  /\ forall p m, percentage p m ->
       exists score reason,
         calculate_weighted_risk_score url d c r v n (Some p) = Ok (score, reason)
         /\ 41 <= score <= 100.
Proof.
  intros Hd Hc Hr Hv Hn.
  unfold calculate_weighted_risk_score.
  rewrite (failed_run _ _ _ _ _ Hd Hc Hr Hv Hn).
  split; [reflexivity|].
  intros p m (Hp & Hm). unfold blend. rewrite Hp. run_bind.
  assert (Hw : ml_weight_of baseline m = 0.25%float) by reflexivity.
  rewrite Hw. change (risk_score baseline) with 55.
  assert (H := on_grid_sound _ _ _ baseline_blend_checked 55 m
                 ltac:(simpl; lia) Hm).
  unfold score_after in H.
  destruct (blend_with 0.25 55 m) as [x|]; [|discriminate].
  run_bind. eexists _, _. split; [reflexivity|].
  apply Z.leb_le in H. pose proof (clamp_range x). lia.
Qed.

(** The records the analyzers return from their [except] branches. *)
Definition domain_fallback := Build_DomainF (Some (-1)) (Some false) None None.
Definition content_fallback := Build_ContentF (Some 0.1%float) None.
Definition reputation_fallback := Build_ReputationF (Some false) None (Some 0).
Definition visual_fallback :=
  Build_VisualF (Some (Build_BrandAnalysis (Some false) (Some 0%float) None))
                (Some 0%float).
Definition network_fallback := Build_NetworkF (Some false) None None None.

Lemma unknown_is_not_safe_baseline_witness :
  calculate_weighted_risk_score "http://unreachable.example"
    domain_fallback content_fallback reputation_fallback visual_fallback
    network_fallback None
  = Ok (10 + 25 + 20, "Medium risk - No SSL certificate; Site unreachable")
  /\ forall p m, percentage p m ->
       exists score reason,
         calculate_weighted_risk_score "http://unreachable.example"
           domain_fallback content_fallback reputation_fallback
           visual_fallback network_fallback (Some p) = Ok (score, reason)
         /\ 41 <= score <= 100.
Proof.
  apply unknown_is_not_safe_baseline.
  - repeat split; simpl; lia.
  - repeat split; reflexivity.
  - split; [reflexivity | simpl; lia].
  - repeat split; reflexivity.
  - reflexivity.
Defined.

(** ** The reasons and the score *)

(** The sum of the amounts kept with the entries of both lists. *)
Definition ledger (s : scoring) : Z :=
  contributions (risk_components s) + contributions (positive_signals s).

(** The two age branches that change the score and append nothing: +5
    for an age above 90 days and up to a year, +10 for an unknown age. *)
Definition unlisted_age_adjustment (d : DomainF) : Z :=
  let age := get (domain_age d) (-1) in
  if (90 <? age) && (age <=? 365) then 5
  else if age <=? 0 then 10
  else 0.

Lemma contributions_app l1 l2 :
  contributions (l1 ++ l2) = contributions l1 + contributions l2.
Proof.
  unfold contributions. induction l1 as [|e l1 IH]; simpl; [reflexivity|].
  rewrite IH. lia.
Qed.

Lemma ledger_combine s t : ledger (combine s t) = ledger s + ledger t.
Proof.
  unfold ledger, combine; simpl. rewrite !contributions_app. lia.
Qed.

Lemma risk_score_combine s t :
  risk_score (combine s t) = risk_score s + risk_score t.
Proof. reflexivity. Qed.

Definition listed (rule : scoring -> scoring) : Prop :=
  risk_score (rule start) = ledger (rule start).

Ltac listed_rule :=
  unfold listed;
  repeat match goal with
         | |- context [if ?b then _ else _] => destruct b
         end;
  reflexivity.

Lemma listed_reputation r : listed (reputation_rule r).
Proof. unfold reputation_rule. listed_rule. Qed.

Lemma listed_ssl d : listed (ssl_rule d).
Proof. unfold ssl_rule. listed_rule. Qed.

Lemma listed_tld d : listed (tld_rule d).
Proof. unfold tld_rule. listed_rule. Qed.

Lemma listed_ip d : listed (ip_rule d).
Proof. unfold ip_rule. listed_rule. Qed.

Lemma listed_headers n : listed (headers_rule n).
Proof. unfold headers_rule. listed_rule. Qed.

Lemma listed_redirect n : listed (redirect_rule n).
Proof. unfold redirect_rule. listed_rule. Qed.

Lemma listed_dns n : listed (dns_rule n).
Proof. unfold dns_rule. listed_rule. Qed.

Lemma listed_network n : listed (network_rule n).
Proof.
  unfold listed, network_rule.
  destruct (truthy (is_reachable n)); [|reflexivity].
  rewrite (additive_dns n), (additive_redirect n), !ledger_combine,
    !risk_score_combine.
  rewrite (listed_headers n), (listed_redirect n), (listed_dns n).
  reflexivity.
Qed.

Lemma listed_content_risk c : listed (content_risk_rule c).
Proof. unfold content_risk_rule. listed_rule. Qed.

Lemma listed_keywords c : listed (keywords_rule c).
Proof. unfold keywords_rule. listed_rule. Qed.

Lemma listed_url_brand c : listed (url_brand_rule c).
Proof. unfold url_brand_rule. listed_rule. Qed.

Lemma listed_visual_brand v : listed (visual_brand_rule v).
Proof. unfold visual_brand_rule. listed_rule. Qed.

Lemma listed_similarity v : listed (similarity_rule v).
Proof. unfold similarity_rule. listed_rule. Qed.

Lemma domain_age_ledger d :
  risk_score (domain_age_rule d start)
  = ledger (domain_age_rule d start) + unlisted_age_adjustment d.
Proof.
  unfold domain_age_rule, unlisted_age_adjustment.
  set (age := get (domain_age d) (-1)).
  repeat match goal with
         | |- context [?a >? ?b] => destruct (Z.gtb_spec a b)
         end;
    destruct (Z.ltb_spec 90 age); destruct (Z.leb_spec age 365);
    destruct (Z.leb_spec age 0); try lia; reflexivity.
Qed.

Lemma accumulated_ledger d c r v n s :
  run_rules d c r v n = Accumulated s ->
  risk_score s = ledger s + unlisted_age_adjustment d.
Proof.
  intros H. rewrite (accumulated_split _ _ _ _ _ _ H).
  unfold later_rules.
  rewrite (additive_similarity v), (additive_visual_brand v),
    (additive_url_brand c), (additive_keywords c),
    (additive_content_risk c), (additive_network n), (additive_ip d),
    (additive_tld d), (additive_ssl d), !ledger_combine,
    !risk_score_combine.
  rewrite (listed_reputation r), (domain_age_ledger d), (listed_ssl d),
    (listed_tld d), (listed_ip d), (listed_network n),
    (listed_content_risk c), (listed_keywords c), (listed_url_brand c),
    (listed_visual_brand v), (listed_similarity v).
  lia.
Qed.

(** C5, as stated, fails: with empty dictionaries and no classifier the
    score is 55 while the amounts of the emitted entries add up to 45; the
    +10 for the unknown age has no entry. *)
Lemma reason_sum_counterexample :
  run_rules no_domain no_content no_reputation no_visual no_network
  = Accumulated baseline
  /\ calculate_weighted_risk_score "http://example.test" no_domain no_content
       no_reputation no_visual no_network None
     = Ok (55, "Medium risk - No SSL certificate; Site unreachable")
  /\ clamp (ledger baseline) = 45
  /\ clamp (ledger baseline) <> 55.
Proof. vm_compute. repeat split; discriminate. Qed.

(** C5, amended. The entries are plain messages; with each entry paired
    with the amount its branch adds, the rule-based score is the sum of
    those amounts plus the adjustment of the two age branches that append
    nothing. Without a classifier the returned score is that sum clamped
    to 0..100; with one, that sum is the rule-based operand of the blend.
    On the blacklist return the single entry carries the whole score. *)
Theorem reason_sum_with_unlisted_adjustment
    (url : string) (d : DomainF) (c : ContentF) (r : ReputationF)
    (v : VisualF) (n : NetworkF) :
  match run_rules d c r v n with
  | Returned s reason =>
      risk_score s = ledger s
      /\ calculate_weighted_risk_score url d c r v n None = Ok (ledger s, reason)
  | Accumulated s =>
      let rule_based := ledger s + unlisted_age_adjustment d in
      risk_score s = rule_based
      /\ calculate_weighted_risk_score url d c r v n None
         = Ok (clamp rule_based, summary (clamp rule_based) s)
      /\ forall p m, ml_risk_of p = Ok m ->
           blend s (Some p) = blend_with (ml_weight_of s m) rule_based m
  end.
Proof.
  unfold calculate_weighted_risk_score.
  destruct (run_rules d c r v n) as [s reason|s] eqn:Hrun.
  - unfold run_rules in Hrun. destruct (blacklisted r); [|discriminate].
    injection Hrun as <- <-. split; reflexivity.
  - cbv zeta. rewrite <- (accumulated_ledger _ _ _ _ _ _ Hrun).
    split; [reflexivity|]. split; [reflexivity|].
    intros p m Hp. unfold blend. rewrite Hp. reflexivity.
Qed.

(** ** How far the classifier can move the score *)

(** An input with four risk components and two positive signals: a
    100-day-old domain with SSL, reachable without security headers, a
    content risk of 0.5, one suspicious keyword, a visual similarity of
    0.7. *)
Definition four_risks_domain := Build_DomainF (Some 100) (Some true) None None.
Definition four_risks_network := Build_NetworkF (Some true) None None None.
Definition four_risks_content :=
  Build_ContentF (Some 0.5%float)
                 (Some (Build_PatternFeatures (Some ["login"]) None)).
Definition four_risks_visual := Build_VisualF None (Some 0.7%float).

(** C4, as stated, fails: on this input the run with probability 0.9
    returns 52 and the run with 0.1 returns 35, 17 points apart. The run
    with 0.9 blends at the normal weight 0.25: the weight shrinks for many
    risk components only when the classifier's percentage is below 40. *)
Lemma classifier_influence_counterexample :
  exists s,
    run_rules four_risks_domain four_risks_content no_reputation
      four_risks_visual four_risks_network = Accumulated s
    /\ length (risk_components s) = 4%nat
    /\ ml_weight_of s 90 = 0.25%float
    /\ ml_weight_of s 10 = 0.15%float
    /\ calculate_weighted_risk_score "http://shop.example/login"
         four_risks_domain four_risks_content no_reputation
         four_risks_visual four_risks_network (Some 0.9%float)
       = Ok (52, "Medium risk - No security headers; Suspicious content patterns")
    /\ calculate_weighted_risk_score "http://shop.example/login"
         four_risks_domain four_risks_content no_reputation
         four_risks_visual four_risks_network (Some 0.1%float)
       = Ok (35, "Medium risk - No security headers; Suspicious content patterns")
    /\ ~ (52 - 35 <= 15).
Proof.
  eexists. split; [vm_compute; reflexivity|].
  repeat split; try (vm_compute; reflexivity). lia.
Qed.

(** The scores a run can reach are multiples of 5. *)
Definition fives : list Z := map (fun k => 5 * k) (zrange (-6) 65).

Lemma in_fives r : -30 <= r <= 290 -> r mod 5 = 0 -> In r fives.
Proof.
  intros Hr Hm. unfold fives.
  assert (E : r = 5 * (r / 5)) by (pose proof (Z_div_mod_eq_full r 5); lia).
  set (q := r / 5) in *. rewrite E.
  apply (in_map (fun k => 5 * k)), in_zrange.
  change (Z.of_nat 65) with 65. lia.
Qed.

Definition apart (hi lo : option Z) (bound : Z) : bool :=
  match hi, lo with
  | Some h, Some l => (0 <=? h - l) && (h - l <=? bound)
  | _, _ => false
  end.

Lemma apart_sound w1 w2 r1 r2 m1 m2 bound :
  apart (score_after w1 r1 m1) (score_after w2 r2 m2) bound = true ->
  exists h l, blend_with w1 r1 m1 = Ok h /\ blend_with w2 r2 m2 = Ok l
              /\ 0 <= clamp h - clamp l <= bound.
Proof.
  unfold apart, score_after.
  destruct (blend_with w1 r1 m1) as [h|]; [|discriminate].
  destruct (blend_with w2 r2 m2) as [l|]; [|discriminate].
  intros H. apply andb_prop in H. destruct H as [Hge Hle].
  apply Z.leb_le in Hge, Hle.
  exists h, l. repeat split; try reflexivity; lia.
Qed.

(** With four or more risk components and fewer than three positive
    signals the rule-based score is at least 30. *)
Lemma four_risks_checked :
  every_choice (fun '(r, nr, np) =>
                  implb ((nr >=? 4) && (np <? 3)) (r >=? 30))
               rule_outcomes (0, 0, 0) = true.
Proof. vm_compute. reflexivity. Qed.

Lemma influence_checked :
  forallb (fun r =>
             apart (score_after 0.15 r 90) (score_after 0.15 r 10) 12
             && (if r >=? 30
                 then apart (score_after 0.25 r 90) (score_after 0.15 r 10) 18
                 else true))
          fives = true.
Proof. vm_compute. reflexivity. Qed.

Lemma percent_90 : ml_risk_of 0.9 = Ok 90.
Proof. vm_compute. reflexivity. Qed.

Lemma percent_10 : ml_risk_of 0.1 = Ok 10.
Proof. vm_compute. reflexivity. Qed.

(** C4, amended. On an input that accumulated four or more risk
    components, the runs with probabilities 0.9 and 0.1 return scores at
    most 18 points apart, the higher for 0.9. The run with 0.1 blends at
    weight 0.15; the run with 0.9 blends at 0.15 only when there are three
    or more positive signals, and then the scores are at most 12 apart;
    otherwise it blends at 0.25. *)
Theorem classifier_influence_bounded
    (url : string) (d : DomainF) (c : ContentF) (r : ReputationF)
    (v : VisualF) (n : NetworkF) (s : scoring) :
  run_rules d c r v n = Accumulated s ->
  (4 <= length (risk_components s))%nat ->
  exists hi lo reason_hi reason_lo,
    calculate_weighted_risk_score url d c r v n (Some 0.9%float)
    = Ok (hi, reason_hi)
    /\ calculate_weighted_risk_score url d c r v n (Some 0.1%float)
       = Ok (lo, reason_lo)
    /\ 0 <= hi - lo <= 18
    /\ ml_weight_of s 10 = 0.15%float
    /\ ml_weight_of s 90
       = (if Z.of_nat (length (positive_signals s)) >=? 3
          then 0.15 else 0.25)%float
    /\ ((3 <= length (positive_signals s))%nat -> hi - lo <= 12).
Proof.
  intros Hrun Hrisks.
  destruct (run_range _ _ _ _ _ _ Hrun) as [Hrange Hmod].
  assert (Hmin := on_every_run _ four_risks_checked _ _ _ _ _ _ Hrun).
  assert (Hgrid := proj1 (forallb_forall _ _) influence_checked _
                     (in_fives _ Hrange Hmod)).
  unfold summarize in Hmin. cbv beta iota in Hmin, Hgrid.
  apply andb_prop in Hgrid. destruct Hgrid as [H15 H25].
  assert (Hlo : ml_weight_of s 10 = 0.15%float).
  { rewrite ml_weight_of_summary. unfold weight3.
    rewrite andb_false_r. cbn [Z.ltb Z.compare].
    replace (Z.of_nat (length (risk_components s)) >=? 3) with true
      by (symmetry; apply Z.geb_le; lia).
    reflexivity. }
  assert (Hhi : ml_weight_of s 90
                = (if Z.of_nat (length (positive_signals s)) >=? 3
                   then 0.15 else 0.25)%float).
  { rewrite ml_weight_of_summary. unfold weight3.
    change (90 >? 60) with true. change (90 <? 40) with false.
    rewrite andb_true_r, andb_false_r. reflexivity. }
  unfold calculate_weighted_risk_score. rewrite Hrun. unfold blend.
  rewrite percent_90, percent_10. run_bind. rewrite Hlo, Hhi.
  destruct (Z.of_nat (length (positive_signals s)) >=? 3) eqn:Hpos.
  - destruct (apart_sound _ _ _ _ _ _ _ H15) as (hi & lo & -> & -> & Hd).
    run_bind. eexists _, _, _, _. split; [reflexivity|].
    split; [reflexivity|].
    repeat split; try reflexivity; lia.
  - assert (Hr : (risk_score s >=? 30) = true).
    { replace (Z.of_nat (length (risk_components s)) >=? 4) with true in Hmin
        by (symmetry; apply Z.geb_le; lia).
      replace (Z.of_nat (length (positive_signals s)) <? 3) with true in Hmin
        by (symmetry; apply Z.ltb_lt; rewrite Z.geb_leb in Hpos;
            apply Z.leb_gt in Hpos; lia).
      exact Hmin. }
    rewrite Hr in H25.
    destruct (apart_sound _ _ _ _ _ _ _ H25) as (hi & lo & -> & -> & Hd).
    run_bind. eexists _, _, _, _. split; [reflexivity|].
    split; [reflexivity|].
    repeat split; try reflexivity; lia.
Qed.

Lemma classifier_influence_bounded_witness :
  exists hi lo reason_hi reason_lo,
    calculate_weighted_risk_score "http://shop.example/login"
      four_risks_domain four_risks_content no_reputation four_risks_visual
      four_risks_network (Some 0.9%float) = Ok (hi, reason_hi)
    /\ calculate_weighted_risk_score "http://shop.example/login"
         four_risks_domain four_risks_content no_reputation four_risks_visual
         four_risks_network (Some 0.1%float) = Ok (lo, reason_lo)
    /\ 0 <= hi - lo <= 18
    /\ ml_weight_of
         (later_rules four_risks_domain four_risks_content four_risks_visual
            four_risks_network (reputation_rule no_reputation start)) 10
       = 0.15%float
    /\ ml_weight_of
         (later_rules four_risks_domain four_risks_content four_risks_visual
            four_risks_network (reputation_rule no_reputation start)) 90
       = (if Z.of_nat (length (positive_signals
            (later_rules four_risks_domain four_risks_content
               four_risks_visual four_risks_network
               (reputation_rule no_reputation start)))) >=? 3
          then 0.15 else 0.25)%float
    /\ ((3 <= length (positive_signals
            (later_rules four_risks_domain four_risks_content
               four_risks_visual four_risks_network
               (reputation_rule no_reputation start))))%nat -> hi - lo <= 12).
Proof.
  apply (classifier_influence_bounded "http://shop.example/login"
           four_risks_domain four_risks_content no_reputation
           four_risks_visual four_risks_network).
  - reflexivity.
  - vm_compute. lia.
Defined.

(** ** Monotonicity in the number of detections *)

(** The points of the reputation rule, and whether it appends to the risk
    components (1) or to the positive signals (0). *)
Definition reputation_points (vt : Z) : Z :=
  if vt >? 10 then 60 else if vt >? 5 then 40 else if vt >? 0 then 20 else 0.

Definition detected (vt : Z) : Z := if vt >? 0 then 1 else 0.

Lemma reputation_summary r :
  let vt := get (virustotal_positives r) 0 in
  summarize (reputation_rule r start)
  = (reputation_points vt, detected vt, 1 - detected vt).
Proof.
  cbv zeta. unfold reputation_rule, reputation_points, detected.
  set (vt := get (virustotal_positives r) 0).
  destruct (Z.gtb_spec vt 10); destruct (Z.gtb_spec vt 5);
    destruct (Z.gtb_spec vt 0); try lia; reflexivity.
Qed.

Lemma later_range_checked :
  every_choice (fun '(r, nr, np) => (-30 <=? r) && (r <=? 230))
               later_outcomes (0, 0, 0) = true.
Proof. vm_compute. reflexivity. Qed.

Definition with_score (o : option Z) (k : Z -> bool) : bool :=
  match o with
  | Some x => k x
  | None => false
  end.

Lemma with_score_sound o k :
  with_score o k = true -> exists x, o = Some x /\ k x = true.
Proof. destruct o as [x|]; simpl; [eauto | discriminate]. Qed.

(** One cell of the grid: the blended scores at the four reputation
    tiers, under either weight, for the scores [dl], [dl + 20], [dl + 40]
    and [dl + 60]. Between the tiers with detections the weight stays the
    same; from no detection to some, the weight may rise from 0.15 to 0.25
    above a percentage of 60 and fall from 0.25 to 0.15 below 40. *)
Definition mono_cell (dl m : Z) : bool :=
  with_score (score_after 0.15 dl m) (fun a0 =>
  with_score (score_after 0.15 (20 + dl) m) (fun a1 =>
  with_score (score_after 0.15 (40 + dl) m) (fun a2 =>
  with_score (score_after 0.15 (60 + dl) m) (fun a3 =>
  with_score (score_after 0.25 dl m) (fun b0 =>
  with_score (score_after 0.25 (20 + dl) m) (fun b1 =>
  with_score (score_after 0.25 (40 + dl) m) (fun b2 =>
  with_score (score_after 0.25 (60 + dl) m) (fun b3 =>
    (a0 <=? a1) && (a1 <=? a2) && (a2 <=? a3)
    && (b0 <=? b1) && (b1 <=? b2) && (b2 <=? b3)
    && implb (m >? 60) (a0 <=? b1)
    && implb (m <? 40) (b0 <=? a1))))))))).

Lemma mono_checked : on_grid mono_cell (-30) 261 = true.
Proof. vm_compute. reflexivity. Qed.

(** The scores at the four tiers, for fixed later rules and percentage. *)
Lemma tiers_ascend dl nR nP m :
  -30 <= dl <= 230 -> 0 <= m <= 100 -> 0 <= nR -> 0 <= nP ->
  exists x0 x1 x2 x3,
    score_after (weight3 (1 + nP) (0 + nR) m) (0 + dl) m = Some x0
    /\ score_after (weight3 (0 + nP) (1 + nR) m) (20 + dl) m = Some x1
    /\ score_after (weight3 (0 + nP) (1 + nR) m) (40 + dl) m = Some x2
    /\ score_after (weight3 (0 + nP) (1 + nR) m) (60 + dl) m = Some x3
    /\ x0 <= x1 <= x2 /\ x2 <= x3.
Proof.
  intros Hdl Hm HnR HnP.
  assert (H := on_grid_sound _ _ _ mono_checked dl m ltac:(simpl; lia) Hm).
  unfold mono_cell in H.
  apply with_score_sound in H. destruct H as (a0 & A0 & H).
  apply with_score_sound in H. destruct H as (a1 & A1 & H).
  apply with_score_sound in H. destruct H as (a2 & A2 & H).
  apply with_score_sound in H. destruct H as (a3 & A3 & H).
  apply with_score_sound in H. destruct H as (b0 & B0 & H).
  apply with_score_sound in H. destruct H as (b1 & B1 & H).
  apply with_score_sound in H. destruct H as (b2 & B2 & H).
  apply with_score_sound in H. destruct H as (b3 & B3 & H).
  change (0 + dl) with dl. unfold weight3.
  destruct ((1 + nP >=? 3) && (m >? 60)) eqn:C1;
    destruct ((0 + nR >=? 3) && (m <? 40)) eqn:C2;
    destruct ((0 + nP >=? 3) && (m >? 60)) eqn:C3;
    destruct ((1 + nR >=? 3) && (m <? 40)) eqn:C4;
    rewrite ?A0, ?A1, ?A2, ?A3, ?B0, ?B1, ?B2, ?B3;
    eexists _, _, _, _;
    (split; [reflexivity|]); (split; [reflexivity|]);
    (split; [reflexivity|]); (split; [reflexivity|]); lia.
Qed.

(** The score of a run that is not blacklisted, from the reputation tier
    and the summary of the later rules. *)
Lemma score_with_classifier url d c r v n p m x :
  blacklisted r = false -> ml_risk_of p = Ok m ->
  let vt := get (virustotal_positives r) 0 in
  let '(dl, nR, nP) := summarize (later_rules d c v n start) in
  score_after (weight3 (1 - detected vt + nP) (detected vt + nR) m)
              (reputation_points vt + dl) m = Some x ->
  exists reason,
    calculate_weighted_risk_score url d c r v n (Some p) = Ok (x, reason).
Proof.
  intros Hb Hp. cbv zeta.
  unfold calculate_weighted_risk_score, run_rules. rewrite Hb.
  rewrite (additive_later_rules d c v n (reputation_rule r start)).
  unfold blend. rewrite Hp. run_bind. rewrite ml_weight_of_summary.
  pose proof (summarize_combine (reputation_rule r start)
                (later_rules d c v n start)) as Hsum.
  rewrite (reputation_summary r) in Hsum.
  remember (combine (reputation_rule r start) (later_rules d c v n start))
    as S eqn:HS. clear HS.
  unfold summarize in Hsum |- *. unfold plus3 in Hsum.
  injection Hsum as E1 E2 E3. rewrite E1, E2, E3.
  unfold score_after.
  destruct (blend_with _ _ m) as [y|]; [|discriminate].
  intros [= <-]. run_bind. eauto.
Qed.

Lemma score_without_classifier url d c r v n :
  blacklisted r = false ->
  calculate_weighted_risk_score url d c r v n None
  = Ok (clamp (reputation_points (get (virustotal_positives r) 0)
               + risk_score (later_rules d c v n start)),
        summary (clamp (reputation_points (get (virustotal_positives r) 0)
                        + risk_score (later_rules d c v n start)))
                (later_rules d c v n (reputation_rule r start))).
Proof.
  intros Hb. unfold calculate_weighted_risk_score, run_rules. rewrite Hb.
  unfold blend. run_bind.
  pose proof (summarize_combine (reputation_rule r start)
                (later_rules d c v n start)) as Hsum.
  rewrite (reputation_summary r) in Hsum.
  rewrite <- (additive_later_rules d c v n (reputation_rule r start)) in Hsum.
  remember (later_rules d c v n (reputation_rule r start)) as S eqn:HS.
  clear HS. unfold summarize, plus3 in Hsum.
  injection Hsum as E1 _ _. rewrite E1. reflexivity.
Qed.

Lemma reputation_points_mono a b :
  a <= b -> reputation_points a <= reputation_points b.
Proof.
  intros H. unfold reputation_points.
  destruct (Z.gtb_spec a 10); destruct (Z.gtb_spec a 5);
    destruct (Z.gtb_spec a 0); destruct (Z.gtb_spec b 10);
    destruct (Z.gtb_spec b 5); destruct (Z.gtb_spec b 0); lia.
Qed.

(** C3. Two inputs that differ only in [virustotal_positives], the second
    having at least as many detections as the first: both runs return, and
    the second score is at least the first, across the tiers, the choice
    of blend weight and the clamp. *)
Theorem monotone_in_virustotal_positives
    (url : string) (d : DomainF) (c : ContentF) (r1 r2 : ReputationF)
    (v : VisualF) (n : NetworkF) (ml : option float) :
  is_on_blacklist r1 = is_on_blacklist r2 ->
  is_gsb_threat r1 = is_gsb_threat r2 ->
  get (virustotal_positives r1) 0 <= get (virustotal_positives r2) 0 ->
  classifier_input ml ->
  exists score1 score2 reason1 reason2,
    calculate_weighted_risk_score url d c r1 v n ml = Ok (score1, reason1)
    /\ calculate_weighted_risk_score url d c r2 v n ml = Ok (score2, reason2)
    /\ score1 <= score2.
Proof.
  intros Hbl Hgsb Hvt Hml.
  assert (Hb : blacklisted r2 = blacklisted r1)
    by (unfold blacklisted; rewrite Hbl, Hgsb; reflexivity).
  destruct (blacklisted r1) eqn:Hb1.
  { unfold calculate_weighted_risk_score, run_rules. rewrite Hb, Hb1.
    eexists _, _, _, _. split; [reflexivity|]. split; [reflexivity|].
    simpl. lia. }
  destruct ml as [p|].
  - destruct Hml as (m & Hp & Hm).
    pose proof (score_with_classifier url d c r1 v n p m) as S1.
    pose proof (score_with_classifier url d c r2 v n p m) as S2.
    pose proof (on_later_rules _ later_range_checked d c v n) as Hrange.
    cbv zeta in S1, S2.
    destruct (summarize (later_rules d c v n start)) as [[dl nR] nP] eqn:HL.
    assert (HnR : 0 <= nR /\ 0 <= nP).
    { unfold summarize in HL. injection HL as _ <- <-. lia. }
    destruct (tiers_ascend dl nR nP m ltac:(lia) Hm ltac:(lia) ltac:(lia))
      as (x0 & x1 & x2 & x3 & E0 & E1 & E2 & E3 & Hx).
    revert S1 S2. unfold reputation_points, detected.
    destruct (Z.gtb_spec (get (virustotal_positives r1) 0) 10);
      destruct (Z.gtb_spec (get (virustotal_positives r1) 0) 5);
      destruct (Z.gtb_spec (get (virustotal_positives r1) 0) 0);
      destruct (Z.gtb_spec (get (virustotal_positives r2) 0) 10);
      destruct (Z.gtb_spec (get (virustotal_positives r2) 0) 5);
      destruct (Z.gtb_spec (get (virustotal_positives r2) 0) 0);
      try lia;
      change (1 - 1) with 0; change (1 - 0) with 1;
      intros S1 S2;
      first [ destruct (S1 _ Hb1 Hp E0) as [reason1 ->]
            | destruct (S1 _ Hb1 Hp E1) as [reason1 ->]
            | destruct (S1 _ Hb1 Hp E2) as [reason1 ->]
            | destruct (S1 _ Hb1 Hp E3) as [reason1 ->] ];
      first [ destruct (S2 _ Hb Hp E0) as [reason2 ->]
            | destruct (S2 _ Hb Hp E1) as [reason2 ->]
            | destruct (S2 _ Hb Hp E2) as [reason2 ->]
            | destruct (S2 _ Hb Hp E3) as [reason2 ->] ];
      eexists _, _, _, _; (split; [reflexivity|]); (split; [reflexivity|]);
      lia.
  - rewrite (score_without_classifier url d c r1 v n Hb1).
    rewrite (score_without_classifier url d c r2 v n Hb).
    eexists _, _, _, _. split; [reflexivity|]. split; [reflexivity|].
    apply clamp_mono. pose proof (reputation_points_mono _ _ Hvt). lia.
Qed.

Lemma monotone_in_virustotal_positives_witness :
  exists score1 score2 reason1 reason2,
    calculate_weighted_risk_score "https://portal.example"
      (Build_DomainF (Some 900) (Some true) None None) four_risks_content
      (Build_ReputationF None None (Some 0)) four_risks_visual
      (Build_NetworkF (Some true)
         (Some (Build_SecurityHeaders (Some true) (Some true) (Some true)))
         None None)
      (Some 0.9%float) = Ok (score1, reason1)
    /\ calculate_weighted_risk_score "https://portal.example"
         (Build_DomainF (Some 900) (Some true) None None) four_risks_content
         (Build_ReputationF None None (Some 3)) four_risks_visual
         (Build_NetworkF (Some true)
            (Some (Build_SecurityHeaders (Some true) (Some true) (Some true)))
            None None)
         (Some 0.9%float) = Ok (score2, reason2)
    /\ score1 <= score2.
Proof.
  apply monotone_in_virustotal_positives.
  - reflexivity.
  - reflexivity.
  - simpl. lia.
  - exists 90. split; [vm_compute; reflexivity | lia].
Defined.

(** ** The trusted-domain short-circuit *)

Lemma endswith_suffix prefix suffix : endswith (prefix ++ suffix) suffix = true.
Proof.
  induction prefix as [|ch prefix IH]; simpl.
  - destruct suffix; simpl; rewrite ?String.eqb_refl, ?Ascii.eqb_refl; reflexivity.
  - rewrite IH. apply orb_true_r.
Qed.

Section CheckerFacts.

Variable urlparse_netloc : string -> result string.
Variable domain_get_features : string -> result DomainF.
Variable content_get_features : string -> result ContentF.
Variable reputation_get_features : string -> result ReputationF.
Variable network_get_network_features : string -> result NetworkF.
Variable visual_get_features : string -> result VisualF.
Variable ml_model : option (string -> result float).

Let check := check_url_risk urlparse_netloc domain_get_features
               content_get_features reputation_get_features
               network_get_network_features visual_get_features ml_model.

(** C6. A URL whose host, as [urlparse] gives it in [netloc], lowercased
    and with [www.] removed, is a trusted domain or a subdomain of one gets
    the trusted report, with score 0 and status legitimate, and no
    analyzer, classifier or scoring call is made. *)
Theorem trusted_domain_short_circuit (url netloc trusted : string) :
  urlparse_netloc url = Ok netloc ->
  In trusted TRUSTED_DOMAINS ->
  (replace "www." "" (lower netloc) = trusted
   \/ exists sub, replace "www." "" (lower netloc) = sub ++ "." ++ trusted) ->
  check url = ([], trusted_report url)
  /\ r_risk_score (snd (check url)) = 0
  /\ r_overall_status (snd (check url)) = "legitimate".
Proof.
  intros Hnet Hin Hmatch.
  assert (Ht : is_trusted_domain urlparse_netloc url = true).
  { unfold is_trusted_domain. rewrite Hnet.
    apply existsb_exists. exists trusted. split; [exact Hin|].
    destruct Hmatch as [-> | [sub ->]].
    - rewrite String.eqb_refl. reflexivity.
    - rewrite endswith_suffix. apply orb_true_r. }
  unfold check, check_url_risk. rewrite Ht. repeat split.
Qed.

(** C10. For a URL that is not trusted, an analyzer that raises makes
    [check_url_risk] return the error report: score -1, status error,
    the exception text under the key [error]. *)
Theorem analyzer_exception_gives_error_report (url : string) :
  is_trusted_domain urlparse_netloc url = false ->
  (exists e, domain_get_features url = Raise e)
  \/ (exists e, content_get_features url = Raise e)
  \/ (exists e, reputation_get_features url = Raise e)
  \/ (exists e, network_get_network_features url = Raise e)
  \/ (exists e, visual_get_features url = Raise e) ->
  exists e,
    snd (check url) = error_report url e
    /\ r_risk_score (snd (check url)) = -1
    /\ r_overall_status (snd (check url)) = "error"
    /\ r_error (snd (check url)) = Some e.
Proof.
  intros Ht Hraise. unfold check, check_url_risk, analyze. rewrite Ht.
  destruct (domain_get_features url) as [d|e1];
    [|exists e1; repeat split].
  destruct (content_get_features url) as [c|e2];
    [|exists e2; repeat split].
  destruct (reputation_get_features url) as [r|e3];
    [|exists e3; repeat split].
  destruct (network_get_network_features url) as [n|e4];
    [|exists e4; repeat split].
  destruct (visual_get_features url) as [v|e5];
    [|exists e5; repeat split].
  exfalso.
  destruct Hraise as [[e H]|[[e H]|[[e H]|[[e H]|[e H]]]]]; discriminate H.
Qed.

End CheckerFacts.

Lemma trusted_domain_short_circuit_witness :
  check_url_risk (fun u => Ok (plain_netloc u))
    (fun _ => Raise "whois down") (fun _ => Raise "no content")
    (fun _ => Raise "no reputation") (fun _ => Raise "no network")
    (fun _ => Raise "no screenshot") None
    "https://WWW.Mail.Google.com/inbox"
  = ([], trusted_report "https://WWW.Mail.Google.com/inbox")
  /\ r_risk_score
       (snd (check_url_risk (fun u => Ok (plain_netloc u))
               (fun _ => Raise "whois down") (fun _ => Raise "no content")
               (fun _ => Raise "no reputation") (fun _ => Raise "no network")
               (fun _ => Raise "no screenshot") None
               "https://WWW.Mail.Google.com/inbox")) = 0
  /\ r_overall_status
       (snd (check_url_risk (fun u => Ok (plain_netloc u))
               (fun _ => Raise "whois down") (fun _ => Raise "no content")
               (fun _ => Raise "no reputation") (fun _ => Raise "no network")
               (fun _ => Raise "no screenshot") None
               "https://WWW.Mail.Google.com/inbox")) = "legitimate".
Proof.
  apply (trusted_domain_short_circuit (fun u => Ok (plain_netloc u))
           (fun _ => Raise "whois down") (fun _ => Raise "no content")
           (fun _ => Raise "no reputation") (fun _ => Raise "no network")
           (fun _ => Raise "no screenshot") None
           "https://WWW.Mail.Google.com/inbox" "WWW.Mail.Google.com"
           "google.com").
  - reflexivity.
  - left. reflexivity.
  - right. exists "mail". reflexivity.
Defined.

Lemma analyzer_exception_gives_error_report_witness :
  exists e,
    snd (check_url_risk (fun u => Ok (plain_netloc u))
           (fun _ => Ok domain_fallback) (fun _ => Raise "read timed out")
           (fun _ => Ok reputation_fallback) (fun _ => Ok network_fallback)
           (fun _ => Ok visual_fallback) None "http://slow.example/")
    = error_report "http://slow.example/" e
    /\ r_risk_score
         (snd (check_url_risk (fun u => Ok (plain_netloc u))
                 (fun _ => Ok domain_fallback)
                 (fun _ => Raise "read timed out")
                 (fun _ => Ok reputation_fallback)
                 (fun _ => Ok network_fallback)
                 (fun _ => Ok visual_fallback) None "http://slow.example/"))
       = -1
    /\ r_overall_status
         (snd (check_url_risk (fun u => Ok (plain_netloc u))
                 (fun _ => Ok domain_fallback)
                 (fun _ => Raise "read timed out")
                 (fun _ => Ok reputation_fallback)
                 (fun _ => Ok network_fallback)
                 (fun _ => Ok visual_fallback) None "http://slow.example/"))
       = "error"
    /\ r_error
         (snd (check_url_risk (fun u => Ok (plain_netloc u))
                 (fun _ => Ok domain_fallback)
                 (fun _ => Raise "read timed out")
                 (fun _ => Ok reputation_fallback)
                 (fun _ => Ok network_fallback)
                 (fun _ => Ok visual_fallback) None "http://slow.example/"))
       = Some e.
Proof.
  apply (analyzer_exception_gives_error_report
           (fun u => Ok (plain_netloc u)) (fun _ => Ok domain_fallback)
           (fun _ => Raise "read timed out") (fun _ => Ok reputation_fallback)
           (fun _ => Ok network_fallback) (fun _ => Ok visual_fallback) None
           "http://slow.example/").
  - reflexivity.
  - right. left. exists "read timed out". reflexivity.
Defined.

End UrlFacts.

Import ApkAnalysis.

(** * Properties of the APK engine *)

Module ApkFacts.

Definition READ_SMS := "android.permission.READ_SMS".
Definition SEND_SMS := "android.permission.SEND_SMS".

Definition read_sms_reason : Reason :=
  {| level := "High Risk Permission"; risk_type := "Spyware Risk";
     message := "Requests 'READ_SMS': Can read all SMS messages, including private conversations and two-factor authentication codes." |}.

Definition send_sms_reason : Reason :=
  {| level := "High Risk Permission"; risk_type := "Toll Fraud Risk";
     message := "Requests 'SEND_SMS': Can send SMS messages from your phone without your knowledge, potentially signing you up for costly premium services." |}.

Lemma permission_loop_read_send :
  permission_loop [READ_SMS; SEND_SMS] 0 []
  = (15 + 20, [read_sms_reason; send_sms_reason]).
Proof. vm_compute. reflexivity. Qed.

Lemma permission_loop_send_read :
  permission_loop [SEND_SMS; READ_SMS] 0 []
  = (20 + 15, [send_sms_reason; read_sms_reason]).
Proof. vm_compute. reflexivity. Qed.

(** A report without detections adds nothing: [vt_risk] stays the integer
    0 or becomes the float 0.0 * 100, and no reason is appended. *)
Lemma vt_block_clean vt reasons :
  get (positives vt) 0 = 0 ->
  vt_block vt reasons = Ok (None, reasons)
  \/ vt_block vt reasons = Ok (Some (PrimFloat.mul 0 100), reasons).
Proof.
  intros Hpos. unfold vt_block. rewrite Hpos.
  destruct (vt_truthy vt && negb (nonempty (get (vt_error vt) "")));
    [|left; reflexivity].
  destruct (Z.gtb_spec (get (total vt) 1) 0) as [Hgt|Hle];
    [|left; reflexivity].
  right. unfold truediv.
  destruct (Z.eqb_spec (get (total vt) 1) 0) as [E|_]; [lia|].
  destruct (Z.ltb_spec (get (total vt) 1) 0) as [E|_]; [lia|].
  reflexivity.
Qed.

(** C7. An APK whose dangerous permissions are exactly READ_SMS and
    SEND_SMS, with a VirusTotal report without detections and one
    signature-mismatch warning: the partial risks are 15 + 20 and 65, the
    total is capped at 100, the confidence score is 0 and the level is the
    bottom one. *)
Theorem sms_clone_example (m_err sha : option string) (perms : list string)
    (vt : VtReport) (msg : string) :
  Permutation (List.filter is_dangerous perms) [READ_SMS; SEND_SMS] ->
  get (positives vt) 0 = 0 ->
  let analysis_results :=
    {| metadata := Some (Build_Metadata m_err (Some perms) sha);
       virustotal := Some vt;
       clone_analysis := Some [Build_Warning "signature_mismatch" msg] |} in
  exists vt_risk reasons,
    partial_risks analysis_results = Ok (15 + 20, vt_risk, 65, reasons)
    /\ length reasons = 3%nat
    /\ calculate_risk analysis_results
       = Ok (0, "☠️ CRITICAL RISK - MALWARE LIKELY",
             Z.min 100 (15 + 20 + 65), reasons).
Proof.
  intros Hperm Hpos. cbv zeta.
  unfold calculate_risk, partial_risks.
  cbn [metadata permissions virustotal clone_analysis get].
  apply Permutation_sym, Permutation_length_2_inv in Hperm.
  destruct Hperm as [-> | ->];
    [rewrite permission_loop_read_send | rewrite permission_loop_send_read];
    (destruct (vt_block_clean vt [read_sms_reason; send_sms_reason] Hpos)
       as [-> | ->]
     || destruct (vt_block_clean vt [send_sms_reason; read_sms_reason] Hpos)
       as [-> | ->]);
    eexists _, _; (split; [reflexivity|]); (split; [reflexivity|]);
    vm_compute; reflexivity.
Qed.

Lemma sms_clone_example_witness :
  let analysis_results :=
    {| metadata :=
         Some (Build_Metadata None
                 (Some ["android.permission.INTERNET"; SEND_SMS;
                        "android.permission.VIBRATE"; READ_SMS])
                 (Some "9f2c"));
       virustotal := Some (Build_VtReport None None (Some 0) (Some 70)
                             (Some "2024-01-01 00:00:00"));
       clone_analysis :=
         Some [Build_Warning "signature_mismatch"
                 "Signature does not match official signature."] |} in
  exists vt_risk reasons,
    partial_risks analysis_results = Ok (15 + 20, vt_risk, 65, reasons)
    /\ length reasons = 3%nat
    /\ calculate_risk analysis_results
       = Ok (0, "☠️ CRITICAL RISK - MALWARE LIKELY",
             Z.min 100 (15 + 20 + 65), reasons).
Proof.
  apply (sms_clone_example None (Some "9f2c")
           ["android.permission.INTERNET"; SEND_SMS;
            "android.permission.VIBRATE"; READ_SMS]).
  - vm_compute. apply perm_swap.
  - reflexivity.
Defined.

(** ** The classifier is advisory *)

(** What [analyze_apk] tells about the risk: the four scoring fields of
    the final report, the message of an error dictionary, or the
    exception. *)
Inductive risk_view :=
| Scored (confidence_score : Z) (confidence_level : string)
         (risk_score : Z) (reasons : list Reason)
| Failed (msg : string)
| Raised (e : exn).

Definition risk_view_of (r : result ApkReport) : risk_view :=
  match r with
  | Ok (FinalReport confidence_score confidence_level reasons risk_score _) =>
      Scored confidence_score confidence_level risk_score reasons
  | Ok (ErrorDict msg) => Failed msg
  | Raise e => Raised e
  end.

(** A classifier that is absent, or that answers every feature vector
    with a number whose percentage [int(p * 100)] is defined. *)
Definition classifier_answers (MODEL : option (list Z -> result float)) : Prop :=
  match MODEL with
  | None => True
  | Some predict_proba =>
      forall vec, exists p k,
        predict_proba vec = Ok p /\ int_of_float (PrimFloat.mul p 100) = Ok k
  end.

Lemma ai_analysis_returns MODEL FEATURES metadata :
  classifier_answers MODEL ->
  exists ai, ai_analysis_of MODEL FEATURES metadata = Ok ai.
Proof.
  intros H. unfold ai_analysis_of.
  destruct MODEL as [predict_proba|]; [|eauto].
  destruct FEATURES as [|f fs]; [eauto|].
  destruct (H (feature_vector (f :: fs) (get (permissions metadata) [])))
    as (p & k & -> & Hk).
  run_bind. rewrite Hk. run_bind. eauto.
Qed.

Section PipelineFacts.

Variable Apk : Type.
Variable path_exists : string -> bool.
Variable open_apk : string -> result Apk.
Variable extract_metadata : string -> Apk -> Metadata.
Variable get_virustotal_report : option string -> result VtReport.
Variable compare_with_known_apps : Metadata -> result (list Warning).

Let run := analyze_apk Apk path_exists open_apk extract_metadata
             get_virustotal_report compare_with_known_apps.

(** The view of a run, whatever the classifier: that of the run
    without one. *)
Lemma view_without_classifier MODEL FEATURES file_path :
  classifier_answers MODEL ->
  risk_view_of (run MODEL FEATURES file_path)
  = risk_view_of (run None [] file_path).
Proof.
  intros H. unfold run, analyze_apk.
  destruct (negb (path_exists file_path)); [reflexivity|].
  destruct (open_apk file_path) as [apk|e]; [|reflexivity].
  destruct (m_error (extract_metadata file_path apk)); [reflexivity|].
  destruct (get_virustotal_report _) as [vt|e]; [|reflexivity]. run_bind.
  destruct (compare_with_known_apps _) as [clones|e]; [|reflexivity].
  run_bind.
  destruct (calculate_risk _) as [[[[cs cl] rs] reasons]|e]; [|reflexivity].
  run_bind.
  destruct (ai_analysis_returns MODEL FEATURES
              (extract_metadata file_path apk) H) as [ai ->].
  reflexivity.
Qed.

(** C8. Two runs of [analyze_apk] on the same file that differ only in
    the classifier (absent, or present with any answers) agree on
    [confidence_score], [confidence_level], [risk_score] and the
    reasons; without a classifier the report says so in [ai_analysis],
    the only field it reaches. *)
Theorem apk_classifier_noninterference
    (MODEL1 MODEL2 : option (list Z -> result float))
    (FEATURES1 FEATURES2 : list string) (file_path : string) :
  classifier_answers MODEL1 -> classifier_answers MODEL2 ->
  risk_view_of (run MODEL1 FEATURES1 file_path)
  = risk_view_of (run MODEL2 FEATURES2 file_path)
  /\ forall metadata,
       ai_analysis_of None FEATURES1 metadata
       = Ok {| ai_type := "Not Available"; confidence_percent := 0 |}.
Proof.
  intros H1 H2. split; [|reflexivity].
  rewrite (view_without_classifier MODEL1 FEATURES1 file_path H1).
  rewrite (view_without_classifier MODEL2 FEATURES2 file_path H2).
  reflexivity.
Qed.

End PipelineFacts.

(** A pipeline to run the example on: every file exists and parses, the
    metadata lists two permissions, VirusTotal knows no detection, the
    clone comparison finds nothing. *)
Definition example_metadata : Metadata :=
  Build_Metadata None (Some [READ_SMS; "android.permission.INTERNET"])
                 (Some "9f2c").

Lemma apk_classifier_noninterference_witness :
  risk_view_of
    (analyze_apk unit (fun _ => true) (fun _ => Ok tt)
       (fun _ _ => example_metadata)
       (fun _ => Ok (Build_VtReport None None (Some 0) (Some 70) None))
       (fun _ => Ok [])
       (Some (fun _ => Ok 0.93%float)) [READ_SMS] "app.apk")
  = risk_view_of
      (analyze_apk unit (fun _ => true) (fun _ => Ok tt)
         (fun _ _ => example_metadata)
         (fun _ => Ok (Build_VtReport None None (Some 0) (Some 70) None))
         (fun _ => Ok [])
         None [] "app.apk")
  /\ forall metadata,
       ai_analysis_of None [READ_SMS] metadata
       = Ok {| ai_type := "Not Available"; confidence_percent := 0 |}.
Proof.
  apply apk_classifier_noninterference.
  - intros vec. exists 0.93%float, 93. split; [reflexivity | vm_compute; reflexivity].
  - exact I.
Defined.

End ApkFacts.

(** * More properties of the URL checker *)

Module UrlInsightFacts.

Import PyText UrlInsights.

(** ** The rule-based score *)

(** X1. The rule-based score is a multiple of 5 between 0 and 100. *)
Theorem rule_based_score_bounded (url : string) (d : DomainF) (c : ContentF)
    (r : ReputationF) (v : VisualF) :
  0 <= calculate_rule_based_score url d c r v <= 100
  /\ calculate_rule_based_score url d c r v mod 5 = 0.
Proof.
  unfold calculate_rule_based_score. cbv zeta.
  repeat match goal with
         | |- context [if ?b then _ else _] => destruct b
         end;
    vm_compute; repeat split; congruence.
Qed.

(** X2. In the rule-based score a blacklist hit is one more addend: it adds
    35 to the score of the same input without the hit, up to the cap, and
    the Safe Browsing flag is not read at all. The weighted score of the
    same blacklisted input is 90. *)
Theorem rule_based_blacklist_is_additive (url : string) (d : DomainF)
    (c : ContentF) (gsb gsb' : option bool) (vt : option Z) (v : VisualF)
    (n : NetworkF) (ml : option float) :
  calculate_rule_based_score url d c (Build_ReputationF (Some true) gsb vt) v
  = Z.min 100
      (calculate_rule_based_score url d c (Build_ReputationF None gsb' vt) v + 35)
  /\ 35 <= calculate_rule_based_score url d c
             (Build_ReputationF (Some true) gsb vt) v
  /\ calculate_weighted_risk_score url d c
       (Build_ReputationF (Some true) gsb vt) v n ml
     = Ok (90, "Blacklisted or known threat detected").
Proof.
  split; [|split; [|reflexivity]];
    unfold calculate_rule_based_score; cbv zeta; simpl;
    repeat match goal with
           | |- context [if ?b then _ else _] => destruct b
           end;
    vm_compute; congruence.
Qed.

(** ** The insights *)

(** X3. The recommendation of the insights and the status of the report
    are cut at the same scores: low risk exactly for legitimate, medium for
    suspicious, high for risky. *)
Theorem recommendation_agrees_with_status (models_loaded : bool)
    (model_features : option (list string)) (risk_score : Z)
    (features_used : FeaturesUsed) :
  let recommendation :=
    mi_ml_recommendation
      (generate_ml_insights models_loaded model_features risk_score
         features_used) in
  (derive_status risk_score = Ok "legitimate"
   /\ recommendation = "Low risk - likely safe to proceed with normal caution")
  \/ (derive_status risk_score = Ok "suspicious"
      /\ recommendation
         = "Medium risk - verify the site's legitimacy before sharing sensitive data")
  \/ (derive_status risk_score = Ok "risky"
      /\ recommendation = "High risk - strongly recommend avoiding this site").
Proof.
  cbv zeta. rewrite UrlFacts.derive_status_spec. simpl.
  destruct (risk_score <? 25); [left; split; reflexivity|].
  destruct (risk_score <? 60); [right; left | right; right]; split; reflexivity.
Qed.

(** X4. At most three indicators are reported: when all four tests fire,
    the keyword indicator is the one dropped. *)
Theorem keyword_indicator_is_dropped (models_loaded : bool)
    (model_features : option (list string)) (risk_score : Z)
    (features_used : FeaturesUsed) :
  get (fu_domain_age features_used) 365 < 30 ->
  get (fu_has_ssl features_used) true = false ->
  truthy (fu_has_ip_address features_used) = true ->
  2 < get (fu_suspicious_keywords_count features_used) 0 ->
  In "Multiple suspicious keywords" (risk_indicators_of features_used)
  /\ mi_top_risk_indicators
       (generate_ml_insights models_loaded model_features risk_score
          features_used)
     = [ "Very new domain (high risk)"; "No SSL certificate";
         "Uses IP address instead of domain" ].
Proof.
  intros Hage Hssl Hip Hkw. simpl. unfold risk_indicators_of. cbv zeta.
  rewrite Hssl, Hip.
  replace (get (fu_domain_age features_used) 365 <? 30) with true
    by (symmetry; apply Z.ltb_lt; exact Hage).
  replace (get (fu_suspicious_keywords_count features_used) 0 >? 2) with true
    by (symmetry; apply Z.gtb_lt; exact Hkw).
  simpl. split; [tauto | reflexivity].
Qed.

Lemma keyword_indicator_is_dropped_witness :
  In "Multiple suspicious keywords"
     (risk_indicators_of
        (Build_FeaturesUsed (Some 3) (Some false) (Some true) (Some 4)))
  /\ mi_top_risk_indicators
       (generate_ml_insights true (Some ["url_length"]) 80
          (Build_FeaturesUsed (Some 3) (Some false) (Some true) (Some 4)))
     = [ "Very new domain (high risk)"; "No SSL certificate";
         "Uses IP address instead of domain" ].
Proof.
  apply keyword_indicator_is_dropped; simpl; try reflexivity; lia.
Defined.

(** X5. As [check_url_risk] calls it, a domain record without an age is
    reported as a very new domain, first in the list, and one without an
    SSL flag as having no certificate: the call fills the missing keys with
    -1 and False. With its own defaults, 365 and True, the function
    reports nothing for an empty dictionary. *)
Theorem missing_domain_keys_are_reported (models_loaded : bool)
    (model_features : option (list string)) (risk_score : Z)
    (age : option Z) (ssl tld ip : option bool) (c : ContentF) :
  hd_error
    (mi_top_risk_indicators
       (generate_ml_insights models_loaded model_features risk_score
          (features_used_of (Build_DomainF None ssl tld ip) c)))
  = Some "Very new domain (high risk)"
  /\ In "No SSL certificate"
       (mi_top_risk_indicators
          (generate_ml_insights models_loaded model_features risk_score
             (features_used_of (Build_DomainF age None tld ip) c)))
  /\ mi_top_risk_indicators
       (generate_ml_insights models_loaded model_features risk_score
          (Build_FeaturesUsed None None None None)) = [].
Proof.
  split; [|split; [|reflexivity]]; simpl; unfold risk_indicators_of; cbv zeta;
    simpl;
    repeat match goal with
           | |- context [if ?b then _ else _] => destruct b
           end;
    simpl; tauto.
Qed.

End UrlInsightFacts.

(** * Properties of the endpoints *)

Module UrlRouteFacts.

Import PyText UrlRoutes.

Lemma prefix_app (p s : string) : String.prefix p (p ++ s) = true.
Proof.
  induction p as [|c p IH]; simpl; [destruct s; reflexivity|].
  destruct (ascii_dec c c); [exact IH | contradiction].
Qed.

(** Adding the protocol gives a URL that starts with [http://] or
    [https://], leaves such a URL as it is, and so does nothing when done
    twice. *)
Lemma add_protocol_gives_scheme (url : string) :
  (startswith (add_protocol url) "http://"
   || startswith (add_protocol url) "https://") = true
  /\ add_protocol (add_protocol url) = add_protocol url.
Proof.
  assert (H : (startswith (add_protocol url) "http://"
               || startswith (add_protocol url) "https://") = true).
  { unfold add_protocol.
    destruct (startswith url "http://" || startswith url "https://") eqn:E;
      [exact E|].
    unfold startswith. rewrite (prefix_app "https://" url). apply orb_true_r. }
  split; [exact H|].
  unfold add_protocol at 1. rewrite H. reflexivity.
Qed.

Fixpoint all_space (s : string) : bool :=
  match s with
  | EmptyString => true
  | String c s' => isspace c && all_space s'
  end.

Lemma strip_all_space s : all_space s = true -> strip s = "".
Proof.
  unfold strip. induction s as [|c s IH]; simpl; [reflexivity|].
  intros H. apply andb_prop in H. destruct H as [-> H]. exact (IH H).
Qed.

Definition entry_for (check : string -> result Report) (url : string) : Report :=
  match check url with
  | Ok result => result
  | Raise e => error_report url e
  end.

(** X6. A URL made of whitespace only is refused by [/analyze_url] with
    status 400, the checker not being called; the same entry sent to
    [/bulk_analyze] is analysed, as the URL [https://]. *)
Theorem blank_url_refused_alone_analysed_in_bulk
    (check : string -> result Report) (u : string) :
  all_space u = true -> u <> "" ->
  analyze_url_endpoint (Some check)
    (Ok (Some {| body_url := Some (JString u) |}))
  = (ErrorJson "URL cannot be empty" None, 400)
  /\ bulk_analyze_endpoint (Some check)
       (Ok (Some {| body_urls := Some (UrlList [JString u]) |}))
     = (BulkJson true 1 [entry_for check "https://"], 200).
Proof.
  intros Hspace Hne.
  unfold analyze_url_endpoint, bulk_analyze_endpoint. run_bind. simpl.
  rewrite (strip_all_space u Hspace). simpl.
  split; [reflexivity|].
  assert (Hn : nonempty u = true).
  { unfold nonempty. destruct (String.eqb_spec u ""); [contradiction|reflexivity]. }
  rewrite Hn. unfold entry_for.
  change (add_protocol "") with "https://".
  destruct (check "https://"); reflexivity.
Qed.

Lemma blank_url_refused_alone_analysed_in_bulk_witness :
  analyze_url_endpoint (Some (fun url => Raise ("unreachable: " ++ url)))
    (Ok (Some {| body_url := Some (JString "   ") |}))
  = (ErrorJson "URL cannot be empty" None, 400)
  /\ bulk_analyze_endpoint (Some (fun url => Raise ("unreachable: " ++ url)))
       (Ok (Some {| body_urls := Some (UrlList [JString "   "]) |}))
     = (BulkJson true 1
          [entry_for (fun url => Raise ("unreachable: " ++ url)) "https://"],
        200).
Proof.
  apply blank_url_refused_alone_analysed_in_bulk;
    [reflexivity | discriminate].
Defined.

(** The entries of a bulk request that are analysed: the non-empty
    strings, stripped and given a protocol. *)
Fixpoint analysed_urls (urls : list jvalue) : list string :=
  match urls with
  | [] => []
  | JString u :: rest =>
      if nonempty u then add_protocol (strip u) :: analysed_urls rest
      else analysed_urls rest
  | JOther _ :: rest => analysed_urls rest
  end.

Lemma bulk_loop_spec check urls : forall results,
  bulk_loop check urls results
  = (results ++ map (entry_for check) (analysed_urls urls))%list.
Proof.
  induction urls as [|[u|t] rest IH]; intros results; simpl.
  - symmetry. apply app_nil_r.
  - destruct (nonempty u); [|apply IH]. unfold entry_for at 1. simpl.
    destruct (check (add_protocol (strip u))); rewrite IH, <- app_assoc;
      reflexivity.
  - apply IH.
Qed.

Lemma analysed_urls_length urls :
  (length (analysed_urls urls) <= length urls)%nat.
Proof.
  induction urls as [|[u|t] rest IH]; simpl; [lia | | lia].
  destruct (nonempty u); simpl; lia.
Qed.

Lemma analysed_urls_have_scheme urls :
  Forall (fun url => (startswith url "http://"
                      || startswith url "https://") = true)
         (analysed_urls urls).
Proof.
  induction urls as [|[u|t] rest IH]; simpl; [constructor | | exact IH].
  destruct (nonempty u); [|exact IH].
  constructor; [apply add_protocol_gives_scheme | exact IH].
Qed.

(** X7. A bulk request of at most 50 entries is answered with one result
    per entry that is a non-empty string, in order, each for the stripped
    URL with its protocol; an exception of the checker becomes an error
    entry with score -1 and the analysis goes on. Other entries are passed
    over silently, so the count is at most the number of entries. *)
Theorem bulk_answers_one_result_per_string
    (check : string -> result Report) (urls : list jvalue) :
  (length urls <= 50)%nat ->
  bulk_analyze_endpoint (Some check)
    (Ok (Some {| body_urls := Some (UrlList urls) |}))
  = (BulkJson true (Z.of_nat (length (analysed_urls urls)))
       (map (entry_for check) (analysed_urls urls)), 200)
  /\ (length (analysed_urls urls) <= length urls)%nat
  /\ Forall (fun url => (startswith url "http://"
                         || startswith url "https://") = true)
            (analysed_urls urls).
Proof.
  intros Hlen. unfold bulk_analyze_endpoint. run_bind. simpl.
  replace (Z.of_nat (length urls) >? 50) with false
    by (symmetry; apply UrlFacts.gtb_false; lia).
  rewrite firstn_all2 by lia.
  rewrite bulk_loop_spec. simpl. rewrite length_map.
  split; [reflexivity|].
  split; [apply analysed_urls_length | apply analysed_urls_have_scheme].
Qed.

Lemma bulk_answers_one_result_per_string_witness :
  bulk_analyze_endpoint (Some (fun url => Raise ("unreachable: " ++ url)))
    (Ok (Some {| body_urls :=
                   Some (UrlList [JString " example.com "; JOther "int"; JString "";
                                  JString "http://a.test"]) |}))
  = (BulkJson true
       (Z.of_nat (length (analysed_urls
                            [JString " example.com "; JOther "int"; JString "";
                             JString "http://a.test"])))
       (map (entry_for (fun url => Raise ("unreachable: " ++ url)))
            (analysed_urls [JString " example.com "; JOther "int"; JString "";
                            JString "http://a.test"])), 200)
  /\ (length (analysed_urls [JString " example.com "; JOther "int"; JString "";
                             JString "http://a.test"]) <= 4)%nat
  /\ Forall (fun url => (startswith url "http://"
                         || startswith url "https://") = true)
            (analysed_urls [JString " example.com "; JOther "int"; JString "";
                            JString "http://a.test"]).
Proof.
  apply (bulk_answers_one_result_per_string
           (fun url => Raise ("unreachable: " ++ url))
           [JString " example.com "; JOther "int"; JString ""; JString "http://a.test"]).
  simpl. lia.
Defined.

Lemma strip_nonempty u : nonempty (strip u) = true -> nonempty u = true.
Proof. destruct u; [discriminate | reflexivity]. Qed.

(** X8. An exception of the checker is answered differently by the two
    endpoints: [/analyze_url] answers 500 with the exception as details,
    [/bulk_analyze] answers 200 with an error entry of score -1 for the
    URL, stripped and with its protocol. *)
Theorem checker_exception_500_alone_entry_in_bulk
    (check : string -> result Report) (u : string) (e : exn) :
  nonempty (strip u) = true ->
  check (add_protocol (strip u)) = Raise e ->
  analyze_url_endpoint (Some check)
    (Ok (Some {| body_url := Some (JString u) |}))
  = (ErrorJson "An internal server error occurred" (Some e), 500)
  /\ bulk_analyze_endpoint (Some check)
       (Ok (Some {| body_urls := Some (UrlList [JString u]) |}))
     = (BulkJson true 1 [error_report (add_protocol (strip u)) e], 200).
Proof.
  intros Hne Hraise.
  unfold analyze_url_endpoint, bulk_analyze_endpoint. run_bind. simpl.
  rewrite Hne, (strip_nonempty u Hne). simpl. rewrite Hraise.
  split; reflexivity.
Qed.

Lemma checker_exception_500_alone_entry_in_bulk_witness :
  analyze_url_endpoint (Some (fun url => Raise ("timeout: " ++ url)))
    (Ok (Some {| body_url := Some (JString " shop.example ") |}))
  = (ErrorJson "An internal server error occurred"
       (Some ("timeout: " ++ add_protocol (strip " shop.example "))), 500)
  /\ bulk_analyze_endpoint (Some (fun url => Raise ("timeout: " ++ url)))
       (Ok (Some {| body_urls := Some (UrlList [JString " shop.example "]) |}))
     = (BulkJson true 1
          [error_report (add_protocol (strip " shop.example "))
             ("timeout: " ++ add_protocol (strip " shop.example "))], 200).
Proof.
  apply (checker_exception_500_alone_entry_in_bulk
           (fun url => Raise ("timeout: " ++ url)) " shop.example ");
    reflexivity.
Defined.

End UrlRouteFacts.

(** * Properties of the analyzers as the checker uses them *)

Module NetworkFacts.

Import PyText network_analyzer.

Section WithNetwork.

Variable requests_get : string -> result Response.
Variable is_request_exception : exn -> bool.
Variable soup_hrefs : string -> result (list string).
Variable urlparse_netloc : string -> result string.
Variable resolve_mx : string -> result nat.
Variable resolve_txt : string -> result (list string).

Let features_of := get_network_features requests_get is_request_exception
                 soup_hrefs urlparse_netloc resolve_mx resolve_txt.

Lemma dns_lookups_reachable f :
  nf_is_reachable (dns_lookups urlparse_netloc resolve_mx resolve_txt f)
  = nf_is_reachable f.
Proof.
  unfold dns_lookups.
  destruct (urlparse_netloc _); [|reflexivity].
  destruct (resolve_mx _); [|reflexivity].
  destruct (resolve_txt _); reflexivity.
Qed.

Lemma on_exception_reachable f e f' :
  on_exception is_request_exception f e = Ok f' ->
  nf_is_reachable f' = nf_is_reachable f.
Proof.
  unfold on_exception. destruct (is_request_exception e); [|discriminate].
  intros [= <-]. reflexivity.
Qed.

(** The analyzer reports a site reachable exactly when the request went
    through. *)
Lemma reachable_iff_request_succeeded url features :
  features_of url = Ok features ->
  nf_is_reachable features
  = match requests_get url with Ok _ => true | Raise _ => false end.
Proof.
  unfold features_of, get_network_features. cbv zeta.
  destruct (requests_get url) as [response|e].
  - destruct (soup_hrefs _) as [hrefs|e];
      [|intros H; exact (on_exception_reachable _ _ _ H)].
    destruct (urlparse_netloc _) as [domain|e] eqn:Hd;
      [|intros H; exact (on_exception_reachable _ _ _ H)].
    destruct (count_links _ _ _ _ _) as [[i x]|e];
      [|intros H; exact (on_exception_reachable _ _ _ H)].
    destruct (i + x >? 0).
    + destruct (truediv x (i + x)) as [ratio|e];
        [|intros H; exact (on_exception_reachable _ _ _ H)].
      intros [= <-]. rewrite dns_lookups_reachable. reflexivity.
    + intros [= <-]. rewrite dns_lookups_reachable. reflexivity.
  - intros H. exact (on_exception_reachable _ _ _ H).
Qed.

(** X9. On what the network analyzer returns, the network rule of the
    aggregation has two outcomes only: +10 and No security headers when
    the request went through, +20 and Site unreachable when it did not.
    The header flags and DNS flags of the analyzer sit under keys the rule
    does not read, so the discounts for security headers and DNS records
    and the penalty for redirects are never applied. *)
Theorem network_rule_on_analyzer_output (url : string) (features : Features)
    (s : scoring) :
  features_of url = Ok features ->
  network_rule (as_network_f features) s
  = match requests_get url with
    | Ok _ => risk 10 "No security headers" s
    | Raise _ => risk 20 "Site unreachable" s
    end.
Proof.
  intros H. unfold network_rule, as_network_f, truthy. simpl.
  rewrite (reachable_iff_request_succeeded url features H).
  destruct (requests_get url); reflexivity.
Qed.

End WithNetwork.

Lemma network_rule_on_analyzer_output_witness :
  network_rule
    (as_network_f
       {| nf_is_reachable := true; nf_final_url := "https://bank.example/";
          nf_has_csp_header := true; nf_has_hsts_header := true;
          nf_has_xfo_header := true; nf_outgoing_link_ratio := (-1)%float;
          nf_dns_has_mx_record := true; nf_dns_has_spf_record := true;
          nf_network_error := None |}) start
  = match Ok {| resp_url := "https://bank.example/";
                resp_has_header := fun _ => true;
                resp_content := "" |} : result Response with
    | Ok _ => risk 10 "No security headers" start
    | Raise _ => risk 20 "Site unreachable" start
    end.
Proof.
  apply (network_rule_on_analyzer_output
           (fun _ => Ok {| resp_url := "https://bank.example/";
                           resp_has_header := fun _ => true;
                           resp_content := "" |})
           (fun _ => true) (fun _ => Ok []) (fun _ => Ok "bank.example")
           (fun _ => Ok 1%nat) (fun _ => Ok ["v=spf1 -all"])
           "https://bank.example/").
  reflexivity.
Defined.

End NetworkFacts.

Module ReputationFacts.

Import PyText reputation_analyzer.

Lemma lower_ascii_idempotent c : lower_ascii (lower_ascii c) = lower_ascii c.
Proof.
  destruct c as [[] [] [] [] [] [] [] []]; reflexivity.
Qed.

Lemma lower_idempotent s : lower (lower s) = lower s.
Proof.
  induction s as [|c s IH]; [reflexivity|].
  simpl. rewrite lower_ascii_idempotent, IH. reflexivity.
Qed.

Lemma member_spec x S : member x S = true <-> In x S.
Proof.
  unfold member. rewrite existsb_exists. split.
  - intros (y & Hy & E). apply String.eqb_eq in E. subst. exact Hy.
  - intros H. exists x. split; [exact H | apply String.eqb_refl].
Qed.

Lemma trusted_are_known_safe trusted :
  In trusted TRUSTED_DOMAINS -> In trusted KNOWN_SAFE_DOMAINS.
Proof.
  intros H. apply member_spec.
  assert (A : forallb (fun t => member t KNOWN_SAFE_DOMAINS) TRUSTED_DOMAINS
              = true) by (vm_compute; reflexivity).
  rewrite forallb_forall in A. exact (A trusted H).
Qed.



Lemma truediv_ok a b : b <> 0 -> exists r, truediv a b = Ok r.
Proof.
  intros H. unfold truediv.
  destruct (Z.eqb_spec b 0) as [E|_]; [contradiction|].
  destruct (a =? 0); eexists; reflexivity.
Qed.

Section WithVirusTotal.

Variable API_KEY : option string.
Variable vt_request : string -> outcome VtResponse.

Let query := query_virustotal API_KEY vt_request.

Lemma vt_found_ok stats :
  exists scan, vt_found stats = Ok scan
    /\ qv_virustotal_positives scan
       = get (stat_malicious stats) 0 + get (stat_suspicious stats) 0
    /\ qv_scan_status scan = "found".
Proof.
  unfold vt_found. cbv zeta.
  destruct (_ >? 0).
  - destruct (truediv_ok
                (get (stat_malicious stats) 0 + get (stat_suspicious stats) 0)
                (Z.max (get (stat_malicious stats) 0
                        + get (stat_suspicious stats) 0
                        + get (stat_clean stats) 0
                        + get (stat_undetected stats) 0) 1)) as [r Hr];
      [lia|].
    run_bind. rewrite Hr. run_bind. eexists. repeat split.
  - run_bind. eexists. repeat split.
Qed.

Lemma vt_on_exception_silent e :
  qv_virustotal_positives (vt_on_exception e) = 0
  /\ In (qv_scan_status (vt_on_exception e))
        ["http_error"; "timeout"; "request_failed"; "unexpected_error"].
Proof. destruct e; simpl; tauto. Qed.

(** The statuses [query_virustotal] can give. *)
Lemma query_status url :
  In (qv_scan_status (query url))
     [ "api_key_missing"; "not_found"; "rate_limited"; "found"; "http_error";
       "timeout"; "request_failed"; "unexpected_error" ].
Proof.
  unfold query, query_virustotal.
  destruct (negb (configured API_KEY)); [simpl; tauto|].
  destruct (vt_request url) as [response|e].
  - destruct (status_code response =? 404); [simpl; tauto|].
    destruct (status_code response =? 429); [simpl; tauto|].
    destruct (_ && _); [simpl; tauto|].
    destruct (json response) as [stats|e].
    + destruct (vt_found_ok stats) as (scan & -> & _ & ->). simpl; tauto.
    + destruct (vt_on_exception_silent e) as [_ H]. simpl in H |- *. tauto.
  - destruct (vt_on_exception_silent e) as [_ H]. simpl in H |- *. tauto.
Qed.

(** X10. VirusTotal fails silently: [query_virustotal] never raises, and
    it reports detections only when the key is configured, the request
    went through with a status that is neither 404, 429 nor an HTTP error,
    and the answer could be decoded; the count is then malicious plus
    suspicious. In every other case (no key, time-out, rate limit, HTTP
    error, undecodable answer) the count is 0, as for a clean URL. *)
Theorem virustotal_failure_reports_no_detection (url : string) :
  qv_virustotal_positives (query url) <> 0 ->
  configured API_KEY = true
  /\ exists response stats,
       vt_request url = Done response
       /\ json response = Done stats
       /\ status_code response <> 404
       /\ status_code response <> 429
       /\ ~ (400 <= status_code response < 600)
       /\ qv_virustotal_positives (query url)
          = get (stat_malicious stats) 0 + get (stat_suspicious stats) 0.
Proof.
  unfold query, query_virustotal.
  destruct (configured API_KEY); simpl negb; cbv iota; [|intros H; now elim H].
  destruct (vt_request url) as [response|e] eqn:Hrequest;
    [|intros H; elim H; apply vt_on_exception_silent].
  destruct (Z.eqb_spec (status_code response) 404) as [|N404];
    [intros H; now elim H|].
  destruct (Z.eqb_spec (status_code response) 429) as [|N429];
    [intros H; now elim H|].
  destruct (_ && _) eqn:Hrange; [intros H; now elim H|].
  destruct (json response) as [stats|e] eqn:Hjson;
    [|intros H; elim H; apply vt_on_exception_silent].
  destruct (vt_found_ok stats) as (scan & -> & Hp & _).
  intros _. split; [reflexivity|]. exists response, stats.
  split; [reflexivity|]. split; [exact Hjson|]. split; [exact N404|].
  split; [exact N429|]. split; [|exact Hp].
  intros [Hlo Hhi]. apply andb_false_iff in Hrange.
  destruct Hrange as [F|F]; [apply Z.leb_gt in F | apply Z.ltb_ge in F]; lia.
Qed.

End WithVirusTotal.

Section WithReputation.

Variable GOOGLE_SAFE_BROWSING_API_KEY : option string.
Variable API_KEY : option string.
Variable lookup_urls : string -> result (option GsbEntry).
Variable vt_request : string -> outcome VtResponse.
Variable urlparse_netloc : string -> result string.
Variable now : float.

Let query := query_virustotal API_KEY vt_request.
Let features_of :=
  get_features GOOGLE_SAFE_BROWSING_API_KEY API_KEY lookup_urls vt_request
    urlparse_netloc now.

Lemma with_virustotal_ok result vt_result :
  exists f, with_virustotal now result vt_result = Ok f
    /\ rf_is_on_blacklist f
       = (if qv_virustotal_positives vt_result >? 0 then Some true
          else rf_is_on_blacklist result)
    /\ rf_is_gsb_threat f = rf_is_gsb_threat result
    /\ rf_virustotal_positives f = Some (qv_virustotal_positives vt_result)
    /\ (rf_scan_status f = qv_scan_status vt_result
        \/ qv_scan_status vt_result = "analyzing").
Proof.
  unfold with_virustotal. cbv zeta.
  assert (S : forall score : float,
             (if PrimFloat.eqb score 0
                 && String.eqb (qv_scan_status vt_result) "analyzing"
              then "clean" else qv_scan_status vt_result)
             = qv_scan_status vt_result
             \/ qv_scan_status vt_result = "analyzing").
  { intros score. destruct (String.eqb_spec (qv_scan_status vt_result)
                                            "analyzing") as [E|_].
    - right. exact E.
    - left. rewrite andb_false_r. reflexivity. }
  destruct (Z.gtb_spec (qv_virustotal_positives vt_result) 0) as [Hp|Hp].
  - destruct (Z.gtb_spec (get (qv_virustotal_total vt_result) 1) 0)
      as [Ht|Ht].
    + destruct (truediv_ok (qv_virustotal_positives vt_result)
                           (get (qv_virustotal_total vt_result) 1))
        as [r Hr]; [lia|].
      run_bind. rewrite Hr. run_bind. eexists. split; [reflexivity|].
      simpl. repeat split. apply S.
    + run_bind. eexists. split; [reflexivity|]. simpl. repeat split. apply S.
  - run_bind. eexists. split; [reflexivity|]. simpl. repeat split. apply S.
Qed.

(** What [get_features] can return, by the branch taken. *)
Inductive shape (url : string) (f : Features) : Prop :=
| Invalid :
    url = "" -> rf_scan_status f = "invalid_url" ->
    as_reputation_f f = Build_ReputationF (Some false) (Some false) (Some 0) ->
    shape url f
| NoDomain :
    rf_scan_status f = "no_domain" ->
    as_reputation_f f = Build_ReputationF None None None ->
    shape url f
| Whitelisted netloc :
    urlparse_netloc url = Ok netloc ->
    check_domain_whitelist (lower netloc) = true ->
    rf_scan_status f = "whitelisted" ->
    as_reputation_f f = Build_ReputationF (Some false) (Some false) (Some 0) ->
    shape url f
| Blacklisted :
    rf_scan_status f = "blacklisted" ->
    as_reputation_f f = Build_ReputationF (Some true) (Some false) (Some 0) ->
    shape url f
| SafeBrowsing :
    rf_scan_status f = "gsb_blacklisted" ->
    as_reputation_f f = Build_ReputationF (Some true) (Some true) (Some 0) ->
    shape url f
| Scanned :
    rf_scan_status f = qv_scan_status (query url) ->
    as_reputation_f f
    = Build_ReputationF
        (Some (qv_virustotal_positives (query url) >? 0)) (Some false)
        (Some (qv_virustotal_positives (query url))) ->
    shape url f.

Lemma get_features_shape url f : features_of url = Ok f -> shape url f.
Proof.
  unfold features_of, get_features.
  destruct (nonempty url) eqn:Hurl; simpl negb; cbv iota.
  2:{ intros [= <-]. apply Invalid; try reflexivity.
      unfold nonempty in Hurl. apply negb_false_iff in Hurl.
      apply String.eqb_eq in Hurl. exact Hurl. }
  unfold analysis.
  destruct (urlparse_netloc url) as [netloc|e] eqn:Hparse; run_bind;
    [|discriminate].
  destruct (nonempty (lower netloc)); simpl negb; cbv iota.
  2:{ intros [= <-]. apply NoDomain; reflexivity. }
  cbv zeta.
  destruct (check_domain_whitelist (lower netloc)) eqn:Hw.
  { intros [= <-]. apply (Whitelisted _ _ netloc); auto. }
  destruct (check_domain_blacklist (lower netloc)).
  { intros [= <-]. apply Blacklisted; reflexivity. }
  destruct (is_known_threat _).
  { intros [= <-]. apply SafeBrowsing; reflexivity. }
  destruct (with_virustotal_ok (analyzing (lower netloc))
              (query_virustotal API_KEY vt_request url))
    as (g & -> & Hb & Hg & Hp & Hs).
  intros [= <-]. apply Scanned.
  - destruct Hs as [Hs|Hs]; [exact Hs|].
    pose proof (query_status API_KEY vt_request url) as Q.
    rewrite Hs in Q. simpl in Q.
    repeat (destruct Q as [Q|Q]; [discriminate Q|]). contradiction.
  - unfold as_reputation_f. rewrite Hb, Hg, Hp. simpl.
    fold query. destruct (qv_virustotal_positives (query url) >? 0);
      reflexivity.
Qed.

(** X11. Through the reputation analyzer the VirusTotal tiers of the
    aggregation are never reached: whenever the analyzer reports a
    positive number of detections it also sets the blacklist flag, so the
    aggregation returns 90 at its blacklist test, whatever the count and
    whatever the other analyzers found. *)
Theorem detections_always_blacklist (url : string) (features : Features)
    (domain_f : DomainF) (content_f : ContentF) (visual_f : VisualF)
    (network_f : NetworkF) (ml_prediction : option float) :
  features_of url = Ok features ->
  0 < get (virustotal_positives (as_reputation_f features)) 0 ->
  calculate_weighted_risk_score url domain_f content_f
    (as_reputation_f features) visual_f network_f ml_prediction
  = Ok (90, "Blacklisted or known threat detected").
Proof.
  intros H Hpos. apply get_features_shape in H.
  destruct H as [_ _ E|_ E|? _ _ _ E|_ E|_ E|_ E]; rewrite E in Hpos |- *;
    simpl in Hpos; try lia; try reflexivity.
  apply Z.gtb_lt in Hpos.
  unfold calculate_weighted_risk_score, run_rules, blacklisted, truthy.
  simpl. rewrite Hpos. reflexivity.
Qed.


(** X13. The status clean is never reported: the answer of VirusTotal
    always carries a status of its own, which replaces the one the test
    for clean looks for. A URL scanned with no detection has the status
    found. *)
Theorem clean_status_is_never_reported (url : string) (features : Features) :
  features_of url = Ok features ->
  rf_scan_status features <> "clean"
  /\ rf_scan_status features <> "analyzing".
Proof.
  intros H. apply get_features_shape in H.
  destruct H as [_ E _|E _|? _ _ E _|E _|E _|E _]; rewrite E;
    try (split; discriminate).
  unfold query.
  pose proof (query_status API_KEY vt_request url) as Q. simpl in Q.
  repeat (destruct Q as [Q|Q]; [rewrite <- Q; split; discriminate|]).
  contradiction.
Qed.

End WithReputation.

(** X14. A whitelisted domain is not looked up: whatever the keys, Safe
    Browsing and VirusTotal would answer, the analyzer returns the same
    dictionary, with no blacklist flag and no detection. *)
Theorem whitelisted_domain_is_not_looked_up
    (gsb_key gsb_key' vt_key vt_key' : option string)
    (lookup_urls lookup_urls' : string -> result (option GsbEntry))
    (vt_request vt_request' : string -> outcome VtResponse)
    (urlparse_netloc : string -> result string) (now now' : float)
    (url netloc : string) :
  urlparse_netloc url = Ok netloc ->
  check_domain_whitelist netloc = true ->
  get_features gsb_key vt_key lookup_urls vt_request urlparse_netloc now url
  = get_features gsb_key' vt_key' lookup_urls' vt_request' urlparse_netloc
      now' url
  /\ exists features,
       get_features gsb_key vt_key lookup_urls vt_request urlparse_netloc
         now url = Ok features
       /\ as_reputation_f features
          = Build_ReputationF (Some false) (Some false) (Some 0).
Proof.
  intros Hparse Hw. unfold get_features.
  destruct (nonempty url); simpl negb; cbv iota.
  2:{ split; [reflexivity|]. eexists. split; reflexivity. }
  unfold analysis. rewrite Hparse. run_bind.
  assert (Hw' : check_domain_whitelist (lower netloc) = true).
  { unfold check_domain_whitelist in Hw |- *. rewrite lower_idempotent.
    exact Hw. }
  destruct (nonempty (lower netloc)) eqn:Hne; simpl negb; cbv iota.
  2:{ unfold nonempty in Hne. apply negb_false_iff in Hne.
      apply String.eqb_eq in Hne. rewrite Hne in Hw'. vm_compute in Hw'.
      discriminate. }
  cbv zeta. rewrite Hw'. split; [reflexivity|].
  eexists. split; reflexivity.
Qed.

Lemma whitelisted_domain_is_not_looked_up_witness :
  get_features None None (fun _ => Ok None) (fun _ => Failed Timeout)
    (fun url => Ok (plain_netloc url)) 0 "https://www.GitHub.com/login"
  = get_features (Some "k") (Some "k")
      (fun _ => Ok (Some (Build_GsbEntry true None)))
      (fun _ => Done (Build_VtResponse 200
                        (Done (Build_VtStats (Some 9) None None None None))))
      (fun url => Ok (plain_netloc url)) 1 "https://www.GitHub.com/login"
  /\ exists features,
       get_features None None (fun _ => Ok None) (fun _ => Failed Timeout)
         (fun url => Ok (plain_netloc url)) 0 "https://www.GitHub.com/login"
       = Ok features
       /\ as_reputation_f features
          = Build_ReputationF (Some false) (Some false) (Some 0).
Proof.
  apply (whitelisted_domain_is_not_looked_up None (Some "k") None (Some "k")
           (fun _ => Ok None) (fun _ => Ok (Some (Build_GsbEntry true None)))
           (fun _ => Failed Timeout)
           (fun _ => Done (Build_VtResponse 200
                             (Done (Build_VtStats (Some 9) None None None
                                      None))))
           (fun url => Ok (plain_netloc url)) 0 1
           "https://www.GitHub.com/login" "www.GitHub.com");
    vm_compute; reflexivity.
Defined.

(** X15. Every URL the checker short-circuits as trusted is one the
    reputation analyzer would put on its whitelist: the trusted domains
    are all known safe domains, and both tests clean the host and match
    subdomains in the same way. *)
Theorem trusted_domains_are_whitelisted
    (urlparse_netloc : string -> result string) (url : string) :
  is_trusted_domain urlparse_netloc url = true ->
  exists netloc,
    urlparse_netloc url = Ok netloc
    /\ check_domain_whitelist netloc = true.
Proof.
  unfold is_trusted_domain.
  destruct (urlparse_netloc url) as [netloc|e]; [|discriminate].
  cbv zeta. intros H. exists netloc. split; [reflexivity|].
  apply existsb_exists in H. destruct H as (trusted & Hin & Hm).
  apply trusted_are_known_safe in Hin.
  unfold check_domain_whitelist. cbv zeta.
  apply orb_true_iff in Hm. destruct Hm as [E|E].
  - apply String.eqb_eq in E. rewrite E.
    apply member_spec in Hin. rewrite Hin. reflexivity.
  - destruct (member _ _); [reflexivity|].
    apply existsb_exists. exists trusted. split; assumption.
Qed.

Lemma trusted_domains_are_whitelisted_witness :
  exists netloc,
    (fun url => Ok (plain_netloc url)) "https://docs.github.com/en" = Ok netloc
    /\ check_domain_whitelist netloc = true.
Proof.
  apply (trusted_domains_are_whitelisted (fun url => Ok (plain_netloc url))
           "https://docs.github.com/en").
  vm_compute. reflexivity.
Defined.

Lemma detections_always_blacklist_witness :
  calculate_weighted_risk_score "http://example.test/"
    no_domain no_content
    (as_reputation_f
       {| rf_error := None; rf_domain := Some "example.test";
          rf_is_on_blacklist := Some true; rf_is_on_whitelist := Some false;
          rf_is_gsb_threat := Some false; rf_gsb_threat_type := Some None;
          rf_virustotal_positives := Some 1;
          rf_reputation_score := Some 0.025%float;
          rf_scan_status := "found";
          rf_virustotal :=
            Some {| qv_error := None; qv_virustotal_positives := 1;
                    qv_virustotal_total := Some 80;
                    qv_api_available := true; qv_scan_status := "found";
                    qv_message := None; qv_rate_limited := None;
                    qv_timeout := None; qv_malicious := Some 1;
                    qv_suspicious := Some 0; qv_clean := Some 79;
                    qv_undetected := Some 0; qv_scan_date := Some None;
                    qv_reputation_score := Some 0.025%float |};
          rf_analysis_timestamp := Some 0%float |})
    no_visual no_network None
  = Ok (90, "Blacklisted or known threat detected").
Proof.
  apply (detections_always_blacklist None (Some "key") (fun _ => Ok None)
           (fun _ => Done (Build_VtResponse 200
                             (Done (Build_VtStats (Some 1) (Some 0) (Some 79)
                                      (Some 0) None))))
           (fun url => Ok (plain_netloc url)) 0 "http://example.test/").
  - vm_compute. reflexivity.
  - simpl. lia.
Defined.


Lemma clean_status_is_never_reported_witness :
  match get_features None (Some "key") (fun _ => Ok None)
          (fun _ => Done (Build_VtResponse 200
                            (Done (Build_VtStats (Some 0) (Some 0) (Some 80)
                                     (Some 0) None))))
          (fun url => Ok (plain_netloc url)) 0 "http://example.test/" with
  | Ok features =>
      rf_scan_status features = "found"
      /\ rf_scan_status features <> "clean"
      /\ rf_scan_status features <> "analyzing"
  | Raise _ => False
  end.
Proof.
  destruct (get_features None (Some "key") (fun _ => Ok None)
              (fun _ => Done (Build_VtResponse 200
                                (Done (Build_VtStats (Some 0) (Some 0)
                                         (Some 80) (Some 0) None))))
              (fun url => Ok (plain_netloc url)) 0 "http://example.test/")
    as [features|e] eqn:E.
  - split.
    + vm_compute in E. injection E as <-. reflexivity.
    + exact (clean_status_is_never_reported _ _ _ _ _ _ _ _ E).
  - vm_compute in E. discriminate E.
Defined.

Lemma virustotal_failure_reports_no_detection_witness :
  configured (Some "key") = true
  /\ exists response stats,
       (fun _ : string =>
          Done (Build_VtResponse 200
                  (Done (Build_VtStats (Some 2) (Some 1) (Some 70) (Some 7)
                           None)))) "http://example.test/" = Done response
       /\ json response = Done stats
       /\ status_code response <> 404
       /\ status_code response <> 429
       /\ ~ (400 <= status_code response < 600)
       /\ qv_virustotal_positives
            (query_virustotal (Some "key")
               (fun _ : string =>
                  Done (Build_VtResponse 200
                          (Done (Build_VtStats (Some 2) (Some 1) (Some 70)
                                   (Some 7) None))))
               "http://example.test/")
          = get (stat_malicious stats) 0 + get (stat_suspicious stats) 0.
Proof.
  apply (virustotal_failure_reports_no_detection (Some "key")
           (fun _ : string =>
              Done (Build_VtResponse 200
                      (Done (Build_VtStats (Some 2) (Some 1) (Some 70)
                               (Some 7) None))))
           "http://example.test/").
  vm_compute. discriminate.
Defined.

End ReputationFacts.

Module DomainFacts.

Import PyText domain_analyzer.

Lemma nonempty_lower s : nonempty (lower s) = nonempty s.
Proof. destruct s; reflexivity. Qed.

Lemma nonempty_false s : nonempty s = false -> s = "".
Proof.
  unfold nonempty. intros H. apply negb_false_iff in H.
  apply String.eqb_eq in H. exact H.
Qed.

(** A run of more digits contains a run of fewer. *)
Lemma search_digits_mono (n m : nat) s :
  (n <= m)%nat -> search_digits m s = true -> search_digits n s = true.
Proof.
  intros Hnm. induction s as [|c s IH]; simpl.
  - rewrite !orb_false_r. intros H. apply Nat.leb_le in H.
    apply Nat.leb_le. lia.
  - intros H. apply orb_true_iff in H. apply orb_true_iff.
    destruct H as [H|H].
    + left. apply Nat.leb_le in H. apply Nat.leb_le. lia.
    + right. exact (IH H).
Qed.

Section WithDomain.

Variable whois_age : string -> result (option Z).
Variable tld_extract : string -> result (string * string * string).
Variable shannon_entropy : string -> float.
Variable model : option (Z -> Z -> Z -> result Z).
Variable urlparse_netloc : string -> result string.

Let features_of :=
  get_features whois_age tld_extract shannon_entropy model urlparse_netloc.

(** What the [try] body returns for a URL that parses. *)
Lemma analysis_parsed url netloc :
  urlparse_netloc url = Ok netloc ->
  exists f,
    analysis whois_age tld_extract shannon_entropy model urlparse_netloc url
    = Ok f
    /\ df_has_ssl f = nonempty netloc && startswith url "https://"
    /\ df_analysis_method f = None.
Proof.
  intros H. unfold analysis. rewrite H. run_bind.
  rewrite nonempty_lower.
  destruct (nonempty netloc); simpl negb; cbv iota.
  - cbv zeta. destruct model as [predict|].
    + destruct (predict _ _ _); eexists; repeat split.
    + eexists; repeat split.
  - eexists; repeat split.
Qed.

(** X16. The SSL signal follows the scheme of the URL alone, and the rule
    for IP-literal hosts never fires: for a URL that parses, the domain
    analyzer sets [has_ssl] when the URL starts with https:// and has a
    host, with no certificate looked at, and it has no [uses_ip] key. *)
Theorem ssl_signal_is_the_url_scheme (url netloc : string) (s : scoring) :
  urlparse_netloc url = Ok netloc ->
  exists features,
    features_of url = Ok features
    /\ ssl_rule (as_domain_f features) s
       = (if nonempty netloc && startswith url "https://"
          then signal "Valid SSL certificate" s
          else risk 25 "No SSL certificate" s)
    /\ ip_rule (as_domain_f features) s = s.
Proof.
  intros H. destruct (analysis_parsed url netloc H) as (f & Hf & Hssl & _).
  exists f. unfold features_of, get_features. rewrite Hf.
  split; [reflexivity|]. split; [|reflexivity].
  unfold ssl_rule, as_domain_f, truthy. simpl. rewrite Hssl. reflexivity.
Qed.

(** X17. When the WHOIS lookup fails, the age rule of the aggregation runs
    on a guess from the spelling of the host: two digits in a row, or a
    dash followed by digits at the end, make it a very new domain of 30
    days (+30), also for a well-known name; otherwise a well-known name
    inside the host makes it an established domain of 13 years (-15); any
    other host gets +5 without a message. *)
Theorem whois_failure_age_rule (domain : string) (e : exn)
    (ssl tld ip : option bool) (s : scoring) :
  whois_age domain = Raise e ->
  domain_age_rule
    (Build_DomainF (Some (get_domain_age whois_age domain)) ssl tld ip) s
  = if search_digits 2 domain || search_dash_digits domain
    then risk 30 "Very new domain (30 days)" s
    else if existsb (fun old_domain => contains (lower domain) old_domain)
              old_domains
    then positive 15 "Established domain (13 years)" s
    else bump 5 s.
Proof.
  intros H. unfold get_domain_age. rewrite H. unfold estimate_domain_age.
  assert (E : search_digits 4 domain || search_dash_digits domain
              || search_digits 2 domain
              = search_digits 2 domain || search_dash_digits domain).
  { destruct (search_digits 4 domain) eqn:H4.
    - rewrite (search_digits_mono 2 4 domain) by (auto; lia). reflexivity.
    - simpl. apply orb_comm. }
  rewrite E. clear E.
  destruct (search_digits 2 domain || search_dash_digits domain);
    [reflexivity|].
  destruct (existsb _ old_domains); reflexivity.
Qed.

(** X18. The domain analyzer raises exactly on a non-empty URL that
    [urlparse] rejects, with the exception of [urlparse]: the handler of
    its [try] parses the URL again. Its fallback dictionary is returned
    for the empty URL only. *)
Theorem domain_fallback_only_for_empty_url (url : string) :
  (forall e, features_of url = Raise e
             <-> nonempty url = true /\ urlparse_netloc url = Raise e)
  /\ (forall features,
        features_of url = Ok features ->
        df_analysis_method features = Some "error_fallback" ->
        url = "").
Proof.
  unfold features_of, get_features.
  destruct (urlparse_netloc url) as [netloc|e0] eqn:Hparse.
  - destruct (analysis_parsed url netloc Hparse) as (f & -> & _ & Hm).
    split.
    + intros e. split; [discriminate | intros [_ H]; discriminate].
    + intros features [= <-] H. rewrite Hm in H. discriminate.
  - unfold analysis. rewrite Hparse. run_bind.
    destruct (nonempty url) eqn:Hne.
    + run_bind. split.
      * intros e. split.
        -- intros [= <-]. split; reflexivity.
        -- intros [_ [= <-]]. reflexivity.
      * intros features H. discriminate.
    + run_bind. split.
      * intros e. split; [discriminate | intros [H _]; discriminate].
      * intros _ _ _. apply nonempty_false. exact Hne.
Qed.

(** X19. A URL that [urlparse] rejects gets the error report of the
    checker, with the exception of [urlparse] as its error: the domain
    analyzer, called first, raises it again, and no other analyzer is
    called. *)
Theorem unparsable_url_gives_error_report
    (content_get_features : string -> result ContentF)
    (reputation_get_features : string -> result ReputationF)
    (network_get_network_features : string -> result NetworkF)
    (visual_get_features : string -> result VisualF)
    (ml_model : option (string -> result float)) (url : string) (e : exn) :
  nonempty url = true ->
  urlparse_netloc url = Raise e ->
  check_url_risk urlparse_netloc
    (fun url => features ← features_of url; Ok (as_domain_f features))
    content_get_features reputation_get_features
    network_get_network_features visual_get_features ml_model url
  = ([DomainAnalyzer], error_report url e).
Proof.
  intros Hne Hparse.
  assert (R : features_of url = Raise e).
  { unfold features_of, get_features, analysis. rewrite Hparse. run_bind.
    rewrite Hne. reflexivity. }
  unfold check_url_risk, is_trusted_domain. rewrite Hparse.
  unfold analyze, invoke. rewrite R. reflexivity.
Qed.

(** X20. The rule-based domain score is a number between 0 and 1, whatever
    the age, the flags, the counts and the entropy (a NaN included). *)
Theorem domain_risk_score_in_unit_interval (features : AllFeatures) :
  PrimFloat.leb 0 (calculate_domain_risk_score features) = true
  /\ PrimFloat.leb (calculate_domain_risk_score features) 1 = true.
Proof.
  unfold calculate_domain_risk_score. cbv zeta.
  repeat match goal with
         | |- context [if ?b then _ else _] =>
             lazymatch b with
             | PrimFloat.ltb _ (PrimFloat.add _ _) => fail
             | _ => destruct b
             end
         end;
    vm_compute; split; reflexivity.
Qed.

End WithDomain.

Lemma ssl_signal_is_the_url_scheme_witness :
  exists features,
    get_features (fun _ => Raise "whois") (fun _ => Raise "tldextract")
      (fun _ => 0%float) None (fun url => Ok (plain_netloc url))
      "https://198.51.100.7/login" = Ok features
    /\ ssl_rule (as_domain_f features) start
       = (if nonempty "198.51.100.7"
             && startswith "https://198.51.100.7/login" "https://"
          then signal "Valid SSL certificate" start
          else risk 25 "No SSL certificate" start)
    /\ ip_rule (as_domain_f features) start = start.
Proof.
  apply (ssl_signal_is_the_url_scheme (fun _ => Raise "whois")
           (fun _ => Raise "tldextract") (fun _ => 0%float) None
           (fun url => Ok (plain_netloc url))
           "https://198.51.100.7/login" "198.51.100.7" start).
  vm_compute. reflexivity.
Defined.

Lemma unparsable_url_gives_error_report_witness :
  check_url_risk (fun _ => Raise "Invalid IPv6 URL")
    (fun url =>
       features ← get_features (fun _ => Ok None) (fun _ => Raise "tld")
                    (fun _ => 0%float) None
                    (fun _ => Raise "Invalid IPv6 URL") url;
       Ok (as_domain_f features))
    (fun _ => Ok no_content) (fun _ => Ok no_reputation)
    (fun _ => Ok no_network) (fun _ => Ok no_visual) None "http://[::1"
  = ([DomainAnalyzer], error_report "http://[::1" "Invalid IPv6 URL").
Proof.
  apply (unparsable_url_gives_error_report (fun _ => Ok None)
           (fun _ => Raise "tld") (fun _ => 0%float) None
           (fun _ => Raise "Invalid IPv6 URL")
           (fun _ => Ok no_content) (fun _ => Ok no_reputation)
           (fun _ => Ok no_network) (fun _ => Ok no_visual) None
           "http://[::1" "Invalid IPv6 URL");
    reflexivity.
Defined.

Lemma whois_failure_age_rule_witness :
  domain_age_rule
    (Build_DomainF
       (Some (get_domain_age (fun _ => Raise "whois") "google24.example"))
       None None None) start
  = if search_digits 2 "google24.example"
       || search_dash_digits "google24.example"
    then risk 30 "Very new domain (30 days)" start
    else if existsb (fun old_domain =>
                       contains (lower "google24.example") old_domain)
              old_domains
    then positive 15 "Established domain (13 years)" start
    else bump 5 start.
Proof.
  apply (whois_failure_age_rule (fun _ => Raise "whois") "google24.example"
           "whois" None None None start).
  reflexivity.
Defined.

End DomainFacts.

(** * Properties of the content analyzer *)

Module ContentFacts.

Import PyText content_analyzer.

Lemma length_append (a b : string) :
  String.length (a ++ b) = (String.length a + String.length b)%nat.
Proof. induction a as [|c a IH]; simpl; [reflexivity | rewrite IH; reflexivity]. Qed.

(** Two strings with the same tail are the same before it. *)
Lemma append_inv_tail (t : string) : forall a b, a ++ t = b ++ t -> a = b.
Proof.
  induction a as [|c a IH]; intros [|d b] H.
  - reflexivity.
  - apply (f_equal String.length) in H.
    rewrite !length_append in H. simpl in H. lia.
  - apply (f_equal String.length) in H.
    rewrite !length_append in H. simpl in H. lia.
  - change (String c (a ++ t) = String d (b ++ t)) in H.
    injection H as -> H. f_equal. exact (IH b H).
Qed.

Lemma prefix_append (p s : string) : String.prefix p (p ++ s) = true.
Proof.
  induction p as [|c p IH]; simpl; [destruct s; reflexivity|].
  destruct (ascii_dec c c); [exact IH | contradiction].
Qed.

Lemma contains_prefix (x sub : string) :
  String.prefix sub x = true -> contains x sub = true.
Proof. intros H. destruct x; cbn [contains]; rewrite H; reflexivity. Qed.

Lemma contains_middle (a s c : string) : contains (a ++ s ++ c) s = true.
Proof.
  induction a as [|d a IH].
  - change (contains (s ++ c) s = true).
    apply contains_prefix. apply prefix_append.
  - change (contains (String d (a ++ s ++ c)) s = true).
    cbn [contains]. rewrite IH. apply orb_true_r.
Qed.

Lemma brand_loop_true domain brand : forall names,
  In brand names ->
  contains domain brand = true ->
  domain <> brand ++ ".com" ->
  domain <> "www." ++ brand ++ ".com" ->
  brand_loop domain names = true.
Proof.
  induction names as [|b rest IH]; intros Hin Hc H1 H2; [destruct Hin|].
  cbn [brand_loop]. destruct Hin as [->|Hin].
  - rewrite Hc. cbv zeta. cbn [existsb].
    destruct (String.eqb_spec domain (brand ++ ".com")); [contradiction|].
    destruct (String.eqb_spec domain ("www." ++ brand ++ ".com"));
      [contradiction|].
    reflexivity.
  - destruct (contains domain b); [|exact (IH Hin Hc H1 H2)].
    cbv zeta. destruct (negb _); [reflexivity | exact (IH Hin Hc H1 H2)].
Qed.

(** X21. A host under the own domain of a brand is reported as an
    impersonation of the brand: for each of the twelve brands, a URL whose
    host is a subdomain other than www of brand.com has the flag
    [brand_impersonation] set by the content analyzer, and the
    aggregation adds 25 for a possible brand impersonation in the URL.
    Only the hosts brand.com and www.brand.com are taken as real. The
    trusted-domain test keeps eleven of the brands from the analysis;
    spotify is not among the trusted domains. *)
Theorem own_subdomain_is_flagged_as_impersonation
    (urlparse : string -> result Parsed)
    (parse_qs_count : string -> result Z) (search_ip : string -> bool)
    (model : option (string -> result (Z * float)))
    (round3 : float -> float) (url : string) (parsed : Parsed)
    (brand sub : string) (n : Z) (s : scoring) :
  In brand brands ->
  nonempty url = true ->
  urlparse url = Ok parsed ->
  parse_qs_count (lower (query parsed)) = Ok n ->
  lower (netloc parsed) = sub ++ "." ++ brand ++ ".com" ->
  sub <> "www" ->
  url_brand_rule
    (as_content_f (get_features urlparse parse_qs_count search_ip model
                     round3 url)) s
  = risk 25 "Possible brand impersonation in URL" s.
Proof.
  intros Hin Hne Hparse Hqs Hhost Hsub.
  assert (B : brand_loop (lower (netloc parsed)) brands = true).
  { apply (brand_loop_true _ brand); [exact Hin | | |]; rewrite Hhost.
    - replace (sub ++ "." ++ brand ++ ".com")
        with ((sub ++ ".") ++ brand ++ ".com");
        [apply contains_middle|].
      clear. induction sub as [|c sub IH]; [reflexivity|].
      change (String c ((sub ++ ".") ++ brand ++ ".com")
              = String c (sub ++ "." ++ brand ++ ".com")).
      rewrite IH. reflexivity.
    - intros E. apply (f_equal String.length) in E.
      rewrite !length_append in E. simpl in E. lia.
    - intros E. apply Hsub.
      apply (append_inv_tail ("." ++ brand ++ ".com")). exact E. }
  assert (P : exists p,
             analyze_url_patterns urlparse parse_qs_count search_ip url = p
             /\ pf_brand_impersonation p = true).
  { unfold analyze_url_patterns, patterns_of_url. rewrite Hparse. run_bind.
    cbv zeta. rewrite Hqs.
    destruct (nonempty (lower (query parsed))); run_bind;
      eexists; (split; [reflexivity | exact B]). }
  destruct P as (p & Hp & Hb).
  unfold get_features. rewrite Hne. simpl negb. cbv iota zeta. rewrite Hp.
  unfold url_brand_rule, patterns_of, as_content_f, truthy.
  destruct model as [predict|]; [destruct (predict url) as [[? ?]|]|];
    simpl; rewrite Hb; reflexivity.
Qed.

Lemma own_subdomain_is_flagged_as_impersonation_witness :
  url_brand_rule
    (as_content_f
       (get_features
          (fun url => Ok {| netloc := plain_netloc url; path := "/";
                            query := "" |})
          (fun _ => Ok 0) (fun _ => false) None (fun x => x)
          "https://open.spotify.com/")) start
  = risk 25 "Possible brand impersonation in URL" start.
Proof.
  apply (own_subdomain_is_flagged_as_impersonation
           (fun url => Ok {| netloc := plain_netloc url; path := "/";
                             query := "" |})
           (fun _ => Ok 0) (fun _ => false) None (fun x => x)
           "https://open.spotify.com/"
           {| netloc := "open.spotify.com"; path := "/"; query := "" |}
           "spotify" "open" 0 start);
    try reflexivity.
  - vm_compute. tauto.
  - discriminate.
Defined.

(** X22. The rule-based content score of the patterns of any URL is a
    number between 0 and 1: the keyword part adds 0.1, 0.2 or 0.3, and
    the sum is cut at both ends. *)
Theorem content_risk_score_in_unit_interval
    (urlparse : string -> result Parsed)
    (parse_qs_count : string -> result Z) (search_ip : string -> bool)
    (url : string) :
  let score :=
    calculate_content_risk_score
      (analyze_url_patterns urlparse parse_qs_count search_ip url) in
  PrimFloat.leb 0 score = true /\ PrimFloat.leb score 1 = true.
Proof.
  cbv zeta.
  assert (K : forall k : Z,
             0 < k <= 18 ->
             py_min (PrimFloat.mul (Z2F k) 0.1) 0.3 = 0.1%float
             \/ py_min (PrimFloat.mul (Z2F k) 0.1) 0.3 = 0.2%float
             \/ py_min (PrimFloat.mul (Z2F k) 0.1) 0.3 = 0.3%float).
  { intros k Hk.
    assert (C : k = 1 \/ k = 2 \/ k = 3 \/ k = 4 \/ k = 5 \/ k = 6 \/ k = 7
                \/ k = 8 \/ k = 9 \/ k = 10 \/ k = 11 \/ k = 12 \/ k = 13
                \/ k = 14 \/ k = 15 \/ k = 16 \/ k = 17 \/ k = 18) by lia.
    repeat (destruct C as [->|C];
            [vm_compute; first [left; reflexivity
                               | right; left; reflexivity
                               | right; right; reflexivity]|]).
    subst k. vm_compute. right. right. reflexivity. }
  assert (R : forall features : Patterns,
             0 <= pf_phishing_keywords features <= 18 ->
             PrimFloat.leb 0 (calculate_content_risk_score features) = true
             /\ PrimFloat.leb (calculate_content_risk_score features) 1
                = true).
  { intros features Hk. unfold calculate_content_risk_score. cbv zeta.
    destruct (Z.gtb_spec (pf_phishing_keywords features) 0) as [Hpos|_].
    - destruct (K (pf_phishing_keywords features)) as [E|[E|E]]; [lia | | |];
        rewrite E; clear E K Hk Hpos;
        repeat match goal with
               | |- context [if ?b then _ else _] =>
                   lazymatch type of b with bool => destruct b end
               end;
        vm_compute; split; reflexivity.
    - clear K Hk;
        repeat match goal with
               | |- context [if ?b then _ else _] =>
                   lazymatch type of b with bool => destruct b end
               end;
        vm_compute; split; reflexivity. }
  apply R.
  unfold analyze_url_patterns, patterns_of_url.
  destruct (urlparse url) as [parsed|e]; run_bind;
    [|cbn [pf_phishing_keywords]; lia].
  cbv zeta.
  assert (L : 0 <= Z.of_nat
                     (length (List.filter
                                (fun keyword => contains (lower url) keyword)
                                phishing_keywords)) <= 18).
  { split; [lia|].
    pose proof (filter_length_le
                  (fun keyword => contains (lower url) keyword)
                  phishing_keywords) as H.
    change (length phishing_keywords) with 18%nat in H. lia. }
  destruct (nonempty (lower (query parsed))); run_bind.
  - destruct (parse_qs_count _); run_bind; cbn [pf_phishing_keywords];
      [exact L | lia].
  - cbn [pf_phishing_keywords]. exact L.
Qed.

End ContentFacts.

(** * The trusted-domain test at its edge *)

Module TrustedDomainFacts.

(** The ways of cutting a string in two. *)
Fixpoint splits (s : string) : list (string * string) :=
  ("", s)
  :: match s with
     | EmptyString => []
     | String c s' =>
         map (fun '(a, b) => (String c a, b)) (splits s')
     end.

Lemma splits_complete (a b : string) : In (a, b) (splits (a ++ b)).
Proof.
  induction a as [|c a IH]; simpl.
  - destruct b; left; reflexivity.
  - right. apply in_map_iff. exists (a, b). split; [reflexivity | exact IH].
Qed.

(** The test of [is_trusted_domain] on a host. *)
Definition trusted_host (netloc : string) : bool :=
  let domain := replace "www." "" (lower netloc) in
  existsb (fun trusted =>
             String.eqb domain trusted || endswith domain ("." ++ trusted))
          TRUSTED_DOMAINS.

Lemma www_inside_is_trusted (a b : string) :
  In (a ++ b) TRUSTED_DOMAINS -> trusted_host (a ++ "www." ++ b) = true.
Proof.
  intros Hin.
  assert (A : forallb
                (fun trusted =>
                   forallb (fun '(a, b) => trusted_host (a ++ "www." ++ b))
                           (splits trusted))
                TRUSTED_DOMAINS = true) by (vm_compute; reflexivity).
  rewrite forallb_forall in A. specialize (A _ Hin).
  rewrite forallb_forall in A. exact (A (a, b) (splits_complete a b)).
Qed.

(** X23. The trusted-domain test removes the text www. wherever it stands
    in the host, not only in front: a host obtained by writing www. at
    any place inside a trusted domain name passes the test, also where
    that makes it a host of another domain, as paywww.pal.com is a host
    of pal.com. The checker then returns the trusted report (legitimate,
    score 0) with no analyzer called. *)
Theorem www_inside_a_trusted_name_is_trusted
    (urlparse_netloc : string -> result string)
    (domain_get_features : string -> result DomainF)
    (content_get_features : string -> result ContentF)
    (reputation_get_features : string -> result ReputationF)
    (network_get_network_features : string -> result NetworkF)
    (visual_get_features : string -> result VisualF)
    (ml_model : option (string -> result float))
    (url a b : string) :
  In (a ++ b) TRUSTED_DOMAINS ->
  urlparse_netloc url = Ok (a ++ "www." ++ b) ->
  check_url_risk urlparse_netloc domain_get_features content_get_features
    reputation_get_features network_get_network_features visual_get_features
    ml_model url
  = ([], trusted_report url).
Proof.
  intros Hin Hparse. unfold check_url_risk, is_trusted_domain.
  rewrite Hparse. cbv zeta.
  pose proof (www_inside_is_trusted a b Hin) as H.
  unfold trusted_host in H. cbv zeta in H. rewrite H. reflexivity.
Qed.

Lemma www_inside_a_trusted_name_is_trusted_witness :
  check_url_risk (fun url => Ok (plain_netloc url))
    (fun _ => Raise "domain") (fun _ => Raise "content")
    (fun _ => Raise "reputation") (fun _ => Raise "network")
    (fun _ => Raise "visual") None "http://paywww.pal.com/login"
  = ([], trusted_report "http://paywww.pal.com/login").
Proof.
  apply (www_inside_a_trusted_name_is_trusted
           (fun url => Ok (plain_netloc url))
           (fun _ => Raise "domain") (fun _ => Raise "content")
           (fun _ => Raise "reputation") (fun _ => Raise "network")
           (fun _ => Raise "visual") None "http://paywww.pal.com/login"
           "pay" "pal.com").
  - vm_compute. tauto.
  - reflexivity.
Defined.

End TrustedDomainFacts.

(** * More properties of the APK engine *)

Module ApkCollaboratorFacts.

Import PyText ApkCollaborators.

(** ** The string scan *)

(** The number of strings that contain a keyword, whatever the case of
    their letters. *)
Definition occurrences (keyword : string) (strings : list string) : Z :=
  Z.of_nat (length (List.filter (fun text => contains (lower text) keyword)
                                strings)).

Lemma occurrences_app keyword pre text :
  occurrences keyword (pre ++ [text])
  = occurrences keyword pre
    + (if contains (lower text) keyword then 1 else 0).
Proof.
  unfold occurrences. rewrite List.filter_app, length_app. simpl.
  destruct (contains (lower text) keyword); simpl; lia.
Qed.

Lemma occurrences_nonneg keyword strings : 0 <= occurrences keyword strings.
Proof. unfold occurrences. lia. Qed.

Lemma count_keywords_lookup text keywords : forall found k,
  NoDup keywords ->
  count_keywords text keywords found !! k
  = if bool_decide (k ∈ keywords) && contains (lower text) k
    then Some (default 0 (found !! k) + 1)
    else found !! k.
Proof.
  unfold count_keywords.
  induction keywords as [|kw rest IH]; intros found k Hnd; [reflexivity|].
  apply NoDup_cons in Hnd. destruct Hnd as [Hnotin Hnd].
  cbn [fold_left]. rewrite (IH _ k Hnd).
  destruct (decide (k = kw)) as [->|Hne].
  - rewrite (bool_decide_eq_false_2 _ Hnotin).
    rewrite bool_decide_eq_true_2 by apply list_elem_of_here.
    simpl. destruct (contains (lower text) kw); [|reflexivity].
    rewrite lookup_insert_eq. reflexivity.
  - assert (E : bool_decide (k ∈ kw :: rest) = bool_decide (k ∈ rest)).
    { apply bool_decide_ext. rewrite elem_of_cons. tauto. }
    rewrite E.
    assert (L : (if contains (lower text) kw
                 then <[kw:=default 0 (found !! kw) + 1]> found
                 else found) !! k = found !! k).
    { destruct (contains (lower text) kw); [|reflexivity].
      apply lookup_insert_ne. congruence. }
    rewrite L. reflexivity.
Qed.

(** The counts after the strings [pre] have been scanned. *)
Definition counted (keywords pre : list string) (k : string) : option Z :=
  if bool_decide (k ∈ keywords) && (0 <? occurrences k pre)
  then Some (occurrences k pre) else None.

Lemma scan_loop keywords strings : forall found pre,
  NoDup keywords ->
  (forall k, found !! k = counted keywords pre k) ->
  forall k,
    fold_left (fun found text => count_keywords text keywords found)
              strings found !! k
    = counted keywords (pre ++ strings) k.
Proof.
  induction strings as [|text rest IH]; intros found pre Hnd Hinv k.
  - rewrite app_nil_r. apply Hinv.
  - cbn [fold_left].
    replace (pre ++ text :: rest)%list with ((pre ++ [text]) ++ rest)%list
      by (rewrite <- app_assoc; reflexivity).
    apply IH; [exact Hnd|]. clear k. intros k.
    rewrite count_keywords_lookup by exact Hnd.
    rewrite Hinv. unfold counted. rewrite occurrences_app.
    pose proof (occurrences_nonneg k pre) as Hpos.
    destruct (bool_decide (k ∈ keywords)); simpl; [|reflexivity].
    destruct (contains (lower text) k).
    + replace (0 <? occurrences k pre + 1) with true
        by (symmetry; apply Z.ltb_lt; lia).
      destruct (Z.ltb_spec 0 (occurrences k pre)); simpl; f_equal; lia.
    + rewrite Z.add_0_r. reflexivity.
Qed.

Lemma keywords_distinct : NoDup SUSPICIOUS_KEYWORDS.
Proof.
  apply (bool_decide_unpack _). vm_compute. exact I.
Qed.

(** X24. The string scan counts right: for the strings it collected, the
    dictionary of keywords has exactly the ten keywords that occur, each
    with the number of strings that contain it in any letter case; a
    keyword that occurs nowhere, and any other word, has no entry. *)
Theorem keyword_counts_are_exact (get_dex : result (list Dex))
    (findall_urls : string -> list string) (dexes : list Dex)
    (all_strings : list string) :
  get_dex = Ok dexes ->
  collect_strings dexes [] = Ok all_strings ->
  exists urls_found suspicious_keywords,
    scan_strings get_dex findall_urls = Scan urls_found suspicious_keywords
    /\ forall keyword,
         suspicious_keywords !! keyword
         = if bool_decide (keyword ∈ SUSPICIOUS_KEYWORDS)
              && (0 <? occurrences keyword all_strings)
           then Some (occurrences keyword all_strings)
           else None.
Proof.
  intros Hdex Hcollect. unfold scan_strings. rewrite Hdex. run_bind.
  rewrite Hcollect. eexists. eexists. split; [reflexivity|].
  intros keyword.
  apply (scan_loop SUSPICIOUS_KEYWORDS all_strings ∅ [] keywords_distinct).
  intros k. rewrite lookup_empty. unfold counted.
  rewrite andb_false_r. reflexivity.
Qed.

Lemma keyword_counts_are_exact_witness :
  exists urls_found suspicious_keywords,
    scan_strings
      (Ok [ {| get_strings := Some (Ok ["Enter PASSWORD"; "ok"]) |};
            {| get_strings := None |};
            {| get_strings := Some (Ok ["password and login"]) |} ])
      (fun _ => []) = Scan urls_found suspicious_keywords
    /\ forall keyword,
         suspicious_keywords !! keyword
         = if bool_decide (keyword ∈ SUSPICIOUS_KEYWORDS)
              && (0 <? occurrences keyword
                         ["Enter PASSWORD"; "ok"; "password and login"])
           then Some (occurrences keyword
                        ["Enter PASSWORD"; "ok"; "password and login"])
           else None.
Proof.
  apply (keyword_counts_are_exact
           (Ok [ {| get_strings := Some (Ok ["Enter PASSWORD"; "ok"]) |};
                 {| get_strings := None |};
                 {| get_strings := Some (Ok ["password and login"]) |} ])
           (fun _ => [])
           [ {| get_strings := Some (Ok ["Enter PASSWORD"; "ok"]) |};
             {| get_strings := None |};
             {| get_strings := Some (Ok ["password and login"]) |} ]
           ["Enter PASSWORD"; "ok"; "password and login"]);
    reflexivity.
Defined.

(** ** The VirusTotal report *)




Section WithVirusTotal.

Variable VIRUSTOTAL_API_KEY : option string.
Variable requests_get : string -> attempt VtResponse.
Variable strftime : Z -> result string.

Let report_of :=
  get_virustotal_report VIRUSTOTAL_API_KEY requests_get strftime.

(** The shapes of the report. *)
Lemma report_shapes file_hash report :
  report_of file_hash = Ok report ->
  (exists e, report = error_report e /\ nonempty e = true)
  \/ report = {| vt_error := None;
                 vt_status := Some "File not found in VirusTotal database.";
                 positives := None; total := None; scan_date := None |}
  \/ exists response attributes date,
       requests_get ("https://www.virustotal.com/api/v3/files/"
                     ++ str_hash file_hash) = Got response
       /\ json response = Got attributes
       /\ report
          = {| vt_error := None; vt_status := None;
               positives :=
                 Some (default 0 (last_analysis_stats attributes !! "malicious")
                       + default 0 (last_analysis_stats attributes
                                    !! "suspicious"));
               total := Some (sum_values (last_analysis_stats attributes));
               scan_date := Some date |}.
Proof.
  unfold report_of, get_virustotal_report.
  destruct VIRUSTOTAL_API_KEY as [api_key|].
  2:{ intros [= <-]. left. eexists. split; reflexivity. }
  destruct (nonempty api_key); simpl negb; cbv iota.
  2:{ intros [= <-]. left. eexists. split; reflexivity. }
  destruct (requests_get _) as [response|e|e] eqn:Hget.
  - destruct (status_code response =? 200).
    + destruct (json response) as [attributes|e|e] eqn:Hjson.
      * destruct (match last_analysis_date attributes with
                  | Some scan_timestamp =>
                      if scan_timestamp =? 0 then Ok "N/A"
                      else strftime scan_timestamp
                  | None => Ok "N/A"
                  end) as [date|e]; run_bind; [|discriminate].
        intros [= <-]. right. right. exists response, attributes, date.
        repeat split; assumption.
      * intros [= <-]. left. eexists. split; reflexivity.
      * discriminate.
    + destruct (status_code response =? 404).
      * intros [= <-]. right. left. reflexivity.
      * intros [= <-]. left. eexists. split; reflexivity.
  - intros [= <-]. left. eexists. split; reflexivity.
  - discriminate.
Qed.


(** X26. A failed lookup adds nothing to the risk: when the report has no
    count of flagging engines and is not the not-found answer (no key, no
    connection, or a status other than 200 and 404), the risk computed
    with it is the one computed without any VirusTotal report. *)
Theorem failed_lookup_adds_no_risk (file_hash : option string)
    (report : VtReport) (metadata : option Metadata)
    (clones : option (list Warning)) :
  report_of file_hash = Ok report ->
  positives report = None ->
  vt_status report = None ->
  calculate_risk {| ApkAnalysis.metadata := metadata;
                    virustotal := Some report; clone_analysis := clones |}
  = calculate_risk {| ApkAnalysis.metadata := metadata;
                      virustotal := None; clone_analysis := clones |}.
Proof.
  intros H Hp Hs. apply report_shapes in H.
  destruct H as [(e & -> & He)|[->|(response & attributes & date & _
                                    & _ & ->)]];
    try discriminate Hp; try discriminate Hs.
  unfold calculate_risk, partial_risks. cbv zeta. simpl get.
  destruct (permission_loop _ 0 []) as [permission_risk reasons].
  unfold vt_block, error_report, vt_truthy. simpl.
  rewrite He. simpl. reflexivity.
Qed.

End WithVirusTotal.


Lemma failed_lookup_adds_no_risk_witness :
  calculate_risk
    {| ApkAnalysis.metadata :=
         Some {| m_error := None;
                 permissions := Some ["android.permission.CAMERA"];
                 file_sha256 := Some "ab12" |};
       virustotal := Some (error_report "VirusTotal API error: 500");
       clone_analysis := Some [] |}
  = calculate_risk
      {| ApkAnalysis.metadata :=
           Some {| m_error := None;
                   permissions := Some ["android.permission.CAMERA"];
                   file_sha256 := Some "ab12" |};
         virustotal := None; clone_analysis := Some [] |}.
Proof.
  apply (failed_lookup_adds_no_risk (Some "key")
           (fun _ => Got {| status_code := 500;
                            json := OtherException "no body" |})
           (fun _ => Ok "") (Some "ab12")
           (error_report "VirusTotal API error: 500")).
  - vm_compute. reflexivity.
  - reflexivity.
  - reflexivity.
Defined.

(** ** The comparison with the known apps *)

Section WithComparison.

Variable ratio : string -> string -> float.

(** What one known app can add: nothing, or one warning of either type;
    never a signature mismatch for the signature N/A. *)
Lemma compare_with_adds apk_pkg apk_sig apk_name app warnings warnings' :
  compare_with ratio apk_pkg apk_sig apk_name app warnings = Ok warnings' ->
  warnings' = warnings
  \/ (exists msg,
        warnings'
        = (warnings ++ [ {| w_type := "signature_mismatch";
                            w_message := msg |} ])%list
        /\ eq_str apk_sig "N/A" = false)
  \/ exists msg,
       warnings'
       = (warnings ++ [ {| w_type := "impersonation_attempt";
                           w_message := msg |} ])%list.
Proof.
  unfold compare_with, subscript.
  destruct (ka_package_name app) as [app_pkg|]; run_bind; [|discriminate].
  destruct (eq_str apk_pkg app_pkg) eqn:Hpkg.
  - destruct (ka_signature_sha256 app) as [app_sig|]; run_bind;
      [|discriminate].
    destruct (negb (eq_str apk_sig app_sig) && negb (eq_str apk_sig "N/A"))
      eqn:Hsig; run_bind.
    + destruct (ka_app_name app) as [name|]; run_bind; [|discriminate].
      apply andb_true_iff in Hsig. destruct Hsig as [_ Hsig].
      apply negb_true_iff in Hsig.
      destruct (PrimFloat.ltb 0.85 _); run_bind; rewrite ?Hpkg; simpl negb;
        cbv iota; intros [= <-]; right; left; eexists;
        (split; [reflexivity | exact Hsig]).
    + destruct (ka_app_name app) as [name|]; run_bind; [|discriminate].
      destruct (PrimFloat.ltb 0.85 _); run_bind; rewrite ?Hpkg; simpl negb;
        cbv iota; intros [= <-]; left; reflexivity.
  - run_bind.
    destruct (ka_app_name app) as [name|]; run_bind; [|discriminate].
    destruct (PrimFloat.ltb 0.85 _); run_bind; rewrite ?Hpkg; simpl negb;
      cbv iota; intros [= <-].
    + right. right. eexists. reflexivity.
    + left. reflexivity.
Qed.

(** The risk that the clone warnings add. *)
Definition heuristic_risk_of (warnings : list Warning) : Z :=
  fst (heuristic_loop warnings 0 []).

Lemma heuristic_loop_risk warnings : forall risk reasons,
  fst (heuristic_loop warnings risk reasons)
  = risk + fst (heuristic_loop warnings 0 []).
Proof.
  induction warnings as [|w rest IH]; intros risk reasons; simpl; [lia|].
  rewrite (IH (risk + _)). rewrite (IH (0 + _)). lia.
Qed.

Lemma heuristic_risk_snoc warnings w :
  heuristic_risk_of (warnings ++ [w])
  = heuristic_risk_of warnings
    + (if String.eqb (w_type w) "signature_mismatch" then 65 else 45).
Proof.
  unfold heuristic_risk_of. induction warnings as [|v rest IH]; simpl.
  - reflexivity.
  - rewrite heuristic_loop_risk. rewrite IH.
    rewrite (heuristic_loop_risk rest (0 + _)). lia.
Qed.

Lemma compare_loop_bound apk_pkg apk_sig apk_name known_apps :
  forall warnings warnings',
    compare_loop ratio apk_pkg apk_sig apk_name known_apps warnings
    = Ok warnings' ->
    (length warnings' <= length warnings + length known_apps)%nat
    /\ heuristic_risk_of warnings'
       <= heuristic_risk_of warnings + 65 * Z.of_nat (length known_apps)
    /\ (eq_str apk_sig "N/A" = true ->
        heuristic_risk_of warnings'
        <= heuristic_risk_of warnings + 45 * Z.of_nat (length known_apps)).
Proof.
  induction known_apps as [|app rest IH]; intros warnings warnings'.
  - simpl. intros [= <-]. repeat split; lia.
  - cbn [compare_loop].
    destruct (compare_with ratio apk_pkg apk_sig apk_name app warnings)
      as [mid|e] eqn:Hone; run_bind; [|discriminate].
    intros Hrest. apply IH in Hrest. destruct Hrest as (Hlen & Hrisk & Hna).
    apply compare_with_adds in Hone.
    cbn [length]. rewrite Nat2Z.inj_succ.
    destruct Hone as [->|[(msg & -> & Hsig)|(msg & ->)]].
    + repeat split; [lia | lia | intros E; specialize (Hna E); lia].
    + rewrite length_app in Hlen. rewrite heuristic_risk_snoc in Hrisk, Hna.
      simpl in Hlen, Hrisk, Hna.
      repeat split; [lia | lia | intros E; congruence].
    + rewrite length_app in Hlen. rewrite heuristic_risk_snoc in Hrisk, Hna.
      simpl in Hlen, Hrisk, Hna.
      repeat split; [lia | lia | intros E; specialize (Hna E); lia].
Qed.

(** X27. Each known app gives at most one warning, since the two tests
    ask for the same and for a different package name: the warnings are
    no more than the known apps, and the risk they add is at most 65 per
    known app, at most 45 per known app when the APK has no certificate
    (signature N/A), for which no signature mismatch is ever reported. *)
Theorem one_warning_per_known_app (metadata : AppIdentity)
    (known_apps : list KnownApp) (warnings : list Warning) :
  compare_with_known_apps ratio metadata (Loaded known_apps) = Ok warnings ->
  (length warnings <= length known_apps)%nat
  /\ heuristic_risk_of warnings <= 65 * Z.of_nat (length known_apps)
  /\ (signature_sha256 metadata = Some "N/A" ->
      heuristic_risk_of warnings <= 45 * Z.of_nat (length known_apps)).
Proof.
  unfold compare_with_known_apps. intros H.
  apply compare_loop_bound in H. destruct H as (Hlen & Hrisk & Hna).
  change (heuristic_risk_of []) with 0 in Hrisk, Hna. simpl in Hlen.
  repeat split; [lia | lia |].
  intros E. rewrite E in Hna. specialize (Hna eq_refl). lia.
Qed.

End WithComparison.

Lemma one_warning_per_known_app_witness :
  (length [ {| w_type := "impersonation_attempt";
               w_message := "App name is very similar to 'Pay', but has a different package name." |} ]
   <= length [ {| ka_package_name := Some "com.pay";
                  ka_signature_sha256 := Some "aa";
                  ka_app_name := Some "Pay" |} ])%nat
  /\ heuristic_risk_of
       [ {| w_type := "impersonation_attempt";
            w_message := "App name is very similar to 'Pay', but has a different package name." |} ]
     <= 65 * Z.of_nat (length [ {| ka_package_name := Some "com.pay";
                                   ka_signature_sha256 := Some "aa";
                                   ka_app_name := Some "Pay" |} ])
  /\ (signature_sha256 {| package_name := Some "com.evil";
                          signature_sha256 := Some "N/A";
                          app_name := Some "Pay" |} = Some "N/A" ->
      heuristic_risk_of
        [ {| w_type := "impersonation_attempt";
             w_message := "App name is very similar to 'Pay', but has a different package name." |} ]
      <= 45 * Z.of_nat (length [ {| ka_package_name := Some "com.pay";
                                    ka_signature_sha256 := Some "aa";
                                    ka_app_name := Some "Pay" |} ])).
Proof.
  apply (one_warning_per_known_app (fun _ _ => 1%float)
           {| package_name := Some "com.evil";
              signature_sha256 := Some "N/A"; app_name := Some "Pay" |}
           [ {| ka_package_name := Some "com.pay";
                ka_signature_sha256 := Some "aa";
                ka_app_name := Some "Pay" |} ]).
  vm_compute. reflexivity.
Defined.

(** X28. Without the file of known apps every APK is charged as a clone:
    the comparison returns one configuration warning, which the scoring
    counts as a critical impersonation finding of weight 45. An app with
    no dangerous permission and no usable VirusTotal report then has risk
    45 and fair confidence. *)
Theorem missing_database_is_charged_as_clone
    (ratio : string -> string -> float) (identity : AppIdentity)
    (metadata : Metadata) (vt_report : option VtReport) :
  List.filter is_dangerous (get (permissions metadata) []) = [] ->
  (forall report, vt_report = Some report ->
                  nonempty (get (vt_error report) "") = true) ->
  exists warnings,
    compare_with_known_apps ratio identity FileNotFound = Ok warnings
    /\ calculate_risk {| ApkAnalysis.metadata := Some metadata;
                         virustotal := vt_report;
                         clone_analysis := Some warnings |}
       = Ok (55, "⚠️ Fair Confidence", 45,
             [ {| level := "CRITICAL"; risk_type := "Clone / Impersonation";
                  message := "Known apps database not found." |} ]).
Proof.
  intros Hperm Hvt. eexists. split; [reflexivity|].
  unfold calculate_risk, partial_risks. cbv zeta. simpl get.
  rewrite Hperm. simpl permission_loop. cbv iota beta.
  assert (V : vt_block (get vt_report no_vt) [] = Ok (None, [])).
  { unfold vt_block. destruct vt_report as [report|]; simpl get.
    - rewrite (Hvt report eq_refl). rewrite andb_false_r. reflexivity.
    - reflexivity. }
  rewrite V. reflexivity.
Qed.

Lemma missing_database_is_charged_as_clone_witness :
  exists warnings,
    compare_with_known_apps (fun _ _ => 0%float)
      {| package_name := Some "org.notes"; signature_sha256 := Some "c0";
         app_name := Some "Notes" |} FileNotFound = Ok warnings
    /\ calculate_risk
         {| ApkAnalysis.metadata :=
              Some {| m_error := None;
                      permissions := Some ["android.permission.INTERNET"];
                      file_sha256 := Some "ab12" |};
            virustotal :=
              Some (error_report "VirusTotal API key not found.");
            clone_analysis := Some warnings |}
       = Ok (55, "⚠️ Fair Confidence", 45,
             [ {| level := "CRITICAL"; risk_type := "Clone / Impersonation";
                  message := "Known apps database not found." |} ]).
Proof.
  apply (missing_database_is_charged_as_clone (fun _ _ => 0%float)
           {| package_name := Some "org.notes"; signature_sha256 := Some "c0";
              app_name := Some "Notes" |}
           {| m_error := None;
              permissions := Some ["android.permission.INTERNET"];
              file_sha256 := Some "ab12" |}
           (Some (error_report "VirusTotal API key not found."))).
  - vm_compute. reflexivity.
  - intros report [= <-]. reflexivity.
Defined.

(** ** The entry point *)

(** X29. A known-apps file that cannot be read or decoded condemns every
    APK: the exception leaves [compare_with_known_apps] and [analyze_apk],
    and the script prints the fixed report of critical risk with
    confidence 0, whatever the permissions and the VirusTotal report
    are. Only a missing file is caught. *)
Theorem unreadable_database_condemns_every_apk (Apk : Type)
    (path_exists : string -> bool) (open_apk : string -> result Apk)
    (extract_metadata : string -> Apk -> Metadata)
    (get_virustotal_report : option string -> result VtReport)
    (ratio : string -> string -> float)
    (identity_of : Metadata -> AppIdentity)
    (MODEL : option (list Z -> result float)) (FEATURES : list string)
    (file_path : string) (apk_object : Apk) (vt_report : VtReport)
    (e : exn) :
  path_exists file_path = true ->
  open_apk file_path = Ok apk_object ->
  m_error (extract_metadata file_path apk_object) = None ->
  get_virustotal_report
    (file_sha256 (extract_metadata file_path apk_object)) = Ok vt_report ->
  main (analyze_apk Apk path_exists open_apk extract_metadata
          get_virustotal_report
          (fun metadata =>
             compare_with_known_apps ratio (identity_of metadata)
               (LoadFailed e))
          MODEL FEATURES file_path)
  = PrintedError 0 "☠️ CRITICAL RISK - MALWARE LIKELY"
      [ {| level := "CRITICAL"; risk_type := "Analysis Error";
           message := "A critical error occurred: " ++ e |} ].
Proof.
  intros Hpath Hopen Hmeta Hvt. unfold analyze_apk.
  rewrite Hpath, Hopen. simpl negb. cbv iota zeta.
  rewrite Hmeta, Hvt. run_bind. reflexivity.
Qed.

Lemma unreadable_database_condemns_every_apk_witness :
  main (analyze_apk unit (fun _ => true) (fun _ => Ok tt)
          (fun _ _ => {| m_error := None; permissions := Some [];
                         file_sha256 := Some "ab12" |})
          (fun _ => Ok no_vt)
          (fun metadata =>
             compare_with_known_apps (fun _ _ => 0%float)
               ((fun _ => {| package_name := None; signature_sha256 := None;
                             app_name := None |}) metadata)
               (LoadFailed "Expecting value: line 1 column 1 (char 0)"))
          None [] "app.apk")
  = PrintedError 0 "☠️ CRITICAL RISK - MALWARE LIKELY"
      [ {| level := "CRITICAL"; risk_type := "Analysis Error";
           message := "A critical error occurred: "
                      ++ "Expecting value: line 1 column 1 (char 0)" |} ].
Proof.
  apply (unreadable_database_condemns_every_apk unit (fun _ => true)
           (fun _ => Ok tt)
           (fun _ _ => {| m_error := None; permissions := Some [];
                          file_sha256 := Some "ab12" |})
           (fun _ => Ok no_vt) (fun _ _ => 0%float)
           (fun _ => {| package_name := None; signature_sha256 := None;
                        app_name := None |})
           None [] "app.apk" tt no_vt
           "Expecting value: line 1 column 1 (char 0)");
    reflexivity.
Defined.

End ApkCollaboratorFacts.

(** * The rule engine of [apk_analyzer_project] *)

Module RiskEngineFacts.

Import risk_engine.

(** X30. The rule engine never reports more than 70: its three rules add
    at most 30, 25 and 15, so the cap at 100 is never reached. The score
    is a multiple of 5, there is always a reason, and the score is 0
    exactly when the only reason is that the app appears to be safe. *)
Theorem engine_score_at_most_70 (analysis_results : AnalysisResults) :
  let '(final_score, reasons) := calculate_risk_score analysis_results in
  0 <= final_score <= 70
  /\ final_score mod 5 = 0
  /\ reasons <> []
  /\ (final_score = 0
      <-> reasons
          = ["This app appears to be safe based on our static analysis."]).
Proof.
  unfold calculate_risk_score. cbv zeta.
  repeat match goal with
         | |- context [if ?b then _ else _] =>
             lazymatch type of b with bool => destruct b end
         end;
    unfold with_reason; cbn [app String.append]; cbv beta iota;
    (split; [lia|]); (split; [reflexivity|]); (split; [discriminate|]);
    (split; [intros H; first [reflexivity | vm_compute in H; discriminate H]
            | intros H; first [reflexivity | discriminate H]]).
Qed.

End RiskEngineFacts.
